(** * Home_helper_bot: reminder scheduling, verified against [bot.py]

    A shallow embedding of the reminder core of the bot: the trigger
    calculator [get_trigger], the scheduling of the main and early jobs
    [schedule_task], the fire callbacks [send_reminder] and
    [send_early_reminder], and the handlers that mutate tasks and
    categories ([mark_done], [edit_new_value_text], [edit_repeat_type],
    [edit_category_choice], [delete_task], [rename_category],
    [confirm_delete_category]).

    Conventions.
    - Python [int] is [Z]; [str] is [string], the UTF-8 bytes of the text.
      Module [Py] gives [str.split], [str.strip] and [int] as Python has
      them, beyond ASCII too; what is a decimal digit beyond ASCII is left
      to the Unicode table of the interpreter ([Unicodedata]).
    - A Python exception is a value [Raise e]; the store and the job table
      keep whatever was written before the exception.
    - The two SQL tables are lists of rows, the APScheduler job store is a
      finite map from job id to job, exactly as the memory job store
      indexes its jobs.
    - Identifiers (Telegram user ids, row ids, and the row ids the bot
      writes into callback data and reads back) are 64-bit integers by
      origin and are bound to SQL statements without a check.  The numbers
      a user types (interval, offset) are unbounded, and binding one that
      does not fit the 64 bits of an SQLite INTEGER raises
      [OverflowError]. *)

From stdpp Require Import base strings pretty gmap list.
From Stdlib Require Import ZArith Lia Ascii.

Local Open Scope Z_scope.

(** ** Exceptions and results *)

Inductive exn :=
| ValueError
| OverflowError
| AttributeError
| JobLookupError (job_id : string).

Inductive res (A : Type) :=
| Ok (a : A)
| Raise (e : exn).

Arguments Ok {A} a.
Arguments Raise {A} e.

Definition res_bind {A B} (r : res A) (k : A -> res B) : res B :=
  match r with
  | Ok a => k a
  | Raise e => Raise e
  end.

Notation "'let?' x := r 'in' k" := (res_bind r (fun x => k))
  (at level 10, x pattern, r at level 100, k at level 200).

(** ** The Unicode database of the interpreter

    Which characters beyond ASCII are decimal digits, and with which value,
    [int] and the [\d] of [re] read from the Unicode database the
    interpreter was built with ([unicodedata.decimal]).  That table grows
    with every Unicode version, so the bot is verified for every table. *)

Class Unicodedata := {
  unicodedata_decimal : N -> option Z;
  unicodedata_decimal_digit c d : unicodedata_decimal c = Some d -> 0 <= d <= 9
}.

(** A table that knows the Arabic-Indic digits U+0660 to U+0669 and no other
    digit beyond ASCII; the examples are run with it. *)
Definition arabic_indic_decimal (c : N) : option Z :=
  if ((1632 <=? c) && (c <=? 1641))%N then Some (Z.of_N c - 1632) else None.

Definition sample_unicodedata : Unicodedata.
Proof.
  refine {| unicodedata_decimal := arabic_indic_decimal |}.
  unfold arabic_indic_decimal. intros c d Hd.
  destruct ((1632 <=? c) && (c <=? 1641))%N eqn:E; [|discriminate].
  apply andb_prop in E as [E1 E2].
  apply N.leb_le in E1, E2. inversion Hd. lia.
Defined.

(** ** The Python string and integer primitives the bot relies on

    A [str] is held as its UTF-8 bytes; the texts the bot handles come from
    Telegram and from its own literals and are valid UTF-8. *)

Module Py.

(** [s.split(sep)] for a one-character separator. *)
Fixpoint split (sep : ascii) (s : string) : list string :=
  match s with
  | EmptyString => [EmptyString]
  | String c s' =>
      if Ascii.eqb c sep then EmptyString :: split sep s'
      else match split sep s' with
           | w :: ws => String c w :: ws
           | [] => [String c EmptyString]
           end
  end.

(** [sep.join(l)]. *)
Fixpoint join (sep : string) (l : list string) : string :=
  match l with
  | [] => EmptyString
  | [w] => w
  | w :: ws => w +:+ sep +:+ join sep ws
  end.

(** The number of bytes of the character that starts with byte [a]; 0 for
    a byte that starts no character. *)
Definition char_width (a : ascii) : N :=
  let n := N_of_ascii a in
  (if n <? 128 then 1 else if n <? 192 then 0 else if n <? 224 then 2
   else if n <? 240 then 3 else 4)%N.

(** The code point of a character of two, three and four bytes. *)
Definition low6 (a : ascii) : N := (N_of_ascii a mod 64)%N.

Definition utf8_2 (a b : ascii) : N :=
  ((N_of_ascii a mod 32) * 64 + low6 b)%N.

Definition utf8_3 (a b c : ascii) : N :=
  ((N_of_ascii a mod 16) * 4096 + low6 b * 64 + low6 c)%N.

Definition utf8_4 (a b c d : ascii) : N :=
  ((N_of_ascii a mod 8) * 262144 + low6 b * 4096 + low6 c * 64 + low6 d)%N.

(** The characters of a text, as code points.  A byte that starts no
    complete character, which valid UTF-8 does not have, stands for
    U+FFFD. *)
Fixpoint code_points (s : string) : list N :=
  match s with
  | EmptyString => []
  | String a s1 =>
      match char_width a, s1 with
      | 1%N, _ => N_of_ascii a :: code_points s1
      | 2%N, String b s2 => utf8_2 a b :: code_points s2
      | 3%N, String b (String c s3) => utf8_3 a b c :: code_points s3
      | 4%N, String b (String c (String d s4)) => utf8_4 a b c d :: code_points s4
      | _, _ => 65533%N :: code_points s1
      end
  end.

(** [str.isspace] of a character: U+0009 to U+000D, U+001C to U+0020,
    U+0085, U+00A0, U+1680, U+2000 to U+200A, U+2028, U+2029, U+202F,
    U+205F and U+3000. *)
Definition is_space (c : N) : bool :=
  (((9 <=? c) && (c <=? 13)) || ((28 <=? c) && (c <=? 32))
   || (c =? 133) || (c =? 160) || (c =? 5760)
   || ((8192 <=? c) && (c <=? 8202)) || (c =? 8232) || (c =? 8233)
   || (c =? 8239) || (c =? 8287) || (c =? 12288))%N.

(** [s.lstrip()]: the white space a text starts with is dropped, character
    by character (no white-space character takes four bytes). *)
Fixpoint lstrip (s : string) : string :=
  match s with
  | EmptyString => EmptyString
  | String a s1 =>
      match char_width a, s1 with
      | 1%N, _ => if is_space (N_of_ascii a) then lstrip s1 else s
      | 2%N, String b s2 => if is_space (utf8_2 a b) then lstrip s2 else s
      | 3%N, String b (String c s3) =>
          if is_space (utf8_3 a b c) then lstrip s3 else s
      | _, _ => s
      end
  end.

(** [s.rstrip()]: a text is emptied from the first byte on from which only
    white space follows. *)
Fixpoint rstrip (s : string) : string :=
  match s with
  | EmptyString => EmptyString
  | String a s' =>
      match lstrip s with
      | EmptyString => EmptyString
      | _ => String a (rstrip s')
      end
  end.

(** [s.strip()]. *)
Definition strip (s : string) : string := rstrip (lstrip s).

(** The white space [int] skips.  Below U+007F it is that of C's
    [isspace] (the blank and U+0009 to U+000D, not U+001C to U+001F); from
    U+007F on [int] first turns every character into a blank when
    [str.isspace] holds of it. *)
Definition int_space (c : N) : bool :=
  (if c <? 127 then ((9 <=? c) && (c <=? 13)) || (c =? 32) else is_space c)%N.

Section Decimal.

Context {unicode : Unicodedata}.

(** The value of a decimal digit ([\d] of [re]; what [int] reads as a
    digit): ['0'] to ['9'], and beyond ASCII what the Unicode database
    says, where no digit is white space. *)
Definition decimal (c : N) : option Z :=
  if (c <? 128)%N then
    if ((48 <=? c) && (c <=? 57))%N then Some (Z.of_N c - 48) else None
  else if is_space c then None
  else unicodedata_decimal c.

(** The digits of a decimal literal: groups of digits separated by single
    underscores, white space after them and nothing else.  [seen] tells
    whether the previous character was a digit. *)
Fixpoint digits (acc : Z) (seen : bool) (l : list N) : option Z :=
  match l with
  | [] => if seen then Some acc else None
  | c :: l' =>
      match decimal c with
      | Some d => digits (10 * acc + d) true l'
      | None =>
          if (c =? 95)%N && seen then digits acc false l'
          else if seen && forallb int_space l then Some acc
          else None
      end
  end.

Fixpoint skip_space (l : list N) : list N :=
  match l with
  | [] => []
  | c :: l' => if int_space c then skip_space l' else l
  end.

(** [int(s)] in base ten; [None] stands for [ValueError].  (The texts
    that reach [int] are messages and callback data, at most 4096
    characters, which is below the 4300 digits from which recent
    interpreters refuse a literal.) *)
Definition int (s : string) : option Z :=
  match skip_space (code_points s) with
  | 43%N :: r => digits 0 false r
  | 45%N :: r => Z.opp <$> digits 0 false r
  | r => digits 0 false r
  end.

End Decimal.

(** The truth value of an integer, of an optional string. *)
Definition truthy (n : Z) : bool := negb (n =? 0).

Definition truthy_str (s : option string) : bool :=
  match s with
  | Some (String _ _) => true
  | _ => false
  end.

End Py.

(** ** Dates, times and durations

    A [date] is its proleptic Gregorian ordinal ([date.toordinal()]); a
    naive [datetime] is the number of microseconds since the midnight that
    starts ordinal 0, so that [combine d] is [d] days; a [timedelta] is a
    number of microseconds. *)

Definition date := Z.
Definition datetime := Z.
Definition timedelta := Z.

Definition us_per_minute : Z := 60000000.
Definition us_per_hour : Z := 3600000000.
Definition us_per_day : Z := 86400000000.

(** [date.min] and [date.max] as ordinals, and 1970-01-01. *)
Definition MINORDINAL : Z := 1.
Definition MAXORDINAL : Z := 3652059.
Definition ORDINAL_1970 : Z := 719163.

(** [datetime.combine(d, datetime.min.time())]. *)
Definition combine (d : date) : datetime := d * us_per_day.

Definition date_of (x : datetime) : date := x / us_per_day.
Definition hour_of (x : datetime) : Z := (x mod us_per_day) / us_per_hour.
Definition minute_of (x : datetime) : Z := (x mod us_per_hour) / us_per_minute.

(** [timedelta(days=, hours=, minutes=)]: the normalised day count must stay
    within 999999999 days. *)
Definition mk_timedelta (days hours minutes : Z) : res timedelta :=
  let us := days * us_per_day + hours * us_per_hour + minutes * us_per_minute in
  if (-999999999 <=? us / us_per_day) && (us / us_per_day <=? 999999999)
  then Ok us else Raise OverflowError.

(** [x + d] on a datetime: the result must be a date of years 1 to 9999. *)
Definition dt_add (x : datetime) (d : timedelta) : res datetime :=
  let y := x + d in
  if (MINORDINAL <=? date_of y) && (date_of y <=? MAXORDINAL)
  then Ok y else Raise OverflowError.

(** ** The rows of the two tables ([database.py]) *)

Record Category := {
  cat_id : Z;
  cat_user_id : Z;
  cat_name : string
}.

Record Task := {
  task_id : Z;
  user_id : Z;
  title : string;
  category_id : option Z;
  due_time : string;            (* "HH:MM" *)
  start_date : date;
  repeat_type : string;         (* 'none', 'daily', 'weekly', 'interval' *)
  repeat_days : option string;  (* for weekly: "mon,tue" *)
  interval_days : Z;
  reminder_offset : Z;          (* 0: no early reminder *)
  is_done : bool;
  created_at : datetime
}.

(** ** APScheduler triggers

    A trigger value records the arguments its constructor was called with.
    [CronDate d h m] is [CronTrigger(year=, month=, day=, hour=, minute=)]
    with the three calendar fields held as the date [d] they denote. *)

Inductive Trigger :=
| CronTime (hour minute : Z)
| CronWeekly (day_of_week : string) (hour minute : Z)
| CronDate (day : date) (hour minute : Z)
| Interval (days : Z) (start : datetime).

Definition valid_time_of_day (hour minute : Z) : bool :=
  (0 <=? hour) && (hour <=? 23) && (0 <=? minute) && (minute <=? 59).

Definition weekday_names : list string :=
  ["mon"; "tue"; "wed"; "thu"; "fri"; "sat"; "sun"]%string.

Definition is_weekday (s : string) : bool :=
  existsb (String.eqb s) weekday_names.

(** The cron trigger checks each field against its range (hour 0-23, minute
    0-59, year 1970-9999) and raises [ValueError] otherwise.  For the
    day-of-week field only lists of day names are covered, which is what the
    dialogue stores. *)
Definition CronTrigger_hm (hour minute : Z) : res Trigger :=
  if valid_time_of_day hour minute then Ok (CronTime hour minute)
  else Raise ValueError.

Definition CronTrigger_dow (day_of_week : string) (hour minute : Z) : res Trigger :=
  if forallb is_weekday (Py.split "," day_of_week) && valid_time_of_day hour minute
  then Ok (CronWeekly day_of_week hour minute)
  else Raise ValueError.

Definition CronTrigger_ymd (d : date) (hour minute : Z) : res Trigger :=
  if (ORDINAL_1970 <=? d) && (d <=? MAXORDINAL) && valid_time_of_day hour minute
  then Ok (CronDate d hour minute)
  else Raise ValueError.

(** [IntervalTrigger(days=, start_date=)] builds [timedelta(days=days)]. *)
Definition IntervalTrigger (days : Z) (start : datetime) : res Trigger :=
  let? _ := mk_timedelta days 0 0 in Ok (Interval days start).

Section Bot.

Context {unicode : Unicodedata}.

(** ** The trigger calculator *)

(** [hour, minute = map(int, task.due_time.split(':'))] *)
Definition unpack_due_time (due : string) : res (Z * Z) :=
  match Py.split ":" due with
  | [a; b] =>
      match Py.int a, Py.int b with
      | Some hour, Some minute => Ok (hour, minute)
      | _, _ => Raise ValueError
      end
  | _ => Raise ValueError
  end.

(** Lines 104-110 of [get_trigger]: the time of day of the early reminder. *)
Definition early_time (hour minute offset : Z) : Z * Z :=
  let minute := minute - offset in
  let '(hour, minute) :=
    if minute <? 0 then (hour - 1, minute + 60) else (hour, minute) in
  let hour := if hour <? 0 then 23 else hour in
  (hour, minute).

(** Lines 86-92 of [schedule_task]: the same derivation on the locals
    [offset_hour] and [offset_minute], which the function never reads. *)
Definition schedule_task_offset_time (hour minute offset : Z) : Z * Z :=
  let offset_hour := hour in
  let offset_minute := minute - offset in
  let '(offset_hour, offset_minute) :=
    if offset_minute <? 0 then (offset_hour - 1, offset_minute + 60)
    else (offset_hour, offset_minute) in
  let offset_hour := if offset_hour <? 0 then 23 else offset_hour in
  (offset_hour, offset_minute).

(** [start + timedelta(days=n)] when [start < now], else [start]. *)
Definition roll_forward (start now : datetime) (n : Z) : res datetime :=
  if start <? now then
    let? d := mk_timedelta n 0 0 in dt_add start d
  else Ok start.

(** Lines 112-129 of [get_trigger]: the trigger for a time of day. *)
Definition make_trigger (task : Task) (hour minute : Z) (now : datetime)
  : res Trigger :=
  if String.eqb (repeat_type task) "daily" then
    CronTrigger_hm hour minute
  else if String.eqb (repeat_type task) "weekly"
          && Py.truthy_str (repeat_days task) then
    let days := Py.split "," (default EmptyString (repeat_days task)) in
    CronTrigger_dow (Py.join "," days) hour minute
  else if String.eqb (repeat_type task) "interval"
          && Py.truthy (interval_days task) then
    let? d := mk_timedelta 0 hour minute in
    let? start_datetime := dt_add (combine (start_date task)) d in
    let? start_datetime := roll_forward start_datetime now (interval_days task) in
    IntervalTrigger (interval_days task) start_datetime
  else
    let? d := mk_timedelta 0 hour minute in
    let? run_date := dt_add (combine (start_date task)) d in
    let? run_date := roll_forward run_date now 1 in
    CronTrigger_ymd (date_of run_date) (hour_of run_date) (minute_of run_date).

Definition get_trigger (task : Task) (offset : bool) (now : datetime)
  : res Trigger :=
  let? (hour, minute) := unpack_due_time (due_time task) in
  let '(hour, minute) :=
    if offset && Py.truthy (reminder_offset task)
    then early_time hour minute (reminder_offset task)
    else (hour, minute) in
  make_trigger task hour minute now.

(** ** The bot's state: the two tables, the job store, what was sent *)

Inductive JobFunc := f_send_reminder | f_send_early_reminder.

Record Job := {
  func : JobFunc;
  trigger : Trigger;
  args : list Z
}.

(** The texts the bot sends, by kind and by the values rendered in them. *)
Inductive Text :=
| TxtReminder (task_title : string) (category_name : option string)
              (due : string) (done_button : Z)
| TxtEarlyReminder (offset : Z) (task_title due : string)
| TxtTaskDone (task_title : string)
| TxtTaskNotFound
| TxtBadTime
| TxtBadOffset
| TxtTaskUpdated
| TxtRepeatUpdated
| TxtCategoryUpdated
| TxtTaskDeleted
| TxtEmptyName
| TxtCategoryRenamed
| TxtCategoryNotFound
| TxtCategoryDeleted
| TxtCategoriesMenu (names : list string)
| TxtAnswer.

Inductive Event :=
| send_message (chat_id : Z) (text : Text)   (* [bot.send_message] *)
| reply (text : Text).                       (* an answer inside the dialogue *)

Record World := {
  tasks : list Task;
  categories : list Category;
  jobs : gmap string Job;
  outbox : list Event
}.

Definition set_tasks (f : list Task -> list Task) (w : World) : World :=
  {| tasks := f (tasks w); categories := categories w;
     jobs := jobs w; outbox := outbox w |}.

Definition set_categories (f : list Category -> list Category) (w : World) : World :=
  {| tasks := tasks w; categories := f (categories w);
     jobs := jobs w; outbox := outbox w |}.

Definition set_jobs (f : gmap string Job -> gmap string Job) (w : World) : World :=
  {| tasks := tasks w; categories := categories w;
     jobs := f (jobs w); outbox := outbox w |}.

Definition set_outbox (f : list Event -> list Event) (w : World) : World :=
  {| tasks := tasks w; categories := categories w;
     jobs := jobs w; outbox := f (outbox w) |}.

(** A handler runs on the state and either returns or raises; what it wrote
    before raising stays written. *)
Definition M (A : Type) : Type := World -> res A * World.

Definition ret {A} (a : A) : M A := fun w => (Ok a, w).

Definition bind {A B} (m : M A) (k : A -> M B) : M B :=
  fun w => match m w with
           | (Ok a, w') => k a w'
           | (Raise e, w') => (Raise e, w')
           end.

Definition lift {A} (r : res A) : M A := fun w => (r, w).

Global Instance M_ret : MRet M := @ret.
Global Instance M_bind : MBind M := fun A B k m => bind m k.

Definition emit (e : Event) : M unit :=
  fun w => (Ok tt, set_outbox (fun o => o ++ [e]) w).

(** *** Rows: field updates and queries *)

Definition set_title (v : string) (t : Task) : Task :=
  {| task_id := task_id t; user_id := user_id t; title := v;
     category_id := category_id t; due_time := due_time t;
     start_date := start_date t; repeat_type := repeat_type t;
     repeat_days := repeat_days t; interval_days := interval_days t;
     reminder_offset := reminder_offset t; is_done := is_done t;
     created_at := created_at t |}.

Definition set_category_id (v : option Z) (t : Task) : Task :=
  {| task_id := task_id t; user_id := user_id t; title := title t;
     category_id := v; due_time := due_time t;
     start_date := start_date t; repeat_type := repeat_type t;
     repeat_days := repeat_days t; interval_days := interval_days t;
     reminder_offset := reminder_offset t; is_done := is_done t;
     created_at := created_at t |}.

Definition set_due_time (v : string) (t : Task) : Task :=
  {| task_id := task_id t; user_id := user_id t; title := title t;
     category_id := category_id t; due_time := v;
     start_date := start_date t; repeat_type := repeat_type t;
     repeat_days := repeat_days t; interval_days := interval_days t;
     reminder_offset := reminder_offset t; is_done := is_done t;
     created_at := created_at t |}.

Definition set_repeat (ty : string) (days : option string) (n : Z) (t : Task) : Task :=
  {| task_id := task_id t; user_id := user_id t; title := title t;
     category_id := category_id t; due_time := due_time t;
     start_date := start_date t; repeat_type := ty;
     repeat_days := days; interval_days := n;
     reminder_offset := reminder_offset t; is_done := is_done t;
     created_at := created_at t |}.

Definition set_reminder_offset (v : Z) (t : Task) : Task :=
  {| task_id := task_id t; user_id := user_id t; title := title t;
     category_id := category_id t; due_time := due_time t;
     start_date := start_date t; repeat_type := repeat_type t;
     repeat_days := repeat_days t; interval_days := interval_days t;
     reminder_offset := v; is_done := is_done t;
     created_at := created_at t |}.

Definition set_is_done (v : bool) (t : Task) : Task :=
  {| task_id := task_id t; user_id := user_id t; title := title t;
     category_id := category_id t; due_time := due_time t;
     start_date := start_date t; repeat_type := repeat_type t;
     repeat_days := repeat_days t; interval_days := interval_days t;
     reminder_offset := reminder_offset t; is_done := v;
     created_at := created_at t |}.

Definition set_cat_name (v : string) (c : Category) : Category :=
  {| cat_id := cat_id c; cat_user_id := cat_user_id c; cat_name := v |}.

(** [session.query(Task).filter(Task.id == task_id).first()] *)
Definition task_by_id (id : Z) (w : World) : option Task :=
  List.find (fun t => task_id t =? id) (tasks w).

(** [session.query(Task).filter(Task.id == task_id,
    Task.user_id == from_user).first()] *)
Definition task_of_user (id from_user : Z) (w : World) : option Task :=
  List.find (fun t => (task_id t =? id) && (user_id t =? from_user)) (tasks w).

(** [session.query(Category).filter(Category.id == cat_id,
    Category.user_id == from_user).first()] *)
Definition category_of_user (id from_user : Z) (w : World) : option Category :=
  List.find (fun c => (cat_id c =? id) && (cat_user_id c =? from_user))
            (categories w).

(** [task.category], the row the foreign key points to. *)
Definition category_of (t : Task) (w : World) : option Category :=
  match category_id t with
  | Some cid => List.find (fun c => cat_id c =? cid) (categories w)
  | None => None
  end.

(** [session.commit()] after the fields of the loaded row [t] were assigned:
    the row with that primary key is rewritten. *)
Definition commit_task (t : Task) : M unit :=
  fun w => (Ok tt,
            set_tasks (fmap (fun r => if task_id r =? task_id t then t else r)) w).

Definition commit_category (c : Category) : M unit :=
  fun w => (Ok tt,
            set_categories (fmap (fun r => if cat_id r =? cat_id c then c else r)) w).

(** An SQLite INTEGER holds 64 bits. *)
Definition sql_integer (n : Z) : bool :=
  (- 2 ^ 63 <=? n) && (n <? 2 ^ 63).

(** What [session.commit()] does first for an integer column that was
    assigned: a value that differs from the stored one is bound to the
    UPDATE, and one that does not fit raises [OverflowError] before
    anything is written. *)
Definition bind_integer (old new : Z) : M unit :=
  fun w =>
    if (new =? old) || sql_integer new then (Ok tt, w)
    else (Raise OverflowError, w).

(** [session.delete(row); session.commit()] *)
Definition delete_task_row (id : Z) : M unit :=
  fun w => (Ok tt, set_tasks (filter (fun r => task_id r <> id)) w).

Definition delete_category_row (id : Z) : M unit :=
  fun w => (Ok tt, set_categories (filter (fun r => cat_id r <> id)) w).

(** *** The scheduler *)

(** [f"task_{task.id}"] and [f"task_{task.id}_early"] *)
Definition main_job_id (id : Z) : string := "task_" +:+ pretty id.
Definition early_job_id (id : Z) : string := "task_" +:+ pretty id +:+ "_early".

(** [scheduler.add_job(f, trigger=, id=, args=, replace_existing=True)]: a
    job stored under the same id is replaced. *)
Definition add_job (f : JobFunc) (tr : Trigger) (id : string) (a : list Z) : M unit :=
  fun w => (Ok tt,
            set_jobs (insert id {| func := f; trigger := tr; args := a |}) w).

(** [scheduler.remove_job(id)]: raises [JobLookupError] when no job is
    stored under [id]. *)
Definition remove_job (id : string) : M unit :=
  fun w => match jobs w !! id with
           | Some _ => (Ok tt, set_jobs (delete id) w)
           | None => (Raise (JobLookupError id), w)
           end.

(** [now] is the clock that the two [get_trigger] calls read through
    [datetime.now()]. *)
Definition schedule_task (task : Task) (now : datetime) : M unit :=
  _ ← lift (unpack_due_time (due_time task));
  tr ← lift (get_trigger task false now);
  add_job f_send_reminder tr (main_job_id (task_id task))
          [user_id task; task_id task] ;;
  if Py.truthy (reminder_offset task) && (0 <? reminder_offset task) then
    tr ← lift (get_trigger task true now);
    add_job f_send_early_reminder tr (early_job_id (task_id task))
            [user_id task; task_id task; reminder_offset task]
  else ret tt.

(** *** The fire callbacks *)

Definition send_reminder (uid tid : Z) : M unit :=
  fun w =>
    match task_by_id tid w with
    | Some task =>
        if negb (is_done task) then
          emit (send_message uid
                  (TxtReminder (title task) (cat_name <$> category_of task w)
                               (due_time task) (task_id task))) w
        else (Ok tt, w)
    | None => (Ok tt, w)
    end.

Definition send_early_reminder (uid tid offset : Z) : M unit :=
  fun w =>
    match task_by_id tid w with
    | Some task =>
        if negb (is_done task) then
          emit (send_message uid
                  (TxtEarlyReminder offset (title task) (due_time task))) w
        else (Ok tt, w)
    | None => (Ok tt, w)
    end.

(** What the scheduler runs when the job stored under [id] fires. *)
Definition run_job (j : Job) : M unit :=
  match func j, args j with
  | f_send_reminder, [uid; tid] => send_reminder uid tid
  | f_send_early_reminder, [uid; tid; offset] => send_early_reminder uid tid offset
  | _, _ => ret tt
  end.

(** *** The handlers *)

(** The regular expressions of [_strptime] for the directives the bot uses.
    A field matches one of the alternatives, tried in order; an alternative
    is a sequence of character classes: a range of ASCII characters, [\d]
    (any decimal digit) or the blank.  The value of a field is [int] of the
    text it matched. *)
Inductive CharClass :=
| Range (lo hi : N)
| AnyDigit
| Blank.

(** The digit a character contributes when it is in the class. *)
Definition match_class (k : CharClass) (c : N) : option (option Z) :=
  match k with
  | Range lo hi =>
      if ((lo <=? c) && (c <=? hi))%N then Some (Py.decimal c) else None
  | AnyDigit => Some <$> Py.decimal c
  | Blank => if (c =? 32)%N then Some None else None
  end.

Fixpoint match_alternative (ks : list CharClass) (l : list N) (acc : Z)
  : option Z :=
  match ks, l with
  | [], [] => Some acc
  | k :: ks', c :: l' =>
      match match_class k c with
      | Some (Some d) => match_alternative ks' l' (10 * acc + d)
      | Some None => match_alternative ks' l' acc
      | None => None
      end
  | _, _ => None
  end.

Fixpoint match_field (alts : list (list CharClass)) (l : list N) : option Z :=
  match alts with
  | [] => None
  | ks :: alts' =>
      match match_alternative ks l 0 with
      | Some v => Some v
      | None => match_field alts' l
      end
  end.

(** [%H]: [2[0-3]|[0-1]\d|\d]; [%M]: [[0-5]\d|\d]. *)
Definition re_H : list (list CharClass) :=
  [[Range 50 50; Range 48 51]; [Range 48 49; AnyDigit]; [AnyDigit]].

Definition re_M : list (list CharClass) :=
  [[Range 48 53; AnyDigit]; [AnyDigit]].

(** [%d]: [3[01]|[12]\d|0[1-9]|[1-9]| [1-9]]; [%m]: [1[0-2]|0[1-9]|[1-9]];
    [%Y]: [\d\d\d\d]. *)
Definition re_d : list (list CharClass) :=
  [[Range 51 51; Range 48 49]; [Range 49 50; AnyDigit];
   [Range 48 48; Range 49 57]; [Range 49 57]; [Blank; Range 49 57]].

Definition re_m : list (list CharClass) :=
  [[Range 49 49; Range 48 50]; [Range 48 48; Range 49 57]; [Range 49 57]].

Definition re_Y : list (list CharClass) :=
  [[AnyDigit; AnyDigit; AnyDigit; AnyDigit]].

(** [datetime.strptime(s, "%H:%M")] succeeds: an hour field, a colon, a
    minute field, and nothing else. *)
Definition strptime_HM (s : string) : option (Z * Z) :=
  match Py.split ":" s with
  | [a; b] =>
      match match_field re_H (Py.code_points a),
            match_field re_M (Py.code_points b) with
      | Some h, Some m => Some (h, m)
      | _, _ => None
      end
  | _ => None
  end.

Definition validate_time (time_str : string) : bool :=
  match strptime_HM time_str with
  | Some _ => true
  | None => false
  end.

(** The two [scheduler.remove_job] calls of [mark_done] and [delete_task]. *)
Definition remove_task_jobs (id : Z) : M unit :=
  remove_job (main_job_id id) ;;
  remove_job (early_job_id id).

Definition mark_done (from_user tid : Z) : M unit :=
  fun w =>
    (match task_of_user tid from_user w with
     | Some task =>
         let task := set_is_done true task in
         commit_task task ;;
         remove_task_jobs (task_id task) ;;
         emit (reply (TxtTaskDone (title task)))
     | None => emit (reply TxtTaskNotFound)
     end ;;
     emit (reply TxtAnswer)) w.

(** The assignment [edit_new_value_text] makes for the chosen field: the
    row with the new value, or the text of the refusal. *)
Definition apply_field (field text : string) (task : Task) : Text + Task :=
  if String.eqb field "title" then inr (set_title text task)
  else if String.eqb field "time" then
    if validate_time text then inr (set_due_time text task)
    else inl TxtBadTime
  else if String.eqb field "offset" then
    match Py.int text with
    | Some offset =>
        if offset <? 0 then inl TxtBadOffset
        else inr (set_reminder_offset offset task)
    | None => inl TxtBadOffset
    end
  else inr task.

(** [field] and [tid] are the values the dialogue stored under ['field'] and
    ['task_id']; [text] is the message. *)
Definition edit_new_value_text (from_user : Z) (field : string) (tid : Z)
    (text : string) (now : datetime) : M unit :=
  fun w =>
    match task_of_user tid from_user w with
    | None => emit (reply TxtTaskNotFound) w
    | Some task =>
        match apply_field field text task with
        | inl msg => emit (reply msg) w
        | inr task' =>
            (bind_integer (reminder_offset task) (reminder_offset task') ;;
             commit_task task' ;;
             schedule_task task' now ;;
             emit (reply TxtTaskUpdated)) w
        end
    end.

(** The assignments of [edit_repeat_type]. *)
Definition apply_repeat_type (new_type : string) (task : Task) : Task :=
  if String.eqb new_type "weekly"
  then set_repeat new_type (Some "mon,tue,wed,thu,fri"%string) 0 task
  else if String.eqb new_type "interval"
  then set_repeat new_type None 1 task
  else set_repeat new_type None 0 task.

Definition edit_repeat_type (from_user tid : Z) (new_type : string)
    (now : datetime) : M unit :=
  fun w =>
    (match task_of_user tid from_user w with
     | Some task =>
         let task := apply_repeat_type new_type task in
         commit_task task ;;
         schedule_task task now
     | None => ret tt
     end ;;
     emit (reply TxtRepeatUpdated) ;;
     emit (reply TxtAnswer)) w.

Definition edit_category_choice (from_user tid cid : Z) (now : datetime) : M unit :=
  fun w =>
    (match task_of_user tid from_user w with
     | Some task =>
         let task := set_category_id (Some cid) task in
         commit_task task ;;
         schedule_task task now
     | None => ret tt
     end ;;
     emit (reply TxtCategoryUpdated) ;;
     emit (reply TxtAnswer)) w.

Definition delete_task (from_user tid : Z) : M unit :=
  fun w =>
    (match task_of_user tid from_user w with
     | Some task =>
         remove_task_jobs (task_id task) ;;
         delete_task_row (task_id task) ;;
         emit (reply TxtTaskDeleted)
     | None => emit (reply TxtTaskNotFound)
     end ;;
     emit (reply TxtAnswer)) w.

(** [categories_menu]: the names of the user's categories are rendered. *)
Definition categories_menu (from_user : Z) : M unit :=
  fun w =>
    (emit (reply (TxtCategoriesMenu
                    (cat_name <$> filter (fun c => cat_user_id c = from_user)
                                         (categories w)))) ;;
     emit (reply TxtAnswer)) w.

(** [categories_menu(await fake_call(message))]: the [CallbackQuery] that
    [fake_call] builds is given the user under the name [from_user], while
    the field is filled from the name [from]; its [from_user] reads as
    [None], and [call.from_user.id], the first line of [categories_menu],
    raises [AttributeError]. *)
Definition categories_menu_fake_call : M unit :=
  lift (Raise AttributeError).

Definition rename_category (from_user cid : Z) (text : string) : M unit :=
  fun w =>
    let new_name := Py.strip text in
    match new_name with
    | EmptyString => emit (reply TxtEmptyName) w
    | _ =>
        (match category_of_user cid from_user w with
         | Some category =>
             commit_category (set_cat_name new_name category) ;;
             emit (reply TxtCategoryRenamed)
         | None => emit (reply TxtCategoryNotFound)
         end ;;
         categories_menu_fake_call) w
    end.

(** [for task in tasks: task.category_id = None] over the rows with
    [Task.category_id == cat_id]. *)
Definition detach_category (cid : Z) : M unit :=
  fun w =>
    (Ok tt,
     set_tasks (fmap (fun t =>
       if bool_decide (category_id t = Some cid)
       then set_category_id None t else t)) w).

Definition confirm_delete_category (from_user cid : Z) : M unit :=
  fun w =>
    (match category_of_user cid from_user w with
     | Some category =>
         detach_category cid ;;
         delete_category_row (cat_id category) ;;
         emit (reply TxtCategoryDeleted)
     | None => emit (reply TxtCategoryNotFound)
     end ;;
     emit (reply TxtAnswer) ;;
     categories_menu from_user) w.

(** ** What the triggers denote *)

(** The single instant of a cron trigger with all of year, month, day, hour
    and minute given (its second is 0). *)
Definition fire_instant (tr : Trigger) : option datetime :=
  match tr with
  | CronDate d h m => Some (combine d + h * us_per_hour + m * us_per_minute)
  | _ => None
  end.

(** The [k]-th run of an interval trigger: runs are [days] apart, counted
    from its start date. *)
Definition interval_occurrence (tr : Trigger) (k : nat) : option datetime :=
  match tr with
  | Interval days start => Some (start + Z.of_nat k * days * us_per_day)
  | _ => None
  end.

(** The wall-clock time at which a trigger fires. *)
Definition trigger_time_of_day (tr : Trigger) : Z * Z :=
  match tr with
  | CronTime h m => (h, m)
  | CronWeekly _ h m => (h, m)
  | CronDate _ h m => (h, m)
  | Interval _ start => (hour_of start, minute_of start)
  end.

(** [combine(start_date, due_time)] for a due time of [h] hours [m] minutes. *)
Definition combine_due (d : date) (h m : Z) : datetime :=
  combine d + h * us_per_hour + m * us_per_minute.

(** The rows of [w'] that make up the persistent store and the job table are
    those of [w]. *)
Definition store_unchanged (w w' : World) : Prop :=
  tasks w' = tasks w /\ categories w' = categories w /\ jobs w' = jobs w.

(** Two task rows that agree on every column but [category_id]. *)
Definition same_but_category (t t' : Task) : Prop :=
  task_id t' = task_id t /\ user_id t' = user_id t /\ title t' = title t /\
  due_time t' = due_time t /\ start_date t' = start_date t /\
  repeat_type t' = repeat_type t /\ repeat_days t' = repeat_days t /\
  interval_days t' = interval_days t /\
  reminder_offset t' = reminder_offset t /\ is_done t' = is_done t /\
  created_at t' = created_at t.

(** The messages sent through [bot.send_message], i.e. the reminders. *)
Definition notifications (w : World) : list Event :=
  List.filter (fun e => match e with send_message _ _ => true | _ => false end)
              (outbox w).

(** ** Sample rows

    A one-shot task of user 7, due at 09:00 from 2024-04-24 (ordinal
    739000), and the variants the examples below use. *)

Definition sample_task : Task :=
  {| task_id := 5; user_id := 7; title := "water the plants";
     category_id := Some 2; due_time := "09:00"; start_date := 739000;
     repeat_type := "none"; repeat_days := None; interval_days := 0;
     reminder_offset := 0; is_done := false;
     created_at := combine 738999 |}.

Definition sample_daily : Task := set_repeat "daily" None 0 sample_task.

Definition sample_interval : Task := set_repeat "interval" None 3 sample_task.

Definition sample_category : Category :=
  {| cat_id := 2; cat_user_id := 7; cat_name := "home" |}.

Definition sample_world : World :=
  {| tasks := [sample_daily]; categories := [sample_category];
     jobs := ∅; outbox := [] |}.

Definition sample_done_world : World :=
  {| tasks := [set_is_done true sample_daily]; categories := [sample_category];
     jobs := ∅; outbox := [] |}.

Definition sample_early : Task := set_reminder_offset 20 sample_daily.

(** The clock of the examples: 2024-04-24 08:00. *)
Definition sample_now : datetime := combine_due 739000 8 0.

(** The daily task after [schedule_task]: no early reminder, so only the
    main job is stored. *)
Definition sample_scheduled : World :=
  snd (schedule_task sample_daily sample_now sample_world).

(** The same task with a 20 minute early reminder, after [schedule_task]. *)
Definition sample_early_scheduled : World :=
  snd (schedule_task sample_early sample_now
         (set_tasks (fun _ => [sample_early]) sample_world)).

(** A daily task at 09:30 with an early reminder 80 minutes before, after
    [schedule_task]. *)
Definition sample_long_offset : Task :=
  set_reminder_offset 80 (set_due_time "09:30" sample_daily).

Definition sample_long_offset_scheduled : World :=
  snd (schedule_task sample_long_offset sample_now
         (set_tasks (fun _ => [sample_long_offset]) sample_world)).

(** The job id under which a job of the bot is stored, read off its
    function and its arguments. *)
Definition job_key (j : Job) : option string :=
  match func j, args j with
  | f_send_reminder, [_; tid] => Some (main_job_id tid)
  | f_send_early_reminder, [_; tid; _] => Some (early_job_id tid)
  | _, _ => None
  end.

(** Every stored job sits under its own key. *)
Definition jobs_keyed (js : gmap string Job) : Prop :=
  forall k j, js !! k = Some j -> job_key j = Some k.

(** The task a job belongs to. *)
Definition job_task (j : Job) : option Z := args j !! 1%nat.

(** A step that only answers in the dialogue: it leaves the tables and the
    job table as they were. *)
Definition answers_only (k : M unit) : Prop :=
  forall w, jobs (snd (k w)) = jobs w /\ tasks (snd (k w)) = tasks w.

(** A handler run that returns normally and leaves both tables and the job
    table as they were. *)
Definition no_effect (m : M unit) (w : World) : Prop :=
  fst (m w) = Ok tt /\ store_unchanged w (snd (m w)).

(** ** Characters of a string *)

(** The number of occurrences of a character in a string. *)
Fixpoint count_char (c : ascii) (s : string) : nat :=
  match s with
  | EmptyString => 0%nat
  | String a s' => ((if Ascii.eqb a c then 1 else 0) + count_char c s')%nat
  end.

(** ** The label of a repeat policy ([get_repeat_text]) *)

Definition days_map : list (string * string) :=
  [("mon", "Пн"); ("tue", "Вт"); ("wed", "Ср"); ("thu", "Чт");
   ("fri", "Пт"); ("sat", "Сб"); ("sun", "Вс")]%string.

(** [days_map[d]], when [d in days_map]. *)
Definition days_map_get (d : string) : option string :=
  snd <$> List.find (fun kv => String.eqb (fst kv) d) days_map.

Definition get_repeat_text (task : Task) : string :=
  if String.eqb (repeat_type task) "daily" then "Ежедневно"
  else if String.eqb (repeat_type task) "weekly"
          && Py.truthy_str (repeat_days task) then
    let days := omap days_map_get
                  (Py.split "," (default EmptyString (repeat_days task))) in
    "По дням: " +:+ Py.join ", " days
  else if String.eqb (repeat_type task) "interval"
          && Py.truthy (interval_days task) then
    "Каждые " +:+ pretty (interval_days task) +:+ " дн."
  else "Однократно".

(** ** Calendar dates ([validate_date])

    The ordinal of a year, month and day, as [datetime.date] computes it. *)

Definition is_leap (y : Z) : bool :=
  (y mod 4 =? 0) && (negb (y mod 100 =? 0) || (y mod 400 =? 0)).

Definition days_in_month (y m : Z) : Z :=
  if m =? 2 then (if is_leap y then 29 else 28)
  else if (m =? 4) || (m =? 6) || (m =? 9) || (m =? 11) then 30
  else 31.

Definition days_before_year (y : Z) : Z :=
  (y - 1) * 365 + (y - 1) / 4 - (y - 1) / 100 + (y - 1) / 400.

Definition days_before_month (y m : Z) : Z :=
  nth (Z.to_nat m) [0; 0; 31; 59; 90; 120; 151; 181; 212; 243; 273; 304; 334] 0
  + (if (2 <? m) && is_leap y then 1 else 0).

Definition ymd2ord (y m d : Z) : date :=
  days_before_year y + days_before_month y m + d.

(** [datetime.strptime(s, "%d.%m.%Y").date()]: the three fields, then the
    date must exist (year 1 or later, day within the month). *)
Definition strptime_dmY (s : string) : option date :=
  match Py.split "." s with
  | [dd; mm; yyyy] =>
      match match_field re_d (Py.code_points dd),
            match_field re_m (Py.code_points mm),
            match_field re_Y (Py.code_points yyyy) with
      | Some d, Some m, Some y =>
          if (1 <=? y) && (d <=? days_in_month y m)
          then Some (ymd2ord y m d) else None
      | _, _, _ => None
      end
  | _ => None
  end.

Definition validate_date (date_str : string) : bool :=
  match strptime_dmY date_str with
  | Some _ => true
  | None => false
  end.

(** ** The dialogue state ([MemoryStorage]) and the add-task dialogue *)

Inductive FsmState :=
| AddTask_title
| AddTask_category
| AddTask_start_date
| AddTask_time
| AddTask_repeat_type
| AddTask_repeat_days
| AddTask_interval_days
| AddTask_reminder_offset
| EditTask_choose_field
| EditTask_new_value
| AddCategory_name
| RenameCategory_new_name.

(** [AddTask.next()]: the state after the current one in the group, or no
    state after the last. *)
Definition AddTask_next (s : option FsmState) : option FsmState :=
  match s with
  | Some AddTask_title => Some AddTask_category
  | Some AddTask_category => Some AddTask_start_date
  | Some AddTask_start_date => Some AddTask_time
  | Some AddTask_time => Some AddTask_repeat_type
  | Some AddTask_repeat_type => Some AddTask_repeat_days
  | Some AddTask_repeat_days => Some AddTask_interval_days
  | Some AddTask_interval_days => Some AddTask_reminder_offset
  | Some AddTask_reminder_offset => None
  | _ => Some AddTask_title
  end.

(** ['repeat_days'] holds the list of chosen days while they are chosen
    and the joined string afterwards. *)
Inductive DaysValue :=
| DaysList (l : list string)
| DaysStr (s : string).

(** The keys of the dialogue data that the add-task dialogue writes, each
    with the type of the values the handlers assign to it; [None] is a key
    that is not in the dict. *)
Record Data := {
  d_title : option string;
  d_category_id : option Z;
  d_start_date : option date;
  d_due_time : option string;
  d_repeat_type : option string;
  d_repeat_days : option DaysValue;
  d_interval_days : option Z;
  d_reminder_offset : option Z;
  d_previous_state : option (option string)
}.

Definition empty_data : Data :=
  {| d_title := None; d_category_id := None; d_start_date := None;
     d_due_time := None; d_repeat_type := None; d_repeat_days := None;
     d_interval_days := None; d_reminder_offset := None;
     d_previous_state := None |}.

Definition set_d_title (v : string) (d : Data) : Data :=
  {| d_title := Some v; d_category_id := d_category_id d;
     d_start_date := d_start_date d; d_due_time := d_due_time d;
     d_repeat_type := d_repeat_type d; d_repeat_days := d_repeat_days d;
     d_interval_days := d_interval_days d;
     d_reminder_offset := d_reminder_offset d;
     d_previous_state := d_previous_state d |}.

Definition set_d_category_id (v : Z) (d : Data) : Data :=
  {| d_title := d_title d; d_category_id := Some v;
     d_start_date := d_start_date d; d_due_time := d_due_time d;
     d_repeat_type := d_repeat_type d; d_repeat_days := d_repeat_days d;
     d_interval_days := d_interval_days d;
     d_reminder_offset := d_reminder_offset d;
     d_previous_state := d_previous_state d |}.

Definition set_d_start_date (v : date) (d : Data) : Data :=
  {| d_title := d_title d; d_category_id := d_category_id d;
     d_start_date := Some v; d_due_time := d_due_time d;
     d_repeat_type := d_repeat_type d; d_repeat_days := d_repeat_days d;
     d_interval_days := d_interval_days d;
     d_reminder_offset := d_reminder_offset d;
     d_previous_state := d_previous_state d |}.

Definition set_d_due_time (v : string) (d : Data) : Data :=
  {| d_title := d_title d; d_category_id := d_category_id d;
     d_start_date := d_start_date d; d_due_time := Some v;
     d_repeat_type := d_repeat_type d; d_repeat_days := d_repeat_days d;
     d_interval_days := d_interval_days d;
     d_reminder_offset := d_reminder_offset d;
     d_previous_state := d_previous_state d |}.

Definition set_d_repeat_type (v : string) (d : Data) : Data :=
  {| d_title := d_title d; d_category_id := d_category_id d;
     d_start_date := d_start_date d; d_due_time := d_due_time d;
     d_repeat_type := Some v; d_repeat_days := d_repeat_days d;
     d_interval_days := d_interval_days d;
     d_reminder_offset := d_reminder_offset d;
     d_previous_state := d_previous_state d |}.

Definition set_d_repeat_days (v : DaysValue) (d : Data) : Data :=
  {| d_title := d_title d; d_category_id := d_category_id d;
     d_start_date := d_start_date d; d_due_time := d_due_time d;
     d_repeat_type := d_repeat_type d; d_repeat_days := Some v;
     d_interval_days := d_interval_days d;
     d_reminder_offset := d_reminder_offset d;
     d_previous_state := d_previous_state d |}.

Definition set_d_interval_days (v : Z) (d : Data) : Data :=
  {| d_title := d_title d; d_category_id := d_category_id d;
     d_start_date := d_start_date d; d_due_time := d_due_time d;
     d_repeat_type := d_repeat_type d; d_repeat_days := d_repeat_days d;
     d_interval_days := Some v;
     d_reminder_offset := d_reminder_offset d;
     d_previous_state := d_previous_state d |}.

Definition set_d_reminder_offset (v : Z) (d : Data) : Data :=
  {| d_title := d_title d; d_category_id := d_category_id d;
     d_start_date := d_start_date d; d_due_time := d_due_time d;
     d_repeat_type := d_repeat_type d; d_repeat_days := d_repeat_days d;
     d_interval_days := d_interval_days d;
     d_reminder_offset := Some v;
     d_previous_state := d_previous_state d |}.

Definition set_d_previous_state (v : option string) (d : Data) : Data :=
  {| d_title := d_title d; d_category_id := d_category_id d;
     d_start_date := d_start_date d; d_due_time := d_due_time d;
     d_repeat_type := d_repeat_type d; d_repeat_days := d_repeat_days d;
     d_interval_days := d_interval_days d;
     d_reminder_offset := d_reminder_offset d;
     d_previous_state := Some v |}.

(** The questions and answers of the dialogue, by kind. *)
Inductive Prompt :=
| PEnterTitle
| PChooseCategory (cats : list (string * Z))
| PEnterCategoryName
| PCategoryChosen
| PCategoryCreated (name : string)
| PEmptyCategoryName
| PBadDate
| PEnterTime
| PBadTime
| PChooseRepeat
| PChooseDays
| PEnterInterval
| PEnterOffset
| PDayRemoved (day : string)
| PDayAdded (day : string)
| PNoDayChosen
| PBadInterval
| PBadOffset
| PTaskAdded
| PAnswer.

(** What a handler of the dialogue can raise besides what the scheduler
    raises. *)
Inductive dexn :=
| Exn (e : exn)
| IndexError
| KeyError (key : string)
| LookupError
| DBAPIError.

Inductive dres :=
| Done
| Raised (e : dexn).

(** One user's conversation: the store and the scheduler, the dialogue
    state and data of the user, and what the dialogue sent. *)
Record Chat := {
  world : World;
  fsm_state : option FsmState;
  fsm_data : Data;
  prompts : list Prompt
}.

Definition set_world (f : World -> World) (c : Chat) : Chat :=
  {| world := f (world c); fsm_state := fsm_state c;
     fsm_data := fsm_data c; prompts := prompts c |}.

Definition set_fsm_state (s : option FsmState) (c : Chat) : Chat :=
  {| world := world c; fsm_state := s;
     fsm_data := fsm_data c; prompts := prompts c |}.

Definition set_fsm_data (f : Data -> Data) (c : Chat) : Chat :=
  {| world := world c; fsm_state := fsm_state c;
     fsm_data := f (fsm_data c); prompts := prompts c |}.

Definition say (p : Prompt) (c : Chat) : Chat :=
  {| world := world c; fsm_state := fsm_state c;
     fsm_data := fsm_data c; prompts := prompts c ++ [p] |}.

(** [state.finish()]: the state and the data are reset. *)
Definition finish (c : Chat) : Chat :=
  {| world := world c; fsm_state := None;
     fsm_data := empty_data; prompts := prompts c |}.

(** The id the database gives a new row: one more than the largest id in
    the table, 1 for an empty table. *)
Definition fresh_id (ids : list Z) : Z := 1 + foldr Z.max 0 ids.

(** [show_categories_for_choice]: the user's categories and the button for
    a new one. *)
Definition show_categories_for_choice (uid : Z) (c : Chat) : Chat :=
  say (PChooseCategory
         ((fun r => (cat_name r, cat_id r))
            <$> filter (fun r => cat_user_id r = uid) (categories (world c)))) c.

Definition add_task_start (c : Chat) : dres * Chat :=
  (Done, say PAnswer (set_fsm_state (Some AddTask_title) (say PEnterTitle c))).

Definition add_task_title (uid : Z) (text : string) (c : Chat) : dres * Chat :=
  let c := set_fsm_data (set_d_title text) c in
  let c := set_fsm_state (AddTask_next (fsm_state c)) c in
  (Done, show_categories_for_choice uid c).

(** [call_data] is the callback data of the pressed button. *)
Definition add_task_category_choice (call_data : string) (c : Chat) : dres * Chat :=
  if String.eqb call_data "cat_new" then
    let c := say PEnterCategoryName c in
    let c := set_fsm_state (Some AddCategory_name) c in
    let c := set_fsm_data (set_d_previous_state (Some "AddTask_category"%string)) c in
    (Done, say PAnswer c)
  else
    match Py.split "_" call_data !! 1%nat with
    | None => (Raised IndexError, c)
    | Some part =>
        match Py.int part with
        | None => (Raised (Exn ValueError), c)
        | Some cid =>
            let c := set_fsm_data (set_d_category_id cid) c in
            let c := say PCategoryChosen c in
            let c := set_fsm_state (Some AddTask_start_date) c in
            (Done, say PAnswer c)
        end
    end.

(** [session.query(Category).filter(Category.user_id == user_id,
    Category.name == name).first()] *)
Definition category_by_name (uid : Z) (name : string) (w : World) : option Category :=
  List.find (fun r => (cat_user_id r =? uid) && String.eqb (cat_name r) name)
            (categories w).

Definition add_category_name (uid : Z) (text : string) (c : Chat) : dres * Chat :=
  let name := Py.strip text in
  match name with
  | EmptyString => (Done, say PEmptyCategoryName c)
  | _ =>
      let '(cid, c) :=
        match category_by_name uid name (world c) with
        | Some existing => (cat_id existing, c)
        | None =>
            let cid := fresh_id (cat_id <$> categories (world c)) in
            (cid,
             set_world (set_categories (fun l =>
               l ++ [{| cat_id := cid; cat_user_id := uid; cat_name := name |}])) c)
        end in
      let c := set_fsm_data (set_d_category_id cid) c in
      let c := say (PCategoryCreated name) c in
      let c := set_fsm_state (Some AddTask_start_date) c in
      (Done, set_fsm_data (set_d_previous_state None) c)
  end.

(** [today] is [date.today()]. *)
Definition add_task_start_date (text : string) (today : date) (c : Chat)
  : dres * Chat :=
  let text := Py.strip text in
  let parsed :=
    if String.eqb text "-" then Some today
    else if validate_date text then strptime_dmY text
    else None in
  match parsed with
  | None => (Done, say PBadDate c)
  | Some start_date =>
      let c := set_fsm_data (set_d_start_date start_date) c in
      let c := set_fsm_state (AddTask_next (fsm_state c)) c in
      (Done, say PEnterTime c)
  end.

Definition add_task_time (text : string) (c : Chat) : dres * Chat :=
  if validate_time text then
    let c := set_fsm_data (set_d_due_time text) c in
    let c := set_fsm_state (AddTask_next (fsm_state c)) c in
    (Done, say PChooseRepeat c)
  else (Done, say PBadTime c).

(** The assignment [data['repeat_days'] = []] of the weekly branch comes
    after the dialogue data was written back and closed; it raises and
    stores nothing. *)
Definition add_task_repeat_type (call_data : string) (c : Chat) : dres * Chat :=
  match Py.split "_" call_data !! 1%nat with
  | None => (Raised IndexError, c)
  | Some repeat_type =>
      let c := set_fsm_data (set_d_repeat_type repeat_type) c in
      if String.eqb repeat_type "weekly" then
        let c := set_fsm_state (Some AddTask_repeat_days) c in
        (Raised LookupError, say PChooseDays c)
      else if String.eqb repeat_type "interval" then
        let c := set_fsm_state (Some AddTask_interval_days) c in
        (Done, say PAnswer (say PEnterInterval c))
      else
        let c := set_fsm_state (Some AddTask_reminder_offset) c in
        (Done, say PAnswer (say PEnterOffset c))
  end.

(** [l.remove(x)]: the first occurrence goes. *)
Fixpoint list_remove (x : string) (l : list string) : list string :=
  match l with
  | [] => []
  | y :: l' => if String.eqb y x then l' else y :: list_remove x l'
  end.

(** [x in l] *)
Definition list_contains (x : string) (l : list string) : bool :=
  existsb (String.eqb x) l.

(** The toggle of [add_task_repeat_days_select] on the list of days. *)
Definition toggle_day (day : string) (l : list string) : list string :=
  if list_contains day l then list_remove day l else l ++ [day].

(** [s[4:]] *)
Definition drop4 (s : string) : string :=
  match s with
  | String _ (String _ (String _ (String _ r))) => r
  | _ => EmptyString
  end.

Definition add_task_repeat_days_select (call_data : string) (c : Chat)
  : dres * Chat :=
  let day := drop4 call_data in
  match default (DaysList []) (d_repeat_days (fsm_data c)) with
  | DaysStr _ => (Raised (Exn AttributeError), c)
  | DaysList l =>
      let c := set_fsm_data (set_d_repeat_days (DaysList (toggle_day day l))) c in
      (Done, say (if list_contains day l then PDayRemoved day else PDayAdded day) c)
  end.

(** The characters of a string, each as a string: what [','.join(s)]
    iterates over. *)
Fixpoint chars (s : string) : list string :=
  match s with
  | EmptyString => []
  | String a s' => String a EmptyString :: chars s'
  end.

Definition add_task_repeat_days_done (c : Chat) : dres * Chat :=
  let joined :=
    match d_repeat_days (fsm_data c) with
    | Some (DaysList (d :: l)) => Some (Py.join "," (d :: l))
    | Some (DaysStr (String a s)) => Some (Py.join "," (chars (String a s)))
    | _ => None
    end in
  match joined with
  | None => (Done, say PNoDayChosen c)
  | Some s =>
      let c := set_fsm_data (set_d_repeat_days (DaysStr s)) c in
      let c := set_fsm_state (Some AddTask_reminder_offset) c in
      (Done, say PEnterOffset c)
  end.

Definition add_task_interval_days (text : string) (c : Chat) : dres * Chat :=
  match Py.int text with
  | Some days =>
      if days <=? 0 then (Done, say PBadInterval c)
      else
        let c := set_fsm_data (set_d_interval_days days) c in
        let c := set_fsm_state (Some AddTask_reminder_offset) c in
        (Done, say PEnterOffset c)
  | None => (Done, say PBadInterval c)
  end.

(** The row [save_task] builds from the dialogue data and inserts;
    [KeyError] for a missing title or due time; the INSERT binds the columns
    in their order: a list of days cannot be bound to the string column,
    and an interval or an offset outside 64 bits raises [OverflowError].  In
    each case no row is written. *)
Definition new_task (tid uid : Z) (today : date) (now : datetime) (d : Data)
  : dexn + Task :=
  match d_title d with
  | None => inl (KeyError "title")
  | Some title =>
      match d_due_time d with
      | None => inl (KeyError "due_time")
      | Some due =>
          match d_repeat_days d with
          | Some (DaysList _) => inl DBAPIError
          | days =>
              if negb (sql_integer (default 0 (d_interval_days d))
                       && sql_integer (default 0 (d_reminder_offset d)))
              then inl (Exn OverflowError) else
              inr {| task_id := tid; user_id := uid; title := title;
                     category_id := d_category_id d;
                     due_time := due;
                     start_date := default today (d_start_date d);
                     repeat_type := default "none"%string (d_repeat_type d);
                     repeat_days :=
                       match days with Some (DaysStr s) => Some s | _ => None end;
                     interval_days := default 0 (d_interval_days d);
                     reminder_offset := default 0 (d_reminder_offset d);
                     is_done := false; created_at := now |}
          end
      end
  end.

Definition save_task (uid : Z) (today : date) (now : datetime) (c : Chat)
  : dres * Chat :=
  let tid := fresh_id (task_id <$> tasks (world c)) in
  match new_task tid uid today now (fsm_data c) with
  | inl e => (Raised e, c)
  | inr task =>
      let c := set_world (set_tasks (fun l => l ++ [task])) c in
      match schedule_task task now (world c) with
      | (Ok _, w) => (Done, finish (set_world (fun _ => w) c))
      | (Raise e, w) => (Raised (Exn e), set_world (fun _ => w) c)
      end
  end.

Definition add_task_reminder_offset (uid : Z) (text : string) (today : date)
    (now : datetime) (c : Chat) : dres * Chat :=
  match Py.int text with
  | Some offset =>
      if offset <? 0 then (Done, say PBadOffset c)
      else
        let c := set_fsm_data (set_d_reminder_offset offset) c in
        match save_task uid today now c with
        | (Done, c) => (Done, say PTaskAdded c)
        | (Raised e, c) => (Raised e, c)
        end
  | None => (Done, say PBadOffset c)
  end.

(** A conversation that waits for the offset of a daily task at 09:00,
    with the offset [off] already written to the dialogue data. *)
Definition sample_offset_chat (off : Z) : Chat :=
  {| world := sample_world; fsm_state := Some AddTask_reminder_offset;
     fsm_data := set_d_reminder_offset off
                   (set_d_repeat_type "daily"
                      (set_d_due_time "09:00"
                         (set_d_title "feed the cat" empty_data)));
     prompts := [] |}.

(** A conversation that has not started, over the sample store. *)
Definition sample_chat : Chat :=
  {| world := sample_world; fsm_state := None; fsm_data := empty_data;
     prompts := [] |}.

(** ** Runs of the bot

    One step is one handler run, one fire of a stored job, or the scheduler
    dropping a job that has no further run (a one-shot job after its date);
    a step is seen on the store and the job table. *)
Inductive step : World -> World -> Prop :=
| step_save_task uid today now (c : Chat) :
    step (world c) (world (snd (save_task uid today now c)))
| step_add_category_name uid text (c : Chat) :
    step (world c) (world (snd (add_category_name uid text c)))
| step_mark_done u tid w :
    step w (snd (mark_done u tid w))
| step_edit_new_value_text u field tid text now w :
    step w (snd (edit_new_value_text u field tid text now w))
| step_edit_repeat_type u tid new_type now w :
    step w (snd (edit_repeat_type u tid new_type now w))
| step_edit_category_choice u tid cid now w :
    step w (snd (edit_category_choice u tid cid now w))
| step_delete_task u tid w :
    step w (snd (delete_task u tid w))
| step_rename_category u cid text w :
    step w (snd (rename_category u cid text w))
| step_confirm_delete_category u cid w :
    step w (snd (confirm_delete_category u cid w))
| step_fire k j w :
    jobs w !! k = Some j -> step w (snd (run_job j w))
| step_job_finished k w :
    step w (set_jobs (delete k) w).

(** The primary keys are unique, every stored job sits under the id made
    from its function and its task, and the task of every stored job has a
    row. *)
Definition store_inv (w : World) : Prop :=
  NoDup (task_id <$> tasks w) /\
  NoDup (cat_id <$> categories w) /\
  jobs_keyed (jobs w) /\
  (forall k j, jobs w !! k = Some j ->
     exists tid, job_task j = Some tid /\ tid ∈ (task_id <$> tasks w)).

(** What the edit of a task leaves once the row [task'] was committed and
    scheduled.  The row is stored.  When the main trigger cannot be built
    the handler raises and the job table is as it was.  Otherwise the main
    job is the one built from the row; with a positive offset the early job
    is the one built from the row too, unless its trigger cannot be built:
    then the handler raises and the early id keeps what it held; with no
    positive offset the early id keeps what it held; no other job is
    touched. *)
Definition rescheduled (from_user tid : Z) (task' : Task) (now : datetime)
    (w : World) (r : res unit * World) : Prop :=
  task_of_user tid from_user (snd r) = Some task' /\
  match get_trigger task' false now with
  | Raise e => fst r = Raise e /\ jobs (snd r) = jobs w
  | Ok tr =>
      jobs (snd r) !! main_job_id tid
        = Some {| func := f_send_reminder; trigger := tr;
                  args := [from_user; tid] |} /\
      (forall k, k <> main_job_id tid -> k <> early_job_id tid ->
                 jobs (snd r) !! k = jobs w !! k) /\
      if 0 <? reminder_offset task' then
        match get_trigger task' true now with
        | Ok tr' =>
            fst r = Ok tt /\
            jobs (snd r) !! early_job_id tid
              = Some {| func := f_send_early_reminder; trigger := tr';
                        args := [from_user; tid; reminder_offset task'] |}
        | Raise e =>
            fst r = Raise e /\
            jobs (snd r) !! early_job_id tid = jobs w !! early_job_id tid
        end
      else
        fst r = Ok tt /\
        jobs (snd r) !! early_job_id tid = jobs w !! early_job_id tid
  end.

(** * Properties *)


(** ** Time arithmetic *)

Section TimeArithmetic.

Variables h m : Z.
Hypothesis Hvalid : valid_time_of_day h m = true.

Lemma valid_time_bounds : 0 <= h <= 23 /\ 0 <= m <= 59.
Proof using Hvalid.
  unfold valid_time_of_day in Hvalid.
  repeat (apply andb_prop in Hvalid as [Hvalid ?]). lia.
Qed.

Lemma time_within_day :
  0 <= h * us_per_hour + m * us_per_minute < us_per_day.
Proof using Hvalid.
  pose proof valid_time_bounds. unfold us_per_hour, us_per_minute, us_per_day. lia.
Qed.

Lemma mk_timedelta_time :
  mk_timedelta 0 h m = Ok (h * us_per_hour + m * us_per_minute).
Proof using Hvalid.
  unfold mk_timedelta. pose proof time_within_day as Hb.
  replace (0 * us_per_day + h * us_per_hour + m * us_per_minute)
    with (h * us_per_hour + m * us_per_minute) by lia.
  rewrite Z.div_small by exact Hb. reflexivity.
Qed.

Lemma date_of_combine_due d : date_of (combine_due d h m) = d.
Proof using Hvalid.
  unfold date_of, combine_due, combine. pose proof time_within_day as Hb.
  symmetry. apply (Z.div_unique_pos _ _ d (h * us_per_hour + m * us_per_minute)); lia.
Qed.

Lemma hour_of_combine_due d : hour_of (combine_due d h m) = h.
Proof using Hvalid.
  unfold hour_of, combine_due, combine. pose proof time_within_day as Hb.
  pose proof valid_time_bounds as Hv.
  replace ((d * us_per_day + h * us_per_hour + m * us_per_minute) mod us_per_day)
    with (h * us_per_hour + m * us_per_minute).
  - symmetry. apply (Z.div_unique_pos _ _ h (m * us_per_minute));
      unfold us_per_hour, us_per_minute; lia.
  - apply (Z.mod_unique_pos _ _ d); lia.
Qed.

Lemma minute_of_combine_due d : minute_of (combine_due d h m) = m.
Proof using Hvalid.
  unfold minute_of, combine_due, combine. pose proof valid_time_bounds as Hv.
  replace ((d * us_per_day + h * us_per_hour + m * us_per_minute) mod us_per_hour)
    with (m * us_per_minute).
  - symmetry. apply (Z.div_unique_pos _ _ m 0);
      unfold us_per_minute; lia.
  - apply (Z.mod_unique_pos _ _ (d * 24 + h));
      unfold us_per_day, us_per_hour, us_per_minute; lia.
Qed.

Lemma dt_add_combine d :
  MINORDINAL <= d <= MAXORDINAL ->
  dt_add (combine d) (h * us_per_hour + m * us_per_minute) = Ok (combine_due d h m).
Proof using Hvalid.
  intros Hd. unfold dt_add.
  replace (combine d + (h * us_per_hour + m * us_per_minute))
    with (combine_due d h m) by (unfold combine_due; lia).
  rewrite date_of_combine_due.
  destruct (Z.leb_spec MINORDINAL d), (Z.leb_spec d MAXORDINAL); try lia.
  reflexivity.
Qed.

(** Moving by whole days keeps the time of day. *)
Lemma combine_due_shift d n :
  combine_due d h m + n * us_per_day = combine_due (d + n) h m.
Proof. unfold combine_due, combine. lia. Qed.

End TimeArithmetic.

Lemma mk_timedelta_days n :
  -999999999 <= n <= 999999999 -> mk_timedelta n 0 0 = Ok (n * us_per_day).
Proof.
  intros Hn. unfold mk_timedelta.
  replace (n * us_per_day + 0 * us_per_hour + 0 * us_per_minute)
    with (n * us_per_day) by lia.
  rewrite Z.div_mul by (unfold us_per_day; lia).
  destruct (Z.leb_spec (-999999999) n), (Z.leb_spec n 999999999); try lia.
  reflexivity.
Qed.

(** Rolling a start that lies strictly in the past forward by [n] days; a
    start at or after [now] is kept. *)
Lemma roll_forward_combine_due h m d n now :
  valid_time_of_day h m = true ->
  -999999999 <= n <= 999999999 ->
  MINORDINAL <= d + n <= MAXORDINAL ->
  roll_forward (combine_due d h m) now n =
    Ok (if combine_due d h m <? now then combine_due (d + n) h m
        else combine_due d h m).
Proof.
  intros Hv Hn Hd. unfold roll_forward.
  destruct (combine_due d h m <? now); [|reflexivity].
  rewrite mk_timedelta_days by exact Hn. simpl.
  unfold dt_add. rewrite combine_due_shift, date_of_combine_due by exact Hv.
  destruct (Z.leb_spec MINORDINAL (d + n)), (Z.leb_spec (d + n) MAXORDINAL); try lia.
  reflexivity.
Qed.

(** ** Reading a due time *)

Lemma decimal_bounds c d : Py.decimal c = Some d -> 0 <= d <= 9.
Proof.
  unfold Py.decimal. intros Hd.
  destruct (c <? 128)%N.
  - destruct ((48 <=? c) && (c <=? 57))%N eqn:E; [|discriminate].
    apply andb_prop in E as [E1 E2]. apply N.leb_le in E1, E2.
    inversion Hd. lia.
  - destruct (Py.is_space c); [discriminate|].
    by apply unicodedata_decimal_digit in Hd.
Qed.

Lemma decimal_ascii_digit c :
  (48 <= c <= 57)%N -> Py.decimal c = Some (Z.of_N c - 48).
Proof.
  intros Hc. unfold Py.decimal.
  destruct (N.ltb_spec c 128); [|lia].
  destruct (N.leb_spec 48 c); [|lia]. destruct (N.leb_spec c 57); [|lia]. done.
Qed.

(** A decimal digit is no white space, no sign and no underscore. *)
Lemma decimal_not_space c d : Py.decimal c = Some d -> Py.int_space c = false.
Proof.
  unfold Py.decimal, Py.int_space. intros Hd.
  destruct (N.ltb_spec c 128).
  - destruct ((48 <=? c) && (c <=? 57))%N eqn:E; [|discriminate].
    apply andb_prop in E as [E1 E2]. apply N.leb_le in E1, E2.
    destruct (N.ltb_spec c 127); [|lia].
    destruct (N.leb_spec c 13); [lia|]. rewrite andb_false_r. simpl.
    apply N.eqb_neq. lia.
  - destruct (N.ltb_spec c 127); [lia|].
    by destruct (Py.is_space c).
Qed.

Lemma decimal_not_mark c d :
  Py.decimal c = Some d -> c <> 43%N /\ c <> 45%N /\ c <> 95%N.
Proof.
  intros Hd. repeat split; intros ->; vm_compute in Hd; discriminate.
Qed.

(** [int] of a text that starts with a digit reads its digits. *)
Lemma skip_space_digit c r d :
  Py.decimal c = Some d -> Py.skip_space (c :: r) = c :: r.
Proof. intros Hd. simpl. by rewrite (decimal_not_space _ _ Hd). Qed.

Lemma int_digit_head s c r d :
  Py.code_points s = c :: r -> Py.decimal c = Some d ->
  Py.int s = Py.digits 0 false (c :: r).
Proof.
  intros Hs Hd. unfold Py.int. rewrite Hs, (skip_space_digit _ _ _ Hd).
  destruct (decimal_not_mark _ _ Hd) as (H43 & H45 & _).
  destruct c as [|p]; [done|].
  do 6 (destruct p as [p|p|]; try done).
Qed.

Lemma match_range lo hi c r :
  match_class (Range lo hi) c = Some r ->
  (lo <= c <= hi)%N /\ r = Py.decimal c.
Proof.
  unfold match_class. destruct (N.leb_spec lo c), (N.leb_spec c hi);
    simpl; intros; simplify_eq; split; (lia || done).
Qed.

Lemma match_any_digit c r :
  match_class AnyDigit c = Some r -> exists d, r = Some d /\ Py.decimal c = Some d.
Proof.
  unfold match_class. destruct (Py.decimal c) as [d|]; simpl; intros; simplify_eq.
  eauto.
Qed.

Lemma match_blank c r : match_class Blank c = Some r -> r = None.
Proof. unfold match_class. by destruct (c =? 32)%N; intros; simplify_eq. Qed.

(** Case analysis on a field that matched: every character of the field
    gets its digit. *)
Ltac match_field_cases H :=
  repeat match type of H with
  | context [match_class (Range ?lo ?hi) ?c] =>
      let E := fresh "E" in
      destruct (match_class (Range lo hi) c) as [[?|]|] eqn:E;
      [apply match_range in E as [? E]
      |apply match_range in E as [? E]|];
      [rewrite (decimal_ascii_digit c) in E by lia; inversion E; clear E;
       pose proof (decimal_ascii_digit c ltac:(lia))
      |rewrite (decimal_ascii_digit c) in E by lia; discriminate E
      |]
  | context [match_class AnyDigit ?c] =>
      let E := fresh "E" in
      destruct (match_class AnyDigit c) as [[?|]|] eqn:E;
      [apply match_any_digit in E as (? & ? & E)
      |apply match_any_digit in E as (? & ? & E)|];
      [|discriminate|]
  | context [match_class Blank ?c] =>
      let E := fresh "E" in
      destruct (match_class Blank c) as [[?|]|] eqn:E;
      [apply match_blank in E; discriminate E| clear E |]
  end;
  try discriminate H; subst.

Ltac digit_bounds :=
  repeat match goal with
  | Hd : Py.decimal ?c = Some ?d |- _ =>
      lazymatch goal with
      | _ : 0 <= d <= 9 |- _ => fail
      | _ => pose proof (decimal_bounds _ _ Hd)
      end
  end.

Ltac read_digits :=
  cbn [Py.digits];
  repeat match goal with
  | Hd : Py.decimal ?c = Some _ |- context [Py.decimal ?c] => rewrite Hd
  end; cbn [Py.digits].

(** The hour and the minute that [strptime] reads are what [int] reads from
    the same field. *)
Lemma match_field_H l v :
  match_field re_H l = Some v ->
  Py.digits 0 false l = Some v /\ 0 <= v <= 23 /\ (exists c r d, l = c :: r /\ Py.decimal c = Some d).
Proof.
  unfold re_H. intros Hm.
  destruct l as [|a [|b [|c r]]]; try discriminate; cbn [match_field match_alternative] in Hm;
    match_field_cases Hm; simplify_eq; digit_bounds; read_digits;
    first [lia | (split; [f_equal; lia|]); (split; [lia|]); eauto].
Qed.

Lemma match_field_M l v :
  match_field re_M l = Some v ->
  Py.digits 0 false l = Some v /\ 0 <= v <= 59 /\ (exists c r d, l = c :: r /\ Py.decimal c = Some d).
Proof.
  unfold re_M. intros Hm.
  destruct l as [|a [|b [|c r]]]; try discriminate; cbn [match_field match_alternative] in Hm;
    match_field_cases Hm; simplify_eq; digit_bounds; read_digits;
    first [lia | (split; [f_equal; lia|]); (split; [lia|]); eauto].
Qed.

(** A text that [validate_time] accepts is read by [get_trigger] as the same
    hour and minute, and these are a valid time of day. *)
Lemma strptime_unpack text h m :
  strptime_HM text = Some (h, m) ->
  unpack_due_time text = Ok (h, m) /\ valid_time_of_day h m = true.
Proof.
  unfold strptime_HM, unpack_due_time. intros Hs.
  destruct (Py.split ":" text) as [|a [|b [|c l]]]; try discriminate.
  destruct (match_field re_H (Py.code_points a)) as [x|] eqn:Ha; [|discriminate].
  destruct (match_field re_M (Py.code_points b)) as [y|] eqn:Hb; [|discriminate].
  inversion Hs; subst.
  apply match_field_H in Ha as (Ha & ? & ca & ra & da & Hca & Hda).
  apply match_field_M in Hb as (Hb & ? & cb & rb & db & Hcb & Hdb).
  rewrite (int_digit_head a ca ra da), (int_digit_head b cb rb db) by done.
  rewrite <- Hca, <- Hcb, Ha, Hb.
  split; [reflexivity|].
  unfold valid_time_of_day. repeat (apply andb_true_intro; split); lia.
Qed.

(** [split] never returns the empty list, and joining with the separator
    undoes it: [','.join(s.split(','))] is [s]. *)
Lemma split_nonempty sep s : Py.split sep s <> [].
Proof.
  destruct s as [|c s]; simpl; [discriminate|].
  destruct (Ascii.eqb c sep); [discriminate|].
  destruct (Py.split sep s); discriminate.
Qed.

Lemma join_split sep s :
  Py.join (String sep EmptyString) (Py.split sep s) = s.
Proof.
  induction s as [|c s IH]; [reflexivity|]. simpl.
  pose proof (split_nonempty sep s) as Hne.
  destruct (Ascii.eqb_spec c sep) as [->|Hc].
  - destruct (Py.split sep s) as [|w ws] eqn:E; [done|].
    change (Py.join (String sep EmptyString) (EmptyString :: w :: ws))
      with (String sep (Py.join (String sep EmptyString) (w :: ws))).
    by rewrite IH.
  - destruct (Py.split sep s) as [|w ws] eqn:E; [done|].
    rewrite <- IH. destruct ws; reflexivity.
Qed.

(** ** The branches of the trigger calculator *)

Lemma dt_add_inv x d r : dt_add x d = Ok r -> r = x + d.
Proof. unfold dt_add. destruct (_ && _); congruence. Qed.

Lemma mk_timedelta_inv days r :
  mk_timedelta days 0 0 = Ok r -> r = days * us_per_day.
Proof.
  unfold mk_timedelta.
  destruct (_ && _); intros Hr; inversion Hr; lia.
Qed.

Lemma roll_forward_inv start now n r :
  roll_forward start now n = Ok r ->
  (now <= start /\ r = start) \/ (start < now /\ r = start + n * us_per_day).
Proof.
  unfold roll_forward. destruct (Z.ltb_spec start now) as [Hlt|Hge].
  - destruct (mk_timedelta n 0 0) as [d|] eqn:Hd; [|discriminate]. simpl.
    intros H. apply dt_add_inv in H. apply mk_timedelta_inv in Hd. right. lia.
  - intros H. inversion H. left. lia.
Qed.

Lemma make_trigger_one_shot t h m now :
  repeat_type t = "none"%string ->
  make_trigger t h m now =
    (let? d := mk_timedelta 0 h m in
     let? run_date := dt_add (combine (start_date t)) d in
     let? run_date := roll_forward run_date now 1 in
     CronTrigger_ymd (date_of run_date) (hour_of run_date) (minute_of run_date)).
Proof. intros H. unfold make_trigger. rewrite H. reflexivity. Qed.

Lemma make_trigger_interval t h m now :
  repeat_type t = "interval"%string -> interval_days t <> 0 ->
  make_trigger t h m now =
    (let? d := mk_timedelta 0 h m in
     let? start_datetime := dt_add (combine (start_date t)) d in
     let? start_datetime := roll_forward start_datetime now (interval_days t) in
     IntervalTrigger (interval_days t) start_datetime).
Proof.
  intros H Hn. unfold make_trigger, Py.truthy. rewrite H.
  destruct (Z.eqb_spec (interval_days t) 0); [done | reflexivity].
Qed.

Lemma make_trigger_daily t h m now :
  repeat_type t = "daily"%string ->
  make_trigger t h m now = CronTrigger_hm h m.
Proof. intros H. unfold make_trigger. rewrite H. reflexivity. Qed.

Lemma get_trigger_main t h m now :
  unpack_due_time (due_time t) = Ok (h, m) ->
  get_trigger t false now = make_trigger t h m now.
Proof. intros H. unfold get_trigger. rewrite H. reflexivity. Qed.

Lemma CronTrigger_ymd_combine_due d h m :
  valid_time_of_day h m = true ->
  ORDINAL_1970 <= d <= MAXORDINAL ->
  CronTrigger_ymd (date_of (combine_due d h m)) (hour_of (combine_due d h m))
                  (minute_of (combine_due d h m)) = Ok (CronDate d h m).
Proof.
  intros Hv Hd.
  rewrite date_of_combine_due, hour_of_combine_due, minute_of_combine_due by exact Hv.
  unfold CronTrigger_ymd. rewrite Hv.
  destruct (Z.leb_spec ORDINAL_1970 d), (Z.leb_spec d MAXORDINAL); try lia.
  reflexivity.
Qed.

(** ** One-shot tasks *)

(** The trigger of a one-shot task: the date is pushed by one day exactly
    when [combine(start_date, due_time)] lies strictly before [now]. *)
Lemma get_trigger_one_shot t h m now :
  repeat_type t = "none"%string ->
  unpack_due_time (due_time t) = Ok (h, m) ->
  valid_time_of_day h m = true ->
  ORDINAL_1970 <= start_date t < MAXORDINAL ->
  get_trigger t false now =
    Ok (CronDate (if combine_due (start_date t) h m <? now
                  then start_date t + 1 else start_date t) h m).
Proof.
  intros Hrt Hdue Hv Hd.
  rewrite (get_trigger_main _ _ _ _ Hdue), (make_trigger_one_shot _ _ _ _ Hrt).
  rewrite mk_timedelta_time by exact Hv. simpl.
  rewrite dt_add_combine by (unfold MINORDINAL, ORDINAL_1970 in *; (exact Hv || lia)).
  simpl.
  rewrite (roll_forward_combine_due h m _ 1 now Hv)
    by (unfold MINORDINAL, ORDINAL_1970 in *; lia).
  simpl.
  destruct (combine_due (start_date t) h m <? now);
    apply CronTrigger_ymd_combine_due; (exact Hv || lia).
Qed.

(** C1, as the code has it: for a one-shot task with a valid due time and a
    start date the cron trigger accepts, the trigger is a single instant;
    it is [combine(startDate, dueTime)] plus exactly one day when that
    instant lies strictly before now, and [combine(startDate, dueTime)]
    itself when it is now or later. *)
Theorem C1_one_shot_roll_forward (t : Task) (h m : Z) (now : datetime) :
  repeat_type t = "none"%string ->
  unpack_due_time (due_time t) = Ok (h, m) ->
  valid_time_of_day h m = true ->
  ORDINAL_1970 <= start_date t < MAXORDINAL ->
  exists tr,
    get_trigger t false now = Ok tr /\
    (combine_due (start_date t) h m < now ->
       fire_instant tr = Some (combine_due (start_date t) h m + us_per_day)) /\
    (now <= combine_due (start_date t) h m ->
       fire_instant tr = Some (combine_due (start_date t) h m)).
Proof.
  intros Hrt Hdue Hv Hd. eexists. split.
  - apply get_trigger_one_shot; eassumption.
  - destruct (Z.ltb_spec (combine_due (start_date t) h m) now) as [Hlt|Hge];
      split; intros; try lia; simpl; f_equal; unfold combine_due, combine; lia.
Qed.

(** ** Interval tasks *)

Lemma mk_timedelta_days_overflow n :
  999999999 < n -> mk_timedelta n 0 0 = Raise OverflowError.
Proof.
  intros Hn. unfold mk_timedelta.
  replace (n * us_per_day + 0 * us_per_hour + 0 * us_per_minute)
    with (n * us_per_day) by lia.
  rewrite Z.div_mul by (unfold us_per_day; lia).
  destruct (Z.leb_spec n 999999999); [lia|]. by rewrite andb_false_r.
Qed.

(** The interval trigger of a task whose start date is a date: what
    [get_trigger] returns, and when the interval makes it raise. *)
Lemma get_trigger_interval t h m now :
  repeat_type t = "interval"%string ->
  1 <= interval_days t ->
  unpack_due_time (due_time t) = Ok (h, m) ->
  valid_time_of_day h m = true ->
  MINORDINAL <= start_date t <= MAXORDINAL ->
  get_trigger t false now =
    if (interval_days t <=? 999999999)
       && (negb (combine_due (start_date t) h m <? now)
           || (start_date t + interval_days t <=? MAXORDINAL))
    then Ok (Interval (interval_days t)
               (if combine_due (start_date t) h m <? now
                then combine_due (start_date t) h m + interval_days t * us_per_day
                else combine_due (start_date t) h m))
    else Raise OverflowError.
Proof.
  intros Hrt Hn Hdue Hv Hd.
  rewrite (get_trigger_main _ _ _ _ Hdue), (make_trigger_interval _ _ _ _ Hrt) by lia.
  rewrite mk_timedelta_time by exact Hv. simpl.
  rewrite dt_add_combine by (exact Hv || lia). simpl.
  unfold roll_forward, IntervalTrigger.
  destruct (Z.leb_spec (interval_days t) 999999999) as [Hle|Hgt].
  - rewrite mk_timedelta_days by lia.
    destruct (combine_due (start_date t) h m <? now); cbn [negb orb andb res_bind];
      [|done].
    unfold dt_add. rewrite combine_due_shift, date_of_combine_due by exact Hv.
    destruct (Z.leb_spec MINORDINAL (start_date t + interval_days t)); [|lia].
    by destruct (Z.leb_spec (start_date t + interval_days t) MAXORDINAL).
  - rewrite mk_timedelta_days_overflow by lia.
    by destruct (combine_due (start_date t) h m <? now).
Qed.

(** C2, as the code has it: the interval trigger of a task with
    [everyNDays = N], [N] at most the 999999999 days of the largest
    [timedelta], starts at [combine(startDate, dueTime)]; when that instant
    lies strictly before now the start is that instant plus [N] days,
    whether or not this is still in the past, provided that day is not
    after 9999-12-31; when it is now or later the start is the instant
    itself; the runs are [N] days apart from the start.  For a larger [N],
    and when the single jump leaves the calendar, the calculator raises
    [OverflowError]. *)
Theorem C2_interval_single_jump (t : Task) (h m : Z) (now : datetime) :
  repeat_type t = "interval"%string ->
  1 <= interval_days t ->
  unpack_due_time (due_time t) = Ok (h, m) ->
  valid_time_of_day h m = true ->
  MINORDINAL <= start_date t <= MAXORDINAL ->
  let first := combine_due (start_date t) h m in
  (interval_days t <= 999999999 ->
   (first < now -> start_date t + interval_days t <= MAXORDINAL) ->
   exists tr start,
     get_trigger t false now = Ok tr /\
     tr = Interval (interval_days t) start /\
     (first < now -> start = first + interval_days t * us_per_day) /\
     (now <= first -> start = first) /\
     interval_occurrence tr 0 = Some start /\
     (forall k, interval_occurrence tr (S k) =
                (fun x => x + interval_days t * us_per_day)
                  <$> interval_occurrence tr k)) /\
  (999999999 < interval_days t \/
   (first < now /\ MAXORDINAL < start_date t + interval_days t) ->
   get_trigger t false now = Raise OverflowError).
Proof.
  intros Hrt Hn Hdue Hv Hd first.
  pose proof (get_trigger_interval t h m now Hrt Hn Hdue Hv Hd) as Hget.
  fold first in Hget. split.
  - intros Hle Hroll.
    exists (Interval (interval_days t)
              (if first <? now then first + interval_days t * us_per_day
               else first)),
           (if first <? now then first + interval_days t * us_per_day else first).
    split; [|split; [reflexivity|]].
    + rewrite Hget.
      destruct (Z.leb_spec (interval_days t) 999999999); [|lia].
      destruct (Z.ltb_spec first now); cbn [negb orb andb]; [|reflexivity].
      destruct (Z.leb_spec (start_date t + interval_days t) MAXORDINAL);
        [reflexivity | lia].
    + destruct (Z.ltb_spec first now) as [Hlt|Hge];
        (split; [intros; lia || reflexivity|]);
        (split; [intros; lia || reflexivity|]);
        (split; [simpl; f_equal; lia|]); intros k; simpl; f_equal; lia.
  - intros Hover. rewrite Hget.
    destruct (Z.leb_spec (interval_days t) 999999999); [|done].
    destruct Hover as [?|[Hlt Hmax]]; [lia|].
    destruct (Z.ltb_spec first now); [|lia]. cbn [negb orb andb].
    by destruct (Z.leb_spec (start_date t + interval_days t) MAXORDINAL); [lia|].
Qed.

(** ** The time of day of the early reminder *)

(** The locals of [schedule_task] and the derivation inside [get_trigger]
    compute the same pair. *)
Lemma schedule_task_offset_time_early_time h m off :
  schedule_task_offset_time h m off = early_time h m off.
Proof. reflexivity. Qed.

Lemma early_time_cases h m off :
  early_time h m off =
    (if m - off <? 0 then (if h - 1 <? 0 then 23 else h - 1) else (if h <? 0 then 23 else h),
     if m - off <? 0 then m - off + 60 else m - off).
Proof. unfold early_time. destruct (m - off <? 0); reflexivity. Qed.

Lemma get_trigger_early t h m now :
  unpack_due_time (due_time t) = Ok (h, m) ->
  reminder_offset t <> 0 ->
  get_trigger t true now =
    make_trigger t (fst (early_time h m (reminder_offset t)))
                   (snd (early_time h m (reminder_offset t))) now.
Proof.
  intros Hdue Hoff. unfold get_trigger, Py.truthy. rewrite Hdue. simpl.
  destruct (Z.eqb_spec (reminder_offset t) 0); [done|]. simpl.
  destruct (early_time h m (reminder_offset t)). reflexivity.
Qed.

(** C3: for a task with [reminderOffsetMinutes > 0] the early trigger is
    built for the time of day obtained from the due time by subtracting the
    offset from the minute, borrowing one hour (minute + 60, hour - 1) when
    the minute went negative, and setting the hour to 23 when the hour then
    is negative; the date is not touched.  A daily task fires at exactly
    that hour and minute.  00:10 with offset 20 gives 23:50. *)
Theorem C3_early_time_of_day (t : Task) (h m : Z) (now : datetime) :
  unpack_due_time (due_time t) = Ok (h, m) ->
  0 < reminder_offset t ->
  let off := reminder_offset t in
  let m1 := m - off in
  let m' := if m1 <? 0 then m1 + 60 else m1 in
  let h1 := if m1 <? 0 then h - 1 else h in
  let h' := if h1 <? 0 then 23 else h1 in
  get_trigger t true now = make_trigger t h' m' now /\
  (repeat_type t = "daily"%string ->
     get_trigger t true now = CronTrigger_hm h' m') /\
  (m - off < 0 -> h - 1 < 0 -> h' = 23 /\ m' = m - off + 60) /\
  early_time 0 10 20 = (23, 50).
Proof.
  intros Hdue Hoff off m1 m' h1 h'.
  assert (Hget : get_trigger t true now = make_trigger t h' m' now).
  { rewrite (get_trigger_early _ _ _ _ Hdue) by lia.
    rewrite early_time_cases. subst h' h1 m' m1 off. simpl.
    destruct (m - reminder_offset t <? 0); reflexivity. }
  split; [exact Hget|]. split; [|split; [|reflexivity]].
  - intros Hrt. rewrite Hget. by apply make_trigger_daily.
  - intros Hm Hh. subst h' h1 m' m1 off.
    destruct (Z.ltb_spec (m - reminder_offset t) 0); [|lia].
    destruct (Z.ltb_spec (h - 1) 0); [|lia]. done.
Qed.

Lemma early_time_valid h m off :
  valid_time_of_day h m = true ->
  0 < off ->
  (off <= m + 60 ->
     valid_time_of_day (fst (early_time h m off)) (snd (early_time h m off)) = true) /\
  (m + 60 < off ->
     snd (early_time h m off) < 0 /\
     valid_time_of_day (fst (early_time h m off)) (snd (early_time h m off)) = false).
Proof.
  intros Hv Hoff. rewrite early_time_cases. simpl.
  pose proof (valid_time_bounds h m Hv) as Hb. unfold valid_time_of_day.
  destruct (Z.ltb_spec (m - off) 0),
           (Z.ltb_spec (h - 1) 0), (Z.ltb_spec h 0); try lia;
    (split; intros Hoff';
     [ repeat (apply andb_true_intro; split); lia
     | split; [lia|];
       match goal with
       | |- _ && (0 <=? ?x) && _ = false =>
           destruct (Z.leb_spec 0 x); [lia|];
           rewrite andb_false_r; reflexivity
       end ]).
Qed.

(** C9: the early trigger of a task with a valid due time and a positive
    offset is built for [early_time]; for [0 < offset <= minute + 60] this
    is a valid wall-clock time (hour 0-23, minute 0-59); for a larger offset
    the single borrow leaves the minute negative, so it is not one. *)
Theorem C9_early_time_valid (t : Task) (h m : Z) (now : datetime) :
  unpack_due_time (due_time t) = Ok (h, m) ->
  valid_time_of_day h m = true ->
  0 < reminder_offset t ->
  let hm := early_time h m (reminder_offset t) in
  get_trigger t true now = make_trigger t (fst hm) (snd hm) now /\
  (reminder_offset t <= m + 60 -> valid_time_of_day (fst hm) (snd hm) = true) /\
  (m + 60 < reminder_offset t ->
     snd hm < 0 /\ valid_time_of_day (fst hm) (snd hm) = false).
Proof.
  intros Hdue Hv Hoff hm. subst hm. split.
  - apply get_trigger_early; [exact Hdue | lia].
  - by apply early_time_valid.
Qed.

(** Beyond that bound a daily task gets no early trigger at all: the cron
    trigger rejects the negative minute. *)
Lemma get_trigger_early_rejected t h m now :
  unpack_due_time (due_time t) = Ok (h, m) ->
  valid_time_of_day h m = true ->
  repeat_type t = "daily"%string ->
  m + 60 < reminder_offset t ->
  get_trigger t true now = Raise ValueError.
Proof.
  intros Hdue Hv Hrt Hoff.
  pose proof (valid_time_bounds h m Hv) as Hb.
  destruct (early_time_valid h m (reminder_offset t) Hv ltac:(lia)) as [_ Hneg].
  destruct (Hneg Hoff) as [_ Hinv].
  rewrite (get_trigger_early _ _ _ _ Hdue) by lia.
  rewrite make_trigger_daily by exact Hrt.
  unfold CronTrigger_hm. by rewrite Hinv.
Qed.

(** ** Fire callbacks *)

(** C5: when the task of a fire event is gone from the store, or is marked
    done, both callbacks return normally and leave the state, and with it
    the list of messages sent, as it was: no reminder goes out. *)
Theorem C5_fire_noop (w : World) (uid tid offset : Z) :
  (task_by_id tid w = None \/
   exists t, task_by_id tid w = Some t /\ is_done t = true) ->
  send_reminder uid tid w = (Ok tt, w) /\
  send_early_reminder uid tid offset w = (Ok tt, w) /\
  (forall tr, run_job {| func := f_send_reminder; trigger := tr;
                         args := [uid; tid] |} w = (Ok tt, w)) /\
  (forall tr, run_job {| func := f_send_early_reminder; trigger := tr;
                         args := [uid; tid; offset] |} w = (Ok tt, w)).
Proof.
  intros H.
  assert (Hmain : send_reminder uid tid w = (Ok tt, w)).
  { unfold send_reminder. destruct H as [-> | (t & -> & ->)]; reflexivity. }
  assert (Hearly : send_early_reminder uid tid offset w = (Ok tt, w)).
  { unfold send_early_reminder. destruct H as [-> | (t & -> & ->)]; reflexivity. }
  repeat split; try intros tr; assumption.
Qed.

(** A task that is there and not done does get its reminder. *)
Lemma send_reminder_live w uid tid t :
  task_by_id tid w = Some t -> is_done t = false ->
  notifications (snd (send_reminder uid tid w))
    = notifications w ++
      [send_message uid (TxtReminder (title t) (cat_name <$> category_of t w)
                                     (due_time t) (task_id t))].
Proof.
  intros Ht Hd. unfold send_reminder, notifications. rewrite Ht, Hd. simpl.
  rewrite List.filter_app. reflexivity.
Qed.

(** ** Requests on rows of another user *)

Lemma task_of_user_foreign w from_user tid :
  (forall t, t ∈ tasks w -> task_id t = tid -> user_id t <> from_user) ->
  task_of_user tid from_user w = None.
Proof.
  intros H. unfold task_of_user.
  destruct (List.find _ (tasks w)) as [t|] eqn:E; [|reflexivity].
  apply List.find_some in E as [Hin Hb].
  apply andb_prop in Hb as [Hid Hu].
  apply Z.eqb_eq in Hid, Hu. apply list_elem_of_In in Hin.
  by destruct (H t Hin Hid).
Qed.

Lemma category_of_user_foreign w from_user cid :
  (forall c, c ∈ categories w -> cat_id c = cid -> cat_user_id c <> from_user) ->
  category_of_user cid from_user w = None.
Proof.
  intros H. unfold category_of_user.
  destruct (List.find _ (categories w)) as [c|] eqn:E; [|reflexivity].
  apply List.find_some in E as [Hin Hb].
  apply andb_prop in Hb as [Hid Hu].
  apply Z.eqb_eq in Hid, Hu. apply list_elem_of_In in Hin.
  by destruct (H c Hin Hid).
Qed.

Lemma task_of_user_some w from_user tid t :
  task_of_user tid from_user w = Some t ->
  t ∈ tasks w /\ task_id t = tid /\ user_id t = from_user.
Proof.
  unfold task_of_user. intros E.
  apply List.find_some in E as [Hin Hb].
  apply andb_prop in Hb as [Hid Hu].
  apply Z.eqb_eq in Hid, Hu. by apply list_elem_of_In in Hin.
Qed.

(** C10: when no row with the target id belongs to the requesting user,
    marking done, editing (a field, the repeat type, the category) and
    deleting a task return normally and leave both tables and the job table
    as they were.  Renaming a category leaves them as they were too: it
    returns normally for a blank text, and for any other text it answers
    that the category was not found and then raises [AttributeError] from
    the menu it rebuilds. *)
Theorem C10_foreign_id_noop (w : World) (from_user tid cid : Z) :
  (forall t, t ∈ tasks w -> task_id t = tid -> user_id t <> from_user) ->
  (forall c, c ∈ categories w -> cat_id c = cid -> cat_user_id c <> from_user) ->
  no_effect (mark_done from_user tid) w /\
  (forall field text now,
     no_effect (edit_new_value_text from_user field tid text now) w) /\
  (forall new_type now, no_effect (edit_repeat_type from_user tid new_type now) w) /\
  (forall c now, no_effect (edit_category_choice from_user tid c now) w) /\
  no_effect (delete_task from_user tid) w /\
  (forall text,
     store_unchanged w (snd (rename_category from_user cid text w)) /\
     fst (rename_category from_user cid text w)
       = match Py.strip text with
         | EmptyString => Ok tt
         | _ => Raise AttributeError
         end).
Proof.
  intros Ht Hc.
  apply task_of_user_foreign in Ht. apply category_of_user_foreign in Hc.
  unfold no_effect, store_unchanged.
  repeat split; intros;
    unfold mark_done, edit_new_value_text, edit_repeat_type,
      edit_category_choice, delete_task, rename_category;
    rewrite ?Ht, ?Hc; try reflexivity;
    destruct (Py.strip text); simpl; rewrite ?Hc; reflexivity.
Qed.

(** ** Deleting a category *)

Lemma category_of_user_some w from_user cid c :
  category_of_user cid from_user w = Some c ->
  c ∈ categories w /\ cat_id c = cid /\ cat_user_id c = from_user.
Proof.
  unfold category_of_user. intros E.
  apply List.find_some in E as [Hin Hb].
  apply andb_prop in Hb as [Hid Hu].
  apply Z.eqb_eq in Hid, Hu. by apply list_elem_of_In in Hin.
Qed.

Lemma same_but_category_detach t : same_but_category t (set_category_id None t).
Proof. repeat split. Qed.

Lemma same_but_category_refl t : same_but_category t t.
Proof. repeat split. Qed.

(** Looking a task up by id sees through a rewrite of the rows that keeps
    their ids. *)
Lemma find_task_fmap (f : Task -> Task) (tid : Z) (l : list Task) :
  (forall t, task_id (f t) = task_id t) ->
  List.find (fun t => task_id t =? tid) (f <$> l)
    = f <$> List.find (fun t => task_id t =? tid) l.
Proof.
  intros Hf. induction l as [|t l IH]; [reflexivity|].
  simpl. rewrite Hf. destruct (task_id t =? tid); [reflexivity | exact IH].
Qed.

(** C8: deleting a category of the requesting user returns normally; every
    task stays in the table, at its place, with all columns but
    [category_id] as they were; [category_id] is null on the tasks that
    referenced the category and untouched on the others; exactly the rows of
    that category id leave the category table; the job table is as it was,
    so each task is still found by its fire callback. *)
Theorem C8_delete_category_detaches (w : World) (from_user cid : Z) (c : Category) :
  category_of_user cid from_user w = Some c ->
  let r := confirm_delete_category from_user cid w in
  fst r = Ok tt /\
  length (tasks (snd r)) = length (tasks w) /\
  (forall (i : nat) t, tasks w !! i = Some t ->
     exists t', tasks (snd r) !! i = Some t' /\ same_but_category t t' /\
       category_id t' =
         (if bool_decide (category_id t = Some cid) then None else category_id t)) /\
  (forall c', c' ∈ categories (snd r) <-> c' ∈ categories w /\ cat_id c' <> cid) /\
  jobs (snd r) = jobs w /\
  (forall tid t, task_by_id tid w = Some t ->
     exists t', task_by_id tid (snd r) = Some t' /\ same_but_category t t').
Proof.
  intros Hc r.
  pose proof (category_of_user_some _ _ _ _ Hc) as (_ & Hid & _).
  subst r. unfold confirm_delete_category. rewrite Hc. simpl. rewrite Hid.
  split; [reflexivity|]. split; [by rewrite length_fmap|].
  split; [|split; [|split; [reflexivity|]]].
  - intros i t Hi. rewrite list_lookup_fmap, Hi. simpl. eexists. split; [reflexivity|].
    case_bool_decide; split; auto using same_but_category_detach, same_but_category_refl.
  - intros c'. rewrite list_elem_of_filter. tauto.
  - intros tid t Ht. unfold task_by_id in *. simpl.
    rewrite find_task_fmap by (intros; case_bool_decide; reflexivity).
    rewrite Ht. simpl. eexists. split; [reflexivity|].
    case_bool_decide; auto using same_but_category_detach, same_but_category_refl.
Qed.

(** ** The job table *)

Lemma append_suffix_ne (s : string) c (r : string) : s <> s +:+ String c r.
Proof.
  induction s as [|a s IH]; simpl; [discriminate|].
  intros H. injection H as H. by apply IH.
Qed.

Lemma main_early_distinct id : main_job_id id <> early_job_id id.
Proof.
  unfold main_job_id, early_job_id. simpl. intros H.
  injection H as H. by apply append_suffix_ne in H.
Qed.

Lemma get_trigger_unpack t offset now tr :
  get_trigger t offset now = Ok tr ->
  exists h m, unpack_due_time (due_time t) = Ok (h, m).
Proof.
  unfold get_trigger. destruct (unpack_due_time (due_time t)) as [[h m]|]; [eauto|done].
Qed.

(** [schedule_task] writes to the job table only. *)
Lemma schedule_task_store task now w :
  tasks (snd (schedule_task task now w)) = tasks w /\
  categories (snd (schedule_task task now w)) = categories w /\
  outbox (snd (schedule_task task now w)) = outbox w.
Proof.
  unfold schedule_task, mbind, M_bind, bind, lift, add_job, mret, M_ret, ret.
  destruct (unpack_due_time (due_time task)); [|done].
  destruct (get_trigger task false now); [|done]. simpl.
  destruct (_ && _); [|done].
  destruct (get_trigger task true now); done.
Qed.

(** The main job is replaced by one built from the row as it is now. *)
Lemma schedule_task_main task now w tr :
  get_trigger task false now = Ok tr ->
  jobs (snd (schedule_task task now w)) !! main_job_id (task_id task)
    = Some {| func := f_send_reminder; trigger := tr;
              args := [user_id task; task_id task] |}.
Proof.
  intros Htr. destruct (get_trigger_unpack _ _ _ _ Htr) as (h & m & Hdue).
  unfold schedule_task, mbind, M_bind, bind, lift, add_job, mret, M_ret, ret.
  rewrite Hdue, Htr. simpl.
  destruct (_ && _); [|cbn [jobs set_jobs snd]; by rewrite lookup_insert_eq].
  destruct (get_trigger task true now); cbn [jobs set_jobs snd].
  - rewrite lookup_insert_ne by (symmetry; apply main_early_distinct).
    by rewrite lookup_insert_eq.
  - by rewrite lookup_insert_eq.
Qed.

(** With a zero offset the early job is neither written nor removed. *)
Lemma schedule_task_keeps_early task now w :
  reminder_offset task = 0 ->
  jobs (snd (schedule_task task now w)) !! early_job_id (task_id task)
    = jobs w !! early_job_id (task_id task).
Proof.
  intros Hoff.
  unfold schedule_task, mbind, M_bind, bind, lift, add_job, mret, M_ret, ret.
  destruct (unpack_due_time (due_time task)); [|done].
  destruct (get_trigger task false now); [|done]. simpl.
  rewrite Hoff. cbn [Py.truthy Z.eqb negb andb jobs set_jobs snd].
  by rewrite lookup_insert_ne by apply main_early_distinct.
Qed.

(** With a positive offset and an early trigger, the early job is replaced
    too. *)
Lemma schedule_task_early task now w tr tr' :
  get_trigger task false now = Ok tr ->
  0 < reminder_offset task ->
  get_trigger task true now = Ok tr' ->
  schedule_task task now w =
    (Ok tt,
     set_jobs (fun js =>
       <[early_job_id (task_id task) :=
           {| func := f_send_early_reminder; trigger := tr';
              args := [user_id task; task_id task; reminder_offset task] |}]>
       (<[main_job_id (task_id task) :=
           {| func := f_send_reminder; trigger := tr;
              args := [user_id task; task_id task] |}]> js)) w).
Proof.
  intros Htr Hoff Htr'. destruct (get_trigger_unpack _ _ _ _ Htr) as (h & m & Hdue).
  unfold schedule_task, mbind, M_bind, bind, lift, add_job, mret, M_ret, ret, Py.truthy.
  rewrite Hdue, Htr. simpl.
  destruct (Z.eqb_spec (reminder_offset task) 0); [lia|].
  destruct (Z.ltb_spec 0 (reminder_offset task)); [|lia]. simpl.
  rewrite Htr'. reflexivity.
Qed.

(** ** The time of day a trigger is built for *)

Lemma make_trigger_time_of_day t h m now tr :
  valid_time_of_day h m = true ->
  make_trigger t h m now = Ok tr ->
  trigger_time_of_day tr = (h, m).
Proof.
  intros Hv.
  unfold make_trigger, CronTrigger_hm, CronTrigger_dow, CronTrigger_ymd, IntervalTrigger.
  rewrite (mk_timedelta_time h m Hv). simpl.
  assert (Hrun : forall n r,
    (let? x := dt_add (combine (start_date t)) (h * us_per_hour + m * us_per_minute) in
     roll_forward x now n) = Ok r ->
    exists d, r = combine_due d h m).
  { intros n r H.
    destruct (dt_add _ _) as [x|] eqn:Hx; [|done]. simpl in H.
    apply dt_add_inv in Hx. apply roll_forward_inv in H as [[_ ->]|[_ ->]]; subst x.
    - exists (start_date t). unfold combine_due. lia.
    - exists (start_date t + n). unfold combine_due, combine. lia. }
  intros Htr. repeat case_match; simplify_eq/=; try done.
  all: destruct (dt_add _ _) as [x|] eqn:Hx; [|done]; simpl in Htr;
    destruct (roll_forward x now _) as [r|] eqn:Hr; [|done]; simpl in Htr;
    match goal with
    | Hr : roll_forward x _ ?n = Ok r |- _ =>
        destruct (Hrun n r) as [d ->]; [exact Hr|]
    end.
  - destruct (mk_timedelta _ 0 0); [|done]. simplify_eq/=.
    by rewrite hour_of_combine_due, minute_of_combine_due.
  - rewrite date_of_combine_due, hour_of_combine_due, minute_of_combine_due in Htr
      by done.
    case_match; by simplify_eq/=.
Qed.

Lemma get_trigger_time_of_day t h m now tr :
  unpack_due_time (due_time t) = Ok (h, m) ->
  valid_time_of_day h m = true ->
  get_trigger t false now = Ok tr ->
  trigger_time_of_day tr = (h, m).
Proof.
  intros Hdue Hv. rewrite (get_trigger_main _ _ _ _ Hdue).
  by apply make_trigger_time_of_day.
Qed.

(** ** Editing a task *)

Lemma apply_field_ids field text task task' :
  apply_field field text task = inr task' ->
  task_id task' = task_id task /\ user_id task' = user_id task.
Proof.
  unfold apply_field. intros H.
  repeat case_match; simplify_eq/=; done.
Qed.

Lemma apply_field_time text task :
  validate_time text = true ->
  apply_field "time" text task = inr (set_due_time text task).
Proof. intros H. unfold apply_field. simpl. by rewrite H. Qed.

(** After [session.commit()] the query of the handler finds the row with
    its new values. *)
Lemma task_of_user_commit w from_user tid task task' :
  task_of_user tid from_user w = Some task ->
  task_id task' = task_id task -> user_id task' = user_id task ->
  task_of_user tid from_user (snd (commit_task task' w)) = Some task'.
Proof.
  intros Hfind Hid Hu.
  destruct (task_of_user_some _ _ _ _ Hfind) as (_ & Htid & Huid).
  assert (Hp : (task_id task' =? tid) && (user_id task' =? from_user) = true).
  { apply andb_true_intro. split; apply Z.eqb_eq; congruence. }
  unfold task_of_user in *. simpl.
  induction (tasks w) as [|r l IH]; [done|]. simpl in *.
  destruct (Z.eqb_spec (task_id r) (task_id task')) as [Heq|Hne].
  - by rewrite Hp.
  - destruct (Z.eqb_spec (task_id r) tid) as [Hr|Hr]; [congruence|].
    simpl in *. by apply IH.
Qed.

Lemma emit_answers_only e : answers_only (emit e).
Proof. done. Qed.

Lemma bind_answers_only (m k : M unit) :
  answers_only m -> answers_only k -> answers_only (m ;; k).
Proof.
  intros Hm Hk w. unfold mbind, M_bind, bind.
  destruct (Hm w) as [Hj Ht].
  destruct (m w) as [[[]|e] w1]; simpl in *; [|done].
  destruct (Hk w1) as [-> ->]. done.
Qed.

Lemma bind_frame (m k : M unit) w :
  answers_only k ->
  jobs (snd ((m ;; k) w)) = jobs (snd (m w)) /\
  tasks (snd ((m ;; k) w)) = tasks (snd (m w)).
Proof.
  intros Hk. unfold mbind, M_bind, bind.
  destruct (m w) as [[[]|e] w1]; simpl; [apply Hk | done].
Qed.

Lemma commit_then (task : Task) (k : M unit) w :
  (commit_task task ;; k) w = k (snd (commit_task task w)).
Proof. reflexivity. Qed.

(** What committing a row and scheduling it leaves behind. *)
Lemma commit_schedule_main w from_user tid task task' now tr :
  task_of_user tid from_user w = Some task ->
  task_id task' = task_id task -> user_id task' = user_id task ->
  get_trigger task' false now = Ok tr ->
  let w' := snd ((commit_task task' ;; schedule_task task' now) w) in
  jobs w' !! main_job_id tid
    = Some {| func := f_send_reminder; trigger := tr; args := [from_user; tid] |} /\
  task_of_user tid from_user w' = Some task'.
Proof.
  intros Hfind Hid Hu Htr.
  destruct (task_of_user_some _ _ _ _ Hfind) as (_ & Htid & Huid).
  rewrite commit_then. cbv zeta. split.
  - rewrite <- Htid, <- Huid, <- Hid, <- Hu. by apply schedule_task_main.
  - unfold task_of_user at 1.
    destruct (schedule_task_store task' now (snd (commit_task task' w))) as (-> & _).
    by apply (task_of_user_commit w from_user tid task task').
Qed.

(** An accepted edit of a field whose offset can be bound commits the row
    and schedules it. *)
Lemma edit_new_value_text_run w from_user tid field text now task task' :
  task_of_user tid from_user w = Some task ->
  apply_field field text task = inr task' ->
  (reminder_offset task' =? reminder_offset task)
    || sql_integer (reminder_offset task') = true ->
  edit_new_value_text from_user field tid text now w
    = ((commit_task task' ;; schedule_task task' now) ;;
       emit (reply TxtTaskUpdated)) w.
Proof.
  intros Hfind Hedit Hbind.
  unfold edit_new_value_text. rewrite Hfind, Hedit.
  unfold mbind at 1, M_bind at 1, bind at 1, bind_integer. rewrite Hbind.
  reflexivity.
Qed.

(** C7: a daily task at 09:30 with an early reminder 80 minutes before has
    its early job at 08:10.  Its owner edits the time to 09:10, which
    [validate_time] accepts.  The row gets the new time and the main job is
    replaced by one at 09:10; but the early trigger of the new row has
    minute -10, so [schedule_task] raises [ValueError] out of the handler,
    no answer is sent, and the early job stays registered at 08:10, the time
    derived from the old due time.  When it fires it still sends the early
    reminder. *)
Theorem C7_edit_time_stale_early_job :
  let w0 := sample_long_offset_scheduled in
  let r := edit_new_value_text 7 "time" 5 "09:10" sample_now w0 in
  let early := {| func := f_send_early_reminder; trigger := CronTime 8 10;
                  args := [7; 5; 80] |} in
  jobs w0 !! main_job_id 5
    = Some {| func := f_send_reminder; trigger := CronTime 9 30; args := [7; 5] |} /\
  jobs w0 !! early_job_id 5 = Some early /\
  validate_time "09:10" = true /\
  fst r = Raise ValueError /\
  task_by_id 5 (snd r) = Some (set_due_time "09:10" sample_long_offset) /\
  jobs (snd r) !! main_job_id 5
    = Some {| func := f_send_reminder; trigger := CronTime 9 10; args := [7; 5] |} /\
  jobs (snd r) !! early_job_id 5 = Some early /\
  outbox (snd r) = outbox w0 /\
  notifications (snd (run_job early (snd r)))
    = [send_message 7 (TxtEarlyReminder 80 "water the plants" "09:10")].
Proof.
  vm_compute. repeat split; reflexivity.
Qed.

(** Before the edit the main job of the sample task fired at 09:00. *)
Example sample_scheduled_main :
  jobs sample_scheduled !! main_job_id 5
    = Some {| func := f_send_reminder; trigger := CronTime 9 0; args := [7; 5] |}.
Proof. vm_compute. reflexivity. Qed.

(** ** At most one main and one early job per task *)

Lemma jobs_keyed_insert js k j :
  jobs_keyed js -> job_key j = Some k -> jobs_keyed (<[k := j]> js).
Proof.
  intros Hjs Hk k' j'. rewrite lookup_insert.
  case_decide; [intros; simplify_eq; done | apply Hjs].
Qed.

Lemma jobs_keyed_delete js k : jobs_keyed js -> jobs_keyed (delete k js).
Proof.
  intros Hjs k' j'. rewrite lookup_delete.
  case_decide; [done | apply Hjs].
Qed.

Lemma schedule_task_keyed task now w :
  jobs_keyed (jobs w) -> jobs_keyed (jobs (snd (schedule_task task now w))).
Proof.
  intros Hw.
  unfold schedule_task, mbind, M_bind, bind, lift, add_job, mret, M_ret, ret.
  destruct (unpack_due_time (due_time task)); [|done].
  destruct (get_trigger task false now); [|done]. cbn [snd jobs set_jobs].
  destruct (_ && _); [|by apply jobs_keyed_insert].
  destruct (get_trigger task true now); cbn [snd jobs set_jobs];
    repeat apply jobs_keyed_insert; done.
Qed.

Lemma remove_job_keyed k w :
  jobs_keyed (jobs w) -> jobs_keyed (jobs (snd (remove_job k w))).
Proof.
  intros Hw. unfold remove_job. destruct (jobs w !! k); [|done].
  by apply jobs_keyed_delete.
Qed.

(** Two stored jobs with the same function for the same task are one job
    under one id: a task has at most one main and at most one early job. *)
Lemma jobs_keyed_at_most_one js k1 k2 j1 j2 tid :
  jobs_keyed js ->
  js !! k1 = Some j1 -> js !! k2 = Some j2 ->
  func j1 = func j2 -> job_task j1 = Some tid -> job_task j2 = Some tid ->
  k1 = k2 /\ j1 = j2.
Proof.
  intros Hjs H1 H2 Hf Ht1 Ht2.
  pose proof (Hjs _ _ H1) as Hk1. pose proof (Hjs _ _ H2) as Hk2.
  assert (k1 = k2) as ->.
  { unfold job_key, job_task in *. rewrite <- Hf in Hk2.
    destruct (func j1), (args j1) as [|? [|? [|? [|? ?]]]],
             (args j2) as [|? [|? [|? [|? ?]]]]; simplify_eq/=; done. }
  split; [done | congruence].
Qed.

(** [schedule_task] called twice on the same row leaves the job table of
    the first call. *)
Lemma schedule_task_twice task now w tr tr' :
  get_trigger task false now = Ok tr ->
  0 < reminder_offset task ->
  get_trigger task true now = Ok tr' ->
  jobs (snd (schedule_task task now (snd (schedule_task task now w))))
    = jobs (snd (schedule_task task now w)).
Proof.
  intros Htr Hoff Htr'.
  rewrite !(schedule_task_early task now _ tr tr') by done.
  cbn [snd jobs set_jobs].
  apply map_eq. intros k. rewrite !lookup_insert.
  repeat case_decide; done.
Qed.

(** ** The early job after the offset is set to 0 *)

(** C4 fails on the code: the sample task is scheduled with a 20 minute
    early reminder; its owner then sets the offset to 0.  The row has offset
    0, yet the early job of the first call is still stored, and when it
    fires the early reminder is sent. *)
Theorem C4_stale_early_job :
  let w1 := sample_early_scheduled in
  let w2 := snd (edit_new_value_text 7 "offset" 5 "0" sample_now w1) in
  let stale := {| func := f_send_early_reminder; trigger := CronTime 8 40;
                  args := [7; 5; 20] |} in
  fst (edit_new_value_text 7 "offset" 5 "0" sample_now w1) = Ok tt /\
  (reminder_offset <$> task_by_id 5 w2) = Some 0 /\
  jobs w2 !! early_job_id 5 = Some stale /\
  notifications (snd (run_job stale w2))
    = [send_message 7 (TxtEarlyReminder 20 "water the plants" "09:00")].
Proof. vm_compute. repeat split; reflexivity. Qed.

(** ** Cancelling the jobs of a task *)

Lemma remove_job_missing k w :
  jobs w !! k = None -> remove_job k w = (Raise (JobLookupError k), w).
Proof. intros H. unfold remove_job. by rewrite H. Qed.

(** When the main job is missing nothing is removed; when only the early
    job is missing the main job is removed; either way the call raises. *)
Lemma remove_task_jobs_missing id w :
  (jobs w !! main_job_id id = None ->
     remove_task_jobs id w = (Raise (JobLookupError (main_job_id id)), w)) /\
  (is_Some (jobs w !! main_job_id id) -> jobs w !! early_job_id id = None ->
     remove_task_jobs id w
       = (Raise (JobLookupError (early_job_id id)),
          set_jobs (delete (main_job_id id)) w)).
Proof.
  unfold remove_task_jobs, mbind, M_bind, bind, remove_job. split.
  - intros ->. reflexivity.
  - intros [j ->] He. cbn [jobs set_jobs].
    rewrite lookup_delete_ne by apply main_early_distinct.
    by rewrite He.
Qed.

(** C6 fails on the code: the sample task has no early reminder, so only its
    main job is stored.  Marking it done raises [JobLookupError] on the
    early job; deleting it raises the same way and the row stays in the
    table.  With no job at all the first removal raises, and with only the
    early job stored it raises before the early job is removed. *)
Theorem C6_cancel_raises_on_missing_job :
  let w1 := sample_scheduled in
  jobs w1 !! early_job_id 5 = None /\
  fst (mark_done 7 5 w1) = Raise (JobLookupError "task_5_early") /\
  fst (delete_task 7 5 w1) = Raise (JobLookupError "task_5_early") /\
  task_by_id 5 (snd (delete_task 7 5 w1)) = Some sample_daily /\
  fst (remove_task_jobs 5 sample_world) = Raise (JobLookupError "task_5") /\
  (let w3 := set_jobs (delete (main_job_id 5)) sample_early_scheduled in
   fst (remove_task_jobs 5 w3) = Raise (JobLookupError "task_5") /\
   is_Some (jobs (snd (remove_task_jobs 5 w3)) !! early_job_id 5)).
Proof. vm_compute. repeat split; try reflexivity. eexists; reflexivity. Qed.

(** ** Job ids *)

Lemma count_char_app c s1 s2 :
  count_char c (s1 +:+ s2) = (count_char c s1 + count_char c s2)%nat.
Proof. induction s1 as [|a s1 IH]; simpl; [done|]. rewrite IH. lia. Qed.

Lemma pretty_N_char_no_underscore x : Ascii.eqb (pretty_N_char x) "_" = false.
Proof. unfold pretty_N_char. by repeat case_match. Qed.

Lemma pretty_N_go_underscores x s :
  count_char "_" (pretty_N_go x s) = count_char "_" s.
Proof.
  revert s. induction (N.lt_wf_0 x) as [x _ IH]; intros s.
  assert (x = 0 \/ 0 < x)%N as [->|Hx] by lia.
  - by rewrite pretty_N_go_0.
  - rewrite pretty_N_go_step by done.
    rewrite IH by (by apply N.div_lt). simpl.
    by rewrite pretty_N_char_no_underscore.
Qed.

(** The decimal rendering of an integer has no underscore. *)
Lemma pretty_Z_underscores (z : Z) : count_char "_" (pretty z) = 0%nat.
Proof.
  assert (Hp : forall p : positive, count_char "_" (pretty p) = 0%nat).
  { intros p. unfold pretty, pretty_positive, pretty, pretty_N.
    case_decide; [done|]. by rewrite pretty_N_go_underscores. }
  destruct z as [|p|p]; unfold pretty, pretty_Z; [done | apply Hp |].
  simpl. apply Hp.
Qed.

Lemma app_underscore_cancel s1 s2 r1 r2 :
  count_char "_" s1 = 0%nat -> count_char "_" s2 = 0%nat ->
  s1 +:+ String "_" r1 = s2 +:+ String "_" r2 -> s1 = s2.
Proof.
  revert s2. induction s1 as [|a s1 IH]; intros [|b s2]; simpl; intros H1 H2 H.
  - done.
  - injection H as <- _. simpl in H2. lia.
  - injection H as -> _. simpl in H1. lia.
  - injection H as -> H. f_equal. apply IH; [| |done].
    + destruct (Ascii.eqb b "_"); lia.
    + destruct (Ascii.eqb b "_"); lia.
Qed.

(** X1: the job ids [task_<id>] and [task_<id>_early] identify the task
    and the kind of job: two tasks never share a main id or an early id, and
    a main id is never the early id of any task. *)
Theorem job_ids_injective (a b : Z) :
  (main_job_id a = main_job_id b -> a = b) /\
  (early_job_id a = early_job_id b -> a = b) /\
  main_job_id a <> early_job_id b.
Proof.
  unfold main_job_id, early_job_id. simpl. repeat split.
  - intros H. injection H as H. by apply (inj pretty).
  - intros H. injection H as H. apply (inj pretty).
    eapply app_underscore_cancel; eauto using pretty_Z_underscores.
  - intros H. injection H as H.
    apply (f_equal (count_char "_")) in H.
    rewrite !count_char_app, !pretty_Z_underscores in H. simpl in H. lia.
Qed.

(** ** Due times that cannot be read *)

Lemma length_split c s : length (Py.split c s) = S (count_char c s).
Proof.
  induction s as [|a s IH]; [done|]. simpl.
  destruct (Ascii.eqb a c); simpl; [by rewrite IH|].
  destruct (Py.split c s); simpl in *; lia.
Qed.

Lemma unpack_due_time_colons due :
  count_char ":" due <> 1%nat -> unpack_due_time due = Raise ValueError.
Proof.
  intros H. unfold unpack_due_time.
  pose proof (length_split ":" due) as Hl.
  destruct (Py.split ":" due) as [|a [|b [|c l]]]; try done.
  simpl in Hl. lia.
Qed.

(** X2: a row whose [due_time] does not hold exactly one colon cannot be
    scheduled: [get_trigger] and [schedule_task] raise [ValueError], and
    [schedule_task] raises before it touches the job table. *)
Theorem schedule_task_unreadable_due_time (task : Task) (now : datetime) (w : World) :
  count_char ":" (due_time task) <> 1%nat ->
  (forall offset, get_trigger task offset now = Raise ValueError) /\
  schedule_task task now w = (Raise ValueError, w).
Proof.
  intros H. apply unpack_due_time_colons in H. split.
  - intros offset. unfold get_trigger. by rewrite H.
  - unfold schedule_task, mbind, M_bind, bind, lift. by rewrite H.
Qed.

(** ** Validated times *)

(** X3: whatever [validate_time] accepts, [get_trigger] reads as an hour
    in 0-23 and a minute in 0-59, and a daily task with that due time gets
    the cron trigger of exactly that hour and minute. *)
Theorem validate_time_sound (text : string) :
  validate_time text = true ->
  exists h m,
    unpack_due_time text = Ok (h, m) /\
    0 <= h <= 23 /\ 0 <= m <= 59 /\
    (forall t now,
       due_time t = text -> repeat_type t = "daily"%string ->
       get_trigger t false now = Ok (CronTime h m)).
Proof.
  unfold validate_time. destruct (strptime_HM text) as [[h m]|] eqn:E; [|done].
  intros _. destruct (strptime_unpack _ _ _ E) as [Hdue Hv].
  exists h, m. split; [done|].
  pose proof (valid_time_bounds h m Hv). repeat split; try lia.
  intros t now Ht Hrt. rewrite <- Ht in Hdue.
  rewrite (get_trigger_main _ _ _ _ Hdue), make_trigger_daily by done.
  unfold CronTrigger_hm. by rewrite Hv.
Qed.

(** ** What [schedule_task] stores for a daily task *)

Lemma schedule_task_no_early task now w tr :
  get_trigger task false now = Ok tr ->
  reminder_offset task <= 0 ->
  schedule_task task now w =
    (Ok tt,
     set_jobs (insert (main_job_id (task_id task))
                 {| func := f_send_reminder; trigger := tr;
                    args := [user_id task; task_id task] |}) w).
Proof.
  intros Htr Hoff. destruct (get_trigger_unpack _ _ _ _ Htr) as (h & m & Hdue).
  unfold schedule_task, mbind, M_bind, bind, lift, add_job, mret, M_ret, ret.
  rewrite Hdue, Htr. simpl.
  destruct (Z.ltb_spec 0 (reminder_offset task)); [lia|].
  by rewrite andb_false_r.
Qed.

Lemma schedule_task_early_raises task now w tr e :
  get_trigger task false now = Ok tr ->
  0 < reminder_offset task ->
  get_trigger task true now = Raise e ->
  schedule_task task now w =
    (Raise e,
     set_jobs (insert (main_job_id (task_id task))
                 {| func := f_send_reminder; trigger := tr;
                    args := [user_id task; task_id task] |}) w).
Proof.
  intros Htr Hoff Htr'. destruct (get_trigger_unpack _ _ _ _ Htr) as (h & m & Hdue).
  unfold schedule_task, mbind, M_bind, bind, lift, add_job, mret, M_ret, ret, Py.truthy.
  rewrite Hdue, Htr. simpl.
  destruct (Z.eqb_spec (reminder_offset task) 0); [lia|].
  destruct (Z.ltb_spec 0 (reminder_offset task)); [|lia]. simpl.
  by rewrite Htr'.
Qed.

(** X4: for a daily task with a valid due time [h]:[m], [schedule_task]
    returns normally whenever [0 <= offset <= m + 60]: it stores the main
    job at [h]:[m] and, when the offset is positive, the early job at the
    early time of day with the offset among its arguments; with offset 0 the
    early id is not written. *)
Theorem schedule_task_daily (task : Task) (h m : Z) (now : datetime) (w : World) :
  repeat_type task = "daily"%string ->
  unpack_due_time (due_time task) = Ok (h, m) ->
  valid_time_of_day h m = true ->
  0 <= reminder_offset task <= m + 60 ->
  let main := {| func := f_send_reminder; trigger := CronTime h m;
                 args := [user_id task; task_id task] |} in
  let et := early_time h m (reminder_offset task) in
  let early := {| func := f_send_early_reminder;
                  trigger := CronTime (fst et) (snd et);
                  args := [user_id task; task_id task; reminder_offset task] |} in
  schedule_task task now w =
    (Ok tt,
     set_jobs (fun js =>
       if 0 <? reminder_offset task
       then <[early_job_id (task_id task) := early]>
              (<[main_job_id (task_id task) := main]> js)
       else <[main_job_id (task_id task) := main]> js) w).
Proof.
  intros Hrt Hdue Hv Hoff main et early.
  assert (Hmain : get_trigger task false now = Ok (CronTime h m)).
  { rewrite (get_trigger_main _ _ _ _ Hdue), make_trigger_daily by done.
    unfold CronTrigger_hm. by rewrite Hv. }
  destruct (Z.ltb_spec 0 (reminder_offset task)) as [Hpos|Hzero].
  - apply schedule_task_early; [done..|].
    rewrite (get_trigger_early _ _ _ _ Hdue) by lia.
    rewrite make_trigger_daily by done. unfold CronTrigger_hm.
    destruct (early_time_valid h m (reminder_offset task) Hv Hpos) as [Hok _].
    by rewrite Hok by lia.
  - by apply schedule_task_no_early.
Qed.

(** X5: for a daily task with a valid due time [h]:[m] and an offset
    above [m + 60], [schedule_task] raises [ValueError] after it has stored
    the main job: the early id keeps whatever job it held before. *)
Theorem schedule_task_daily_offset_too_large (task : Task) (h m : Z)
    (now : datetime) (w : World) :
  repeat_type task = "daily"%string ->
  unpack_due_time (due_time task) = Ok (h, m) ->
  valid_time_of_day h m = true ->
  m + 60 < reminder_offset task ->
  schedule_task task now w =
    (Raise ValueError,
     set_jobs (insert (main_job_id (task_id task))
                 {| func := f_send_reminder; trigger := CronTime h m;
                    args := [user_id task; task_id task] |}) w) /\
  jobs (snd (schedule_task task now w)) !! early_job_id (task_id task)
    = jobs w !! early_job_id (task_id task).
Proof.
  intros Hrt Hdue Hv Hoff.
  pose proof (valid_time_bounds h m Hv) as Hb.
  assert (Hmain : get_trigger task false now = Ok (CronTime h m)).
  { rewrite (get_trigger_main _ _ _ _ Hdue), make_trigger_daily by done.
    unfold CronTrigger_hm. by rewrite Hv. }
  assert (Hs : schedule_task task now w =
    (Raise ValueError,
     set_jobs (insert (main_job_id (task_id task))
                 {| func := f_send_reminder; trigger := CronTime h m;
                    args := [user_id task; task_id task] |}) w)).
  { apply schedule_task_early_raises; [done | lia |].
    by apply (get_trigger_early_rejected task h m). }
  split; [exact Hs|]. rewrite Hs. cbn [snd jobs set_jobs].
  by rewrite lookup_insert_ne by apply main_early_distinct.
Qed.

(** ** Completing and deleting a task *)

Lemma task_by_id_commit w tid task' :
  task_id task' = tid ->
  (exists r, r ∈ tasks w /\ task_id r = tid) ->
  task_by_id tid (snd (commit_task task' w)) = Some task'.
Proof.
  intros Hid (r & Hin & Hr). unfold task_by_id. simpl.
  induction (tasks w) as [|r0 l IH]; [by apply elem_of_nil in Hin|]. simpl.
  destruct (Z.eqb_spec (task_id r0) (task_id task')) as [Heq|Hne].
  - by rewrite Hid, Z.eqb_refl.
  - destruct (Z.eqb_spec (task_id r0) tid); [congruence|].
    apply IH. apply elem_of_cons in Hin as [->|Hin]; [congruence | done].
Qed.

Lemma mark_done_tasks w from_user tid task :
  task_of_user tid from_user w = Some task ->
  tasks (snd (mark_done from_user tid w))
    = tasks (snd (commit_task (set_is_done true task) w)).
Proof.
  intros Hfind.
  unfold mark_done, remove_task_jobs, remove_job, mbind, M_bind, bind, emit.
  rewrite Hfind. cbn.
  destruct (jobs w !! _); cbn; [|done].
  destruct (delete _ (jobs w) !! _); done.
Qed.

(** X6: once the owner marks a task done, the row is stored as done,
    whether or not the handler then raises on a missing job, and every later
    fire for that task, main or early, sends nothing. *)
Theorem mark_done_silences (w : World) (from_user tid : Z) (task : Task) :
  task_of_user tid from_user w = Some task ->
  let w' := snd (mark_done from_user tid w) in
  task_by_id tid w' = Some (set_is_done true task) /\
  (forall uid offset,
     send_reminder uid tid w' = (Ok tt, w') /\
     send_early_reminder uid tid offset w' = (Ok tt, w')).
Proof.
  intros Hfind w'.
  destruct (task_of_user_some _ _ _ _ Hfind) as (Hin & Htid & _).
  assert (Hrow : task_by_id tid w' = Some (set_is_done true task)).
  { unfold task_by_id. subst w'. rewrite (mark_done_tasks _ _ _ _ Hfind).
    apply (task_by_id_commit w tid (set_is_done true task)); [done | eauto]. }
  split; [exact Hrow|]. intros uid offset.
  unfold send_reminder, send_early_reminder. by rewrite Hrow.
Qed.

(** X7: when both jobs of a task are stored, [mark_done] by its owner
    returns normally, removes exactly these two jobs and leaves the
    categories as they were. *)
Theorem mark_done_cancels_both_jobs (w : World) (from_user tid : Z) (task : Task)
    (jm je : Job) :
  task_of_user tid from_user w = Some task ->
  jobs w !! main_job_id tid = Some jm ->
  jobs w !! early_job_id tid = Some je ->
  let r := mark_done from_user tid w in
  fst r = Ok tt /\
  jobs (snd r) = delete (early_job_id tid) (delete (main_job_id tid) (jobs w)) /\
  categories (snd r) = categories w /\
  outbox (snd r) = outbox w ++ [reply (TxtTaskDone (title task)); reply TxtAnswer].
Proof.
  intros Hfind Hm He.
  destruct (task_of_user_some _ _ _ _ Hfind) as (_ & Htid & _).
  unfold mark_done, remove_task_jobs, remove_job, mbind, M_bind, bind, emit.
  rewrite Hfind. cbn. rewrite Htid, Hm. cbn.
  rewrite lookup_delete_ne by apply main_early_distinct. rewrite He. cbn.
  by rewrite <- app_assoc.
Qed.

(** X8: when both jobs of a task are stored, [delete_task] by its owner
    returns normally; the rows with that id, and only they, leave the task
    table; the two jobs of the task, and only they, leave the job table. *)
Theorem delete_task_removes_row_and_jobs (w : World) (from_user tid : Z)
    (task : Task) (jm je : Job) :
  task_of_user tid from_user w = Some task ->
  jobs w !! main_job_id tid = Some jm ->
  jobs w !! early_job_id tid = Some je ->
  let r := delete_task from_user tid w in
  fst r = Ok tt /\
  (forall t, t ∈ tasks (snd r) <-> t ∈ tasks w /\ task_id t <> tid) /\
  task_by_id tid (snd r) = None /\
  (forall k, jobs (snd r) !! k =
             if bool_decide (k = main_job_id tid \/ k = early_job_id tid)
             then None else jobs w !! k) /\
  categories (snd r) = categories w.
Proof.
  intros Hfind Hm He.
  destruct (task_of_user_some _ _ _ _ Hfind) as (_ & Htid & _).
  unfold delete_task, remove_task_jobs, remove_job, mbind, M_bind, bind, emit,
    delete_task_row.
  rewrite Hfind. cbn. rewrite Htid, Hm. cbn.
  rewrite lookup_delete_ne by apply main_early_distinct. rewrite He. cbn.
  split; [done|]. split; [|split; [|split; [|done]]].
  - intros t. rewrite list_elem_of_filter. tauto.
  - unfold task_by_id. cbn.
    destruct (List.find _ _) as [t|] eqn:E; [|done].
    apply List.find_some in E as [Hin Hid]. apply Z.eqb_eq in Hid.
    apply list_elem_of_In, list_elem_of_filter in Hin as [Hne _]. done.
  - intros k. case_bool_decide as Hk.
    + destruct Hk as [-> | ->].
      * rewrite lookup_delete_ne
          by (intros E; symmetry in E; by apply main_early_distinct in E).
        apply lookup_delete_eq.
      * apply lookup_delete_eq.
    + rewrite !lookup_delete_ne by (intros E; apply Hk; rewrite <- E; auto). done.
Qed.

(** ** Edits that are refused *)

(** X9: an edit of the time with a text [validate_time] rejects, or of
    the offset with a text that is not an integer or is negative, is
    answered with a refusal only: both tables and the job table stay as they
    were and nothing is rescheduled. *)
Theorem edit_refused_no_effect (w : World) (from_user tid : Z) (task : Task)
    (field text : string) (now : datetime) :
  task_of_user tid from_user w = Some task ->
  (field = "time"%string /\ validate_time text = false) \/
  (field = "offset"%string /\
   (Py.int text = None \/ exists n, Py.int text = Some n /\ n < 0)) ->
  no_effect (edit_new_value_text from_user field tid text now) w /\
  exists msg, outbox (snd (edit_new_value_text from_user field tid text now w))
              = outbox w ++ [reply msg].
Proof.
  intros Hfind H. unfold no_effect, store_unchanged, edit_new_value_text, apply_field.
  rewrite Hfind.
  destruct H as [[-> Hv] | [-> [Hn | (n & Hn & Hneg)]]]; cbn.
  - rewrite Hv. cbn. eauto 10.
  - rewrite Hn. cbn. eauto 10.
  - rewrite Hn. destruct (Z.ltb_spec n 0); [|lia]. cbn. eauto 10.
Qed.

(** ** Repeat types without their parameter *)

(** X10: a weekly task without days and an interval task with 0 days are
    scheduled like a one-shot task: [get_trigger] returns what it returns
    for the same row with repeat type ['none']. *)
Theorem get_trigger_degenerate_repeat (t : Task) (offset : bool) (now : datetime) :
  (repeat_type t = "weekly"%string /\ Py.truthy_str (repeat_days t) = false) \/
  (repeat_type t = "interval"%string /\ interval_days t = 0) ->
  get_trigger t offset now
    = get_trigger (set_repeat "none" (repeat_days t) (interval_days t) t) offset now.
Proof.
  intros H. unfold get_trigger. cbn.
  destruct (unpack_due_time (due_time t)) as [[h m]|]; [|done]. cbn.
  destruct (if offset && Py.truthy (reminder_offset t)
            then early_time h m (reminder_offset t) else (h, m)) as [h' m'].
  unfold make_trigger; cbn.
  destruct H as [[-> Hd] | [-> Hn]]; cbn; rewrite ?Hd, ?Hn; reflexivity.
Qed.

(** ** Renaming a category *)

Lemma category_of_user_commit w from_user cid c c' :
  category_of_user cid from_user w = Some c ->
  cat_id c' = cat_id c -> cat_user_id c' = cat_user_id c ->
  category_of_user cid from_user (snd (commit_category c' w)) = Some c'.
Proof.
  intros Hfind Hid Hu.
  destruct (category_of_user_some _ _ _ _ Hfind) as (_ & Hcid & Huid).
  assert (Hp : (cat_id c' =? cid) && (cat_user_id c' =? from_user) = true).
  { apply andb_true_intro. split; apply Z.eqb_eq; congruence. }
  unfold category_of_user in *. simpl.
  induction (categories w) as [|r l IH]; [done|]. simpl in *.
  destruct (Z.eqb_spec (cat_id r) (cat_id c')) as [Heq|Hne].
  - by rewrite Hp.
  - destruct (Z.eqb_spec (cat_id r) cid) as [Hr|Hr]; [congruence|].
    simpl in *. by apply IH.
Qed.

(** X11: when the owner renames a category to a text that is not blank,
    the new name is committed and confirmed before the handler raises
    [AttributeError] from the menu it rebuilds: the category is then found
    under the same id and owner with the stripped text as its name; the
    categories of other ids, the number of categories, the tasks and the
    jobs are as they were.  A blank text changes nothing, and the handler
    returns normally. *)
Theorem rename_category_by_owner (w : World) (from_user cid : Z) (text : string)
    (c : Category) :
  category_of_user cid from_user w = Some c ->
  let r := rename_category from_user cid text w in
  tasks (snd r) = tasks w /\ jobs (snd r) = jobs w /\
  length (categories (snd r)) = length (categories w) /\
  (Py.strip text = EmptyString ->
     fst r = Ok tt /\ categories (snd r) = categories w) /\
  (Py.strip text <> EmptyString ->
     fst r = Raise AttributeError /\
     outbox (snd r) = outbox w ++ [reply TxtCategoryRenamed] /\
     category_of_user cid from_user (snd r) = Some (set_cat_name (Py.strip text) c) /\
     (forall c0, cat_id c0 <> cid ->
                 (c0 ∈ categories (snd r) <-> c0 ∈ categories w))).
Proof.
  intros Hfind r.
  destruct (category_of_user_some _ _ _ _ Hfind) as (_ & Hcid & _).
  subst r. unfold rename_category.
  destruct (Py.strip text) as [|a s] eqn:Hs; [cbn; repeat split; done|].
  rewrite Hfind.
  set (c' := set_cat_name (String a s) c).
  split; [done|]. split; [done|].
  split; [apply length_fmap|]. split; [done|]. intros _.
  split; [done|]. split; [done|]. split.
  - change (category_of_user cid from_user (snd (commit_category c' w)) = Some c').
    by apply (category_of_user_commit w from_user cid c c').
  - intros c0 Hc0.
    change (c0 ∈ categories (snd (commit_category c' w)) <-> c0 ∈ categories w).
    cbn. rewrite list_elem_of_fmap. split.
    + intros (y & -> & Hy). destruct (Z.eqb_spec (cat_id y) (cat_id c)); [|done].
      cbn in Hc0. congruence.
    + intros Hin. exists c0. split; [|done].
      destruct (Z.eqb_spec (cat_id c0) (cat_id c)); [congruence | done].
Qed.

(** ** Reminders after the category is gone *)

Lemma notifications_app w es :
  notifications (set_outbox (fun o => o ++ es) w)
    = notifications w
      ++ List.filter (fun e => match e with send_message _ _ => true | _ => false end) es.
Proof. unfold notifications. cbn. apply List.filter_app. Qed.

(** X12: after the owner deletes a category, the reminder of a task
    that referenced it is still sent when its job fires, now without a
    category name. *)
Theorem reminder_after_category_deleted (w : World) (from_user cid : Z)
    (c : Category) (uid tid : Z) (t : Task) :
  category_of_user cid from_user w = Some c ->
  task_by_id tid w = Some t ->
  is_done t = false ->
  category_id t = Some cid ->
  let w' := snd (confirm_delete_category from_user cid w) in
  notifications (snd (send_reminder uid tid w'))
    = notifications w'
      ++ [send_message uid (TxtReminder (title t) None (due_time t) (task_id t))].
Proof.
  intros Hc Ht Hd Hcat w'.
  pose proof (category_of_user_some _ _ _ _ Hc) as (_ & Hid & _).
  assert (Hrow : task_by_id tid w' = Some (set_category_id None t)).
  { subst w'. unfold confirm_delete_category, task_by_id in *. rewrite Hc. simpl.
    rewrite find_task_fmap by (intros; case_bool_decide; reflexivity).
    rewrite Ht. simpl. by rewrite bool_decide_eq_true_2. }
  unfold send_reminder. rewrite Hrow.
  change (is_done (set_category_id None t)) with (is_done t). rewrite Hd.
  unfold emit. cbn [negb snd]. rewrite notifications_app. reflexivity.
Qed.

(** ** The instant of the early reminder of a one-shot task *)

Lemma hour_minute_in_range x :
  valid_time_of_day (hour_of x) (minute_of x) = true.
Proof.
  unfold valid_time_of_day, hour_of, minute_of, us_per_day, us_per_hour, us_per_minute.
  repeat (apply andb_true_intro; split); apply Z.leb_le;
    Z.div_mod_to_equations; lia.
Qed.

(** A whole number of minutes is the instant of its own calendar fields. *)
Lemma instant_of_fields x :
  x mod us_per_minute = 0 ->
  combine_due (date_of x) (hour_of x) (minute_of x) = x.
Proof.
  unfold combine_due, combine, date_of, hour_of, minute_of,
    us_per_day, us_per_hour, us_per_minute.
  intros H. Z.div_mod_to_equations. lia.
Qed.

Lemma date_of_between x d :
  combine d <= x < combine (d + 1) -> date_of x = d.
Proof.
  unfold combine, date_of, us_per_day. intros H. Z.div_mod_to_equations. lia.
Qed.

Lemma date_of_mono x y : x <= y -> date_of x <= date_of y.
Proof. unfold date_of, us_per_day. intros H. Z.div_mod_to_equations. lia. Qed.

Lemma date_of_between_le x d : x < combine (d + 1) -> date_of x <= d.
Proof.
  unfold combine, date_of, us_per_day. intros H. Z.div_mod_to_equations. lia.
Qed.

Lemma date_of_combine d : date_of (combine d) = d.
Proof. unfold date_of, combine, us_per_day. Z.div_mod_to_equations. lia. Qed.

Lemma dt_add_ok x d :
  MINORDINAL <= date_of (x + d) <= MAXORDINAL -> dt_add x d = Ok (x + d).
Proof.
  intros H. unfold dt_add.
  destruct (Z.leb_spec MINORDINAL (date_of (x + d))),
           (Z.leb_spec (date_of (x + d)) MAXORDINAL); try lia.
  reflexivity.
Qed.

Lemma mk_timedelta_within_a_day h m :
  - us_per_day <= h * us_per_hour + m * us_per_minute < us_per_day ->
  mk_timedelta 0 h m = Ok (h * us_per_hour + m * us_per_minute).
Proof.
  intros H. unfold mk_timedelta.
  replace (0 * us_per_day + h * us_per_hour + m * us_per_minute)
    with (h * us_per_hour + m * us_per_minute) by lia.
  set (us := h * us_per_hour + m * us_per_minute) in *.
  assert (-1 <= us / us_per_day <= 0)
    by (unfold us_per_day in *; Z.div_mod_to_equations; lia).
  destruct (Z.leb_spec (-999999999) (us / us_per_day)),
           (Z.leb_spec (us / us_per_day) 999999999); try lia.
  reflexivity.
Qed.

Lemma combine_due_whole_minutes d h m : combine_due d h m mod us_per_minute = 0.
Proof.
  unfold combine_due, combine.
  replace (d * us_per_day + h * us_per_hour + m * us_per_minute)
    with ((d * 1440 + h * 60 + m) * us_per_minute)
    by (unfold us_per_day, us_per_hour, us_per_minute; lia).
  apply Z.mod_mul. unfold us_per_minute. lia.
Qed.

(** The one-shot trigger built for an hour and a minute that need not be a
    time of day, as long as the instant stays within a day of the start
    date. *)
Lemma make_trigger_one_shot_at t h m now :
  repeat_type t = "none"%string ->
  combine (start_date t - 1) <= combine_due (start_date t) h m
    < combine (start_date t + 1) ->
  ORDINAL_1970 < start_date t < MAXORDINAL ->
  exists tr,
    make_trigger t h m now = Ok tr /\
    fire_instant tr =
      Some (if combine_due (start_date t) h m <? now
            then combine_due (start_date t) h m + us_per_day
            else combine_due (start_date t) h m).
Proof.
  intros Hrt Hx Hd. rewrite make_trigger_one_shot by done.
  set (x := combine_due (start_date t) h m) in *.
  assert (Hus : h * us_per_hour + m * us_per_minute = x - combine (start_date t))
    by (unfold x, combine_due; lia).
  assert (Hdx : start_date t - 1 <= date_of x <= start_date t).
  { split.
    - rewrite <- (date_of_combine (start_date t - 1)). apply date_of_mono. lia.
    - apply date_of_between_le. lia. }
  rewrite mk_timedelta_within_a_day
    by (rewrite Hus; unfold combine, us_per_day in *; lia).
  cbn [res_bind]. rewrite Hus.
  replace (combine (start_date t) + (x - combine (start_date t))) with x
    in * by lia.
  rewrite dt_add_ok;
    replace (combine (start_date t) + (x - combine (start_date t))) with x by lia;
    [|unfold MINORDINAL, ORDINAL_1970 in *; lia].
  cbn [res_bind]. unfold roll_forward.
  assert (Hfields : forall y,
    y mod us_per_minute = 0 ->
    start_date t - 1 <= date_of y <= start_date t + 1 ->
    exists tr, CronTrigger_ymd (date_of y) (hour_of y) (minute_of y) = Ok tr /\
               fire_instant tr = Some y).
  { intros y Hy Hdy. unfold CronTrigger_ymd. rewrite hour_minute_in_range.
    destruct (Z.leb_spec ORDINAL_1970 (date_of y)),
             (Z.leb_spec (date_of y) MAXORDINAL); try lia.
    eexists. split; [reflexivity|]. cbn [fire_instant].
    f_equal. by apply instant_of_fields. }
  destruct (x <? now).
  - rewrite mk_timedelta_days by lia. cbn [res_bind].
    assert (Hdy : start_date t - 1 <= date_of (x + 1 * us_per_day) <= start_date t + 1).
    { split.
      - etrans; [apply Hdx|]. apply date_of_mono. unfold us_per_day. lia.
      - apply date_of_between_le. unfold combine, us_per_day in *. lia. }
    rewrite dt_add_ok by (unfold MINORDINAL, ORDINAL_1970 in *; lia).
    cbn [res_bind].
    replace (x + us_per_day) with (x + 1 * us_per_day) by lia.
    apply Hfields; [|done].
    unfold x. rewrite combine_due_shift. apply combine_due_whole_minutes.
  - cbn [res_bind]. apply Hfields; [apply combine_due_whole_minutes | lia].
Qed.

(** The early time of day, as an instant on the start date. *)
Lemma early_time_instant d h m off :
  valid_time_of_day h m = true -> 0 < off ->
  combine_due d (fst (early_time h m off)) (snd (early_time h m off))
    = combine_due d h m - off * us_per_minute
      + (if (h =? 0) && (m <? off) then us_per_day else 0).
Proof.
  intros Hv Hoff. pose proof (valid_time_bounds h m Hv) as Hb.
  rewrite early_time_cases. cbn [fst snd].
  unfold combine_due, combine, us_per_day, us_per_hour, us_per_minute.
  destruct (Z.ltb_spec (m - off) 0), (Z.ltb_spec (h - 1) 0), (Z.ltb_spec h 0),
           (Z.eqb_spec h 0), (Z.ltb_spec m off); cbn [andb]; lia.
Qed.

(** X13: the early reminder of a one-shot task with a valid due time
    and an offset of at most a day is a single instant: the due instant
    minus the offset, except that a due hour of 0 with an offset above the
    minute lands a whole day later (the hour is set to 23 on the same date);
    and when that instant lies strictly before now it is pushed by one more
    day. *)
Theorem early_one_shot_instant (t : Task) (h m : Z) (now : datetime) :
  repeat_type t = "none"%string ->
  unpack_due_time (due_time t) = Ok (h, m) ->
  valid_time_of_day h m = true ->
  0 < reminder_offset t <= 1440 ->
  ORDINAL_1970 < start_date t < MAXORDINAL ->
  let x := combine_due (start_date t) h m - reminder_offset t * us_per_minute
           + (if (h =? 0) && (m <? reminder_offset t) then us_per_day else 0) in
  exists tr,
    get_trigger t true now = Ok tr /\
    fire_instant tr = Some (if x <? now then x + us_per_day else x).
Proof.
  intros Hrt Hdue Hv Hoff Hd x.
  pose proof (valid_time_bounds h m Hv) as Hb.
  rewrite (get_trigger_early _ _ _ _ Hdue) by lia.
  pose proof (early_time_instant (start_date t) h m (reminder_offset t) Hv
                ltac:(lia)) as Hx.
  fold x in Hx. rewrite <- Hx.
  apply make_trigger_one_shot_at; [done | | done].
  rewrite Hx. subst x.
  unfold combine_due, combine, us_per_day, us_per_hour, us_per_minute.
  destruct (Z.eqb_spec h 0), (Z.ltb_spec m (reminder_offset t)); cbn [andb]; lia.
Qed.

(** ** The label and the trigger *)

Lemma res_bind_ok {A B} (r : res A) (k : A -> res B) b :
  res_bind r k = Ok b -> exists a, r = Ok a /\ k a = Ok b.
Proof. destruct r; [eauto | done]. Qed.

(** X14: the label [get_repeat_text] shows for a task names the trigger
    [get_trigger] schedules for it: "Ежедневно" for the daily cron trigger,
    the listed day names for the weekly one, the number of days for the
    interval trigger and "Однократно" for the single date, also when a
    weekly task has no days or an interval task has 0 days. *)
Theorem repeat_text_names_the_trigger (t : Task) (offset : bool) (now : datetime)
    (tr : Trigger) :
  get_trigger t offset now = Ok tr ->
  get_repeat_text t =
    match tr with
    | CronTime _ _ => "Ежедневно"
    | CronWeekly days _ _ =>
        "По дням: " +:+ Py.join ", " (omap days_map_get (Py.split "," days))
    | Interval n _ => "Каждые " +:+ pretty n +:+ " дн."
    | CronDate _ _ _ => "Однократно"
    end%string.
Proof.
  unfold get_trigger. intros H.
  apply res_bind_ok in H as ([h m] & _ & H).
  destruct (if offset && Py.truthy (reminder_offset t)
            then early_time h m (reminder_offset t) else (h, m)) as [h' m'].
  unfold make_trigger, get_repeat_text in *.
  destruct (String.eqb (repeat_type t) "daily").
  { unfold CronTrigger_hm in H. by destruct (valid_time_of_day h' m'); simplify_eq. }
  destruct (String.eqb (repeat_type t) "weekly" && Py.truthy_str (repeat_days t)).
  { rewrite (join_split ",") in H. unfold CronTrigger_dow in H.
    by destruct (_ && _); simplify_eq. }
  destruct (String.eqb (repeat_type t) "interval" && Py.truthy (interval_days t)).
  { apply res_bind_ok in H as (d & _ & H).
    apply res_bind_ok in H as (s & _ & H).
    apply res_bind_ok in H as (s' & _ & H).
    unfold IntervalTrigger in H. apply res_bind_ok in H as (d' & _ & H).
    by simplify_eq. }
  apply res_bind_ok in H as (d & _ & H).
  apply res_bind_ok in H as (s & _ & H).
  apply res_bind_ok in H as (s' & _ & H).
  unfold CronTrigger_ymd in H. by destruct (_ && _); simplify_eq.
Qed.

(** ** Dates that [validate_date] accepts *)

Lemma is_leap_step y :
  days_before_year (y + 1)
    = days_before_year y + 365 + (if is_leap y then 1 else 0).
Proof.
  unfold days_before_year, is_leap.
  replace (y + 1 - 1) with y by lia.
  destruct (Z.eqb_spec (y mod 4) 0), (Z.eqb_spec (y mod 100) 0),
           (Z.eqb_spec (y mod 400) 0); cbn [andb orb negb];
    Z.div_mod_to_equations; lia.
Qed.

Lemma days_before_year_mono a b :
  a <= b -> days_before_year a <= days_before_year b.
Proof. unfold days_before_year. intros H. Z.div_mod_to_equations. lia. Qed.

Lemma days_before_month_bounds y m d :
  1 <= m <= 12 -> 1 <= d <= days_in_month y m ->
  1 <= days_before_month y m + d <= 365 + (if is_leap y then 1 else 0).
Proof.
  intros Hm Hd. unfold days_before_month, days_in_month in *.
  assert (m = 1 \/ m = 2 \/ m = 3 \/ m = 4 \/ m = 5 \/ m = 6 \/ m = 7 \/ m = 8 \/
          m = 9 \/ m = 10 \/ m = 11 \/ m = 12) as Hc by lia.
  destruct (is_leap y);
    repeat (destruct Hc as [-> | Hc]; [vm_compute nth; cbn in *; lia|]);
    subst; vm_compute nth; cbn in *; lia.
Qed.

Lemma ymd2ord_bounds y m d :
  1 <= y <= 9999 -> 1 <= m <= 12 -> 1 <= d <= days_in_month y m ->
  MINORDINAL <= ymd2ord y m d <= MAXORDINAL.
Proof.
  intros Hy Hm Hd. unfold ymd2ord, MINORDINAL, MAXORDINAL.
  pose proof (days_before_month_bounds y m d Hm Hd) as Hb.
  pose proof (is_leap_step y) as Hs.
  pose proof (days_before_year_mono 1 y ltac:(lia)) as H1.
  pose proof (days_before_year_mono (y + 1) 10000 ltac:(lia)) as H2.
  change (days_before_year 1) with 0 in H1.
  change (days_before_year 10000) with 3652059 in H2.
  lia.
Qed.

Lemma match_field_d l d : match_field re_d l = Some d -> 1 <= d <= 31.
Proof.
  unfold re_d. intros Hm.
  destruct l as [|a [|b [|c r]]]; try discriminate;
    cbn [match_field match_alternative] in Hm;
    match_field_cases Hm; simplify_eq; digit_bounds; lia.
Qed.

Lemma match_field_m l m : match_field re_m l = Some m -> 1 <= m <= 12.
Proof.
  unfold re_m. intros Hm.
  destruct l as [|a [|b [|c r]]]; try discriminate;
    cbn [match_field match_alternative] in Hm;
    match_field_cases Hm; simplify_eq; digit_bounds; lia.
Qed.

Lemma match_field_Y l y : match_field re_Y l = Some y -> 0 <= y <= 9999.
Proof.
  unfold re_Y. intros Hm.
  destruct l as [|a [|b [|c [|d [|e r]]]]]; try discriminate;
    cbn [match_field match_alternative] in Hm;
    match_field_cases Hm; simplify_eq; digit_bounds; lia.
Qed.

(** X15: a text that [validate_date] accepts names an existing
    calendar day: a year from 1 to 9999, a month from 1 to 12 and a day of
    that month (29 February only in leap years); the date read from it is
    one Python can represent. *)
Theorem validate_date_sound (text : string) :
  validate_date text = true ->
  exists d m y,
    strptime_dmY text = Some (ymd2ord y m d) /\
    1 <= y <= 9999 /\ 1 <= m <= 12 /\ 1 <= d <= days_in_month y m /\
    (m = 2 -> d = 29 -> is_leap y = true) /\
    MINORDINAL <= ymd2ord y m d <= MAXORDINAL.
Proof.
  unfold validate_date, strptime_dmY.
  destruct (Py.split "." text) as [|dd [|mm [|yyyy [|? ?]]]]; try done.
  destruct (match_field re_d (Py.code_points dd)) as [d|] eqn:Hd; [|done].
  destruct (match_field re_m (Py.code_points mm)) as [m|] eqn:Hm; [|done].
  destruct (match_field re_Y (Py.code_points yyyy)) as [y|] eqn:Hy; [|done].
  destruct (Z.leb_spec 1 y); [|done].
  destruct (Z.leb_spec d (days_in_month y m)); [|done].
  intros _. cbn [andb].
  apply match_field_d in Hd. apply match_field_m in Hm.
  apply match_field_Y in Hy.
  exists d, m, y. split; [done|].
  split; [lia|]. split; [lia|]. split; [lia|]. split.
  - intros -> ->. unfold days_in_month in *. cbn in *.
    by destruct (is_leap y).
  - apply ymd2ord_bounds; lia.
Qed.

(** ** Choosing the days of a weekly task *)

Lemma list_contains_elem_of x l : list_contains x l = true <-> x ∈ l.
Proof.
  unfold list_contains. rewrite existsb_exists. split.
  - intros (y & Hin & Heq). apply String.eqb_eq in Heq as ->.
    by apply list_elem_of_In.
  - intros Hin. exists x. split; [by apply list_elem_of_In | apply String.eqb_refl].
Qed.

Lemma list_remove_elem_of x y l :
  NoDup l -> (y ∈ list_remove x l <-> y ∈ l /\ y <> x).
Proof.
  induction l as [|z l IH]; intros Hnd; simpl.
  - rewrite elem_of_nil. tauto.
  - apply NoDup_cons in Hnd as [Hz Hnd].
    destruct (String.eqb_spec z x) as [->|Hne].
    + rewrite elem_of_cons. split.
      * intros Hy. split; [auto|]. by intros ->.
      * intros [[->|Hy] Hne]; done.
    + rewrite !elem_of_cons, IH by done. split.
      * intros [->|[Hy Hyx]]; auto.
      * intros [[->|Hy] Hyx]; auto.
Qed.

Lemma list_remove_NoDup x l : NoDup l -> NoDup (list_remove x l).
Proof.
  induction l as [|z l IH]; intros Hnd; simpl; [done|].
  apply NoDup_cons in Hnd as [Hz Hnd].
  destruct (String.eqb z x); [done|].
  apply NoDup_cons. split; [|auto].
  rewrite list_remove_elem_of by done. tauto.
Qed.

Lemma toggle_day_elem_of (day : string) (l : list string) :
  NoDup l ->
  NoDup (toggle_day day l) /\
  (day ∈ toggle_day day l <-> day ∉ l) /\
  (forall d, d <> day -> (d ∈ toggle_day day l <-> d ∈ l)).
Proof.
  intros Hnd. unfold toggle_day.
  destruct (list_contains day l) eqn:Hc.
  - apply list_contains_elem_of in Hc. split; [by apply list_remove_NoDup|].
    split.
    + rewrite list_remove_elem_of by done. tauto.
    + intros d Hd. rewrite list_remove_elem_of by done. tauto.
  - assert (day ∉ l) as Hnin.
    { intros Hin. apply list_contains_elem_of in Hin. congruence. }
    split; [|split].
    + apply NoDup_app. split; [done|]. split; [|apply NoDup_singleton].
      intros x Hx ->%list_elem_of_singleton. done.
    + rewrite elem_of_app, list_elem_of_singleton. tauto.
    + intros d Hd. rewrite elem_of_app, list_elem_of_singleton. tauto.
Qed.

(** X16: pressing a day button, whose callback data is [day_] followed
    by the day, toggles that day and no other in the list of chosen days (an
    absent list counts as empty): the day is chosen afterwards exactly when
    it was not before, every other day stays as it was, the list stays free
    of repetitions, and the dialogue state does not move. *)
Theorem repeat_days_select_toggles (c : Chat) (call_data : string) (l : list string) :
  default (DaysList []) (d_repeat_days (fsm_data c)) = DaysList l ->
  NoDup l ->
  exists l',
    fst (add_task_repeat_days_select call_data c) = Done /\
    d_repeat_days (fsm_data (snd (add_task_repeat_days_select call_data c)))
      = Some (DaysList l') /\
    fsm_state (snd (add_task_repeat_days_select call_data c)) = fsm_state c /\
    NoDup l' /\
    (drop4 call_data ∈ l' <-> drop4 call_data ∉ l) /\
    (forall d, d <> drop4 call_data -> (d ∈ l' <-> d ∈ l)).
Proof.
  intros Hl Hnd. unfold add_task_repeat_days_select. rewrite Hl.
  exists (toggle_day (drop4 call_data) l).
  split; [done|]. split; [done|]. split; [done|].
  by apply toggle_day_elem_of.
Qed.

(** Splitting at the separator undoes the join of parts that do not
    contain it. *)
Lemma split_join sep (l : list string) :
  l <> [] ->
  Forall (fun s => count_char sep s = 0%nat) l ->
  Py.split sep (Py.join (String sep EmptyString) l) = l.
Proof.
  intros Hne Hall. induction Hall as [|s l Hs Hall IH]; [done|].
  assert (Hone : forall r, Py.split sep (s +:+ String sep r) = s :: Py.split sep r).
  { intros r. clear -Hs. induction s as [|a s IHs]; simpl in *.
    - by rewrite Ascii.eqb_refl.
    - destruct (Ascii.eqb a sep); [lia|]. by rewrite IHs by lia. }
  assert (Hlast : Py.split sep s = [s]).
  { clear -Hs. induction s as [|a s IHs]; simpl in *; [done|].
    destruct (Ascii.eqb a sep); [lia|]. by rewrite IHs by lia. }
  destruct l as [|s' l]; [exact Hlast|].
  change (Py.join (String sep EmptyString) (s :: s' :: l))
    with (s +:+ String sep (Py.join (String sep EmptyString) (s' :: l))).
  rewrite Hone, IH; done.
Qed.

Lemma is_weekday_no_comma s : is_weekday s = true -> count_char "," s = 0%nat.
Proof.
  unfold is_weekday, weekday_names. cbn [existsb]. intros H.
  repeat (apply orb_prop in H as [H|H]; [apply String.eqb_eq in H as ->; done|]).
  done.
Qed.

(** X17: when at least one day is chosen and the chosen days are day
    codes, "done" stores them joined by commas and moves on to the offset
    question; splitting the stored string gives the chosen days back, and
    the weekly cron trigger accepts it for every valid time of day.  With no
    day chosen the dialogue stays where it is. *)
Theorem repeat_days_done_spec (c : Chat) (l : list string) :
  d_repeat_days (fsm_data c) = Some (DaysList l) ->
  Forall (fun d => is_weekday d = true) l ->
  (l = [] ->
     add_task_repeat_days_done c = (Done, say PNoDayChosen c)) /\
  (l <> [] ->
     exists s,
       add_task_repeat_days_done c
         = (Done, say PEnterOffset
                    (set_fsm_state (Some AddTask_reminder_offset)
                       (set_fsm_data (set_d_repeat_days (DaysStr s)) c))) /\
       Py.split "," s = l /\
       (forall h m, valid_time_of_day h m = true ->
                    CronTrigger_dow s h m = Ok (CronWeekly s h m))).
Proof.
  intros Hd Hall. unfold add_task_repeat_days_done. rewrite Hd. split.
  - by intros ->.
  - intros Hne. destruct l as [|d l]; [done|].
    exists (Py.join "," (d :: l)). split; [done|].
    assert (Hs : Py.split "," (Py.join "," (d :: l)) = d :: l).
    { apply split_join; [done|].
      eapply Forall_impl; [exact Hall|]. apply is_weekday_no_comma. }
    split; [exact Hs|]. intros h m Hv. unfold CronTrigger_dow.
    rewrite Hs, Hv.
    assert (forallb is_weekday (d :: l) = true) as ->; [|done].
    apply forallb_forall. intros x Hx%list_elem_of_In.
    by eapply Forall_forall in Hall.
Qed.

(** ** Ids in callback data *)

Lemma code_points_ascii a s :
  (N_of_ascii a < 128)%N ->
  Py.code_points (String a s) = N_of_ascii a :: Py.code_points s.
Proof.
  intros Ha. cbn [Py.code_points]. unfold Py.char_width.
  destruct (N.ltb_spec (N_of_ascii a) 128); [done | lia].
Qed.

Lemma pretty_N_char_code n :
  (n < 10)%N -> N_of_ascii (pretty_N_char n) = (48 + n)%N.
Proof.
  intros Hn. destruct n as [|p]; [done|].
  do 4 (try destruct p as [p|p|]); try done; lia.
Qed.

Lemma code_points_pretty_N_char n s :
  (n < 10)%N ->
  Py.code_points (String (pretty_N_char n) s) = (48 + n)%N :: Py.code_points s.
Proof.
  intros Hn. rewrite code_points_ascii; rewrite pretty_N_char_code by done;
    [done | lia].
Qed.

Lemma decimal_digit_code n :
  (n < 10)%N -> Py.decimal (48 + n) = Some (Z.of_N n).
Proof.
  intros Hn. rewrite decimal_ascii_digit by lia. f_equal. lia.
Qed.

(** Reading the digits that [pretty] wrote gives the number back. *)
Lemma digits_pretty_N_go x s seen :
  (0 < x)%N ->
  Py.digits 0 seen (Py.code_points (pretty_N_go x s))
    = Py.digits (Z.of_N x) true (Py.code_points s).
Proof.
  revert s seen. induction (N.lt_wf_0 x) as [x _ IH]; intros s seen Hx.
  rewrite pretty_N_go_step by done.
  assert (Hlt : (x `mod` 10 < 10)%N) by (apply N.mod_lt; lia).
  destruct (N.eq_0_gt_0_cases (x `div` 10)) as [H0|Hpos].
  - rewrite H0, pretty_N_go_0, code_points_pretty_N_char by done.
    cbn [Py.digits]. rewrite decimal_digit_code by done.
    f_equal. pose proof (N.div_mod x 10 ltac:(lia)). lia.
  - rewrite IH by (done || by apply N.div_lt).
    rewrite code_points_pretty_N_char by done.
    cbn [Py.digits]. rewrite decimal_digit_code by done.
    f_equal. pose proof (N.div_mod x 10 ltac:(lia)). lia.
Qed.

Lemma pretty_N_go_head x s :
  (0 < x)%N ->
  exists c r d, Py.code_points (pretty_N_go x s) = c :: r /\ Py.decimal c = Some d.
Proof.
  revert s. induction (N.lt_wf_0 x) as [x _ IH]; intros s Hx.
  rewrite pretty_N_go_step by done.
  assert (Hlt : (x `mod` 10 < 10)%N) by (apply N.mod_lt; lia).
  destruct (N.eq_0_gt_0_cases (x `div` 10)) as [H0|Hpos].
  - rewrite H0, pretty_N_go_0, code_points_pretty_N_char by done.
    eexists _, _, _. split; [done|]. by apply decimal_digit_code.
  - apply IH; [by apply N.div_lt | done].
Qed.

(** [int(str(z))] is [z]. *)
Lemma int_pretty (z : Z) : Py.int (pretty z) = Some z.
Proof.
  assert (Hpos : forall q : positive,
            Py.digits 0 false (Py.code_points (pretty (N.pos q))) = Some (Z.pos q) /\
            Py.int (pretty (N.pos q)) = Some (Z.pos q)).
  { intros q. unfold pretty, pretty_N. case_decide; [done|].
    destruct (pretty_N_go_head (N.pos q) "" ltac:(lia)) as (c & r & d & Hcr & Hd).
    rewrite (int_digit_head _ c r d Hcr Hd), <- Hcr.
    by rewrite digits_pretty_N_go by lia. }
  destruct z as [|q|q]; [done | apply Hpos |].
  unfold pretty, pretty_Z. unfold Py.int.
  change ("-" +:+ pretty q) with (String "-" (pretty q)).
  rewrite code_points_ascii by (vm_compute; done).
  change (N_of_ascii "-") with 45%N. cbn [Py.skip_space].
  change (Py.int_space 45) with false. cbv iota beta.
  destruct (Hpos q) as [Hq _].
  change (pretty q) with (pretty (N.pos q)). by rewrite Hq.
Qed.

Lemma split_no_sep sep s : count_char sep s = 0%nat -> Py.split sep s = [s].
Proof.
  induction s as [|a s IH]; simpl; [done|].
  destruct (Ascii.eqb a sep); [lia|]. intros H. by rewrite IH by lia.
Qed.

Lemma split_app_sep sep p r :
  Py.split sep (p +:+ String sep r) = Py.split sep p ++ Py.split sep r.
Proof.
  induction p as [|a p IH]; simpl.
  - by rewrite Ascii.eqb_refl.
  - rewrite IH. destruct (Ascii.eqb a sep); [done|].
    pose proof (split_nonempty sep p).
    by destruct (Py.split sep p).
Qed.

Lemma split_prefix_id (p : string) (z : Z) :
  Py.split "_" (p +:+ "_" +:+ pretty z) = Py.split "_" p ++ [pretty z].
Proof.
  change (p +:+ "_" +:+ pretty z) with (p +:+ String "_" (pretty z)).
  by rewrite split_app_sep, (split_no_sep "_" (pretty z))
    by apply pretty_Z_underscores.
Qed.

(** The button [cat_<id>] of the category keyboard. *)
Lemma category_button_stores_id (z : Z) (c : Chat) :
  add_task_category_choice ("cat_" +:+ pretty z) c
    = (Done,
       say PAnswer
         (set_fsm_state (Some AddTask_start_date)
            (say PCategoryChosen (set_fsm_data (set_d_category_id z) c)))).
Proof.
  unfold add_task_category_choice.
  destruct (String.eqb_spec ("cat_" +:+ pretty z) "cat_new") as [Heq|_].
  { change ("cat_" +:+ pretty z)
      with (String "c" (String "a" (String "t" (String "_" (pretty z))))) in Heq.
    injection Heq as Heq. pose proof (int_pretty z) as Hi.
    rewrite Heq in Hi. done. }
  change ("cat_" +:+ pretty z) with ("cat" +:+ "_" +:+ pretty z).
  rewrite (split_prefix_id "cat").
  change (Py.split "_" "cat" ++ [pretty z]) with ["cat"%string; pretty z].
  cbn [lookup list_lookup]. by rewrite int_pretty.
Qed.

(** X18: an id written into callback data is read back by the handler
    that receives it: in [<prefix>_<id>] the id is the part after the
    underscores of the prefix, and [int] of that part is the id.  So the
    button [cat_<id>] of the category keyboard stores exactly that category
    id in the dialogue and asks for the start date. *)
Theorem callback_data_round_trip (prefix : string) (z : Z) :
  Py.split "_" (prefix +:+ "_" +:+ pretty z) !! S (count_char "_" prefix)
    = Some (pretty z) /\
  Py.int (pretty z) = Some z /\
  (forall c,
     add_task_category_choice ("cat_" +:+ pretty z) c
       = (Done,
          say PAnswer
            (set_fsm_state (Some AddTask_start_date)
               (say PCategoryChosen (set_fsm_data (set_d_category_id z) c))))).
Proof.
  split; [|split; [apply int_pretty | apply category_button_stores_id]].
  rewrite split_prefix_id, lookup_app_r by (rewrite length_split; lia).
  by rewrite length_split, Nat.sub_diag.
Qed.

(** ** Fresh ids *)

Lemma fresh_id_gt (ids : list Z) x : x ∈ ids -> x < fresh_id ids.
Proof.
  unfold fresh_id. induction ids as [|y ids IH]; simpl.
  - by intros H%elem_of_nil.
  - intros [->|H]%elem_of_cons; [lia|]. specialize (IH H). lia.
Qed.

Lemma fresh_id_not_in (ids : list Z) : fresh_id ids ∉ ids.
Proof. intros H%fresh_id_gt. lia. Qed.

Lemma fresh_id_positive (ids : list Z) : 1 <= fresh_id ids.
Proof. unfold fresh_id. induction ids; simpl in *; lia. Qed.

Lemma find_app_none {A} (p : A -> bool) l x :
  List.find p l = None -> p x = true -> List.find p (l ++ [x]) = Some x.
Proof.
  induction l as [|y l IH]; simpl; intros H Hx; [by rewrite Hx|].
  destruct (p y); [done | auto].
Qed.

Lemma find_app_some {A} (p : A -> bool) l l' y :
  List.find p l = Some y -> List.find p (l ++ l') = Some y.
Proof.
  induction l as [|z l IH]; simpl; [done|]. destruct (p z); auto.
Qed.

(** ** Creating or reusing a category *)

Lemma add_category_name_reuse uid text c old :
  Py.strip text <> EmptyString ->
  category_by_name uid (Py.strip text) (world c) = Some old ->
  add_category_name uid text c =
    (Done,
     set_fsm_data (set_d_previous_state None)
       (set_fsm_state (Some AddTask_start_date)
          (say (PCategoryCreated (Py.strip text))
             (set_fsm_data (set_d_category_id (cat_id old)) c)))).
Proof.
  intros Hne Hold. unfold add_category_name.
  destruct (Py.strip text) as [|a s]; [done|]. by rewrite Hold.
Qed.

Lemma add_category_name_create uid text c :
  Py.strip text <> EmptyString ->
  category_by_name uid (Py.strip text) (world c) = None ->
  let cid := fresh_id (cat_id <$> categories (world c)) in
  let new := {| cat_id := cid; cat_user_id := uid; cat_name := Py.strip text |} in
  add_category_name uid text c =
    (Done,
     set_fsm_data (set_d_previous_state None)
       (set_fsm_state (Some AddTask_start_date)
          (say (PCategoryCreated (Py.strip text))
             (set_fsm_data (set_d_category_id cid)
                (set_world (set_categories (fun l => l ++ [new])) c))))).
Proof.
  intros Hne Hold. unfold add_category_name.
  destruct (Py.strip text) as [|a s]; [done|]. by rewrite Hold.
Qed.

(** X19: naming a category in the dialogue never makes a second
    category of the same name for the same user: a category of that user
    with the stripped name is reused when there is one, and otherwise one is
    appended under an id no category has; its id goes into the dialogue data
    and the dialogue asks for the start date.  Sending the same name again
    changes no category.  Tasks and jobs are not touched. *)
Theorem add_category_name_create_or_reuse (uid : Z) (text : string) (c : Chat) :
  Py.strip text <> EmptyString ->
  let name := Py.strip text in
  let r := add_category_name uid text c in
  fst r = Done /\
  fsm_state (snd r) = Some AddTask_start_date /\
  tasks (world (snd r)) = tasks (world c) /\
  jobs (world (snd r)) = jobs (world c) /\
  (exists cat,
     category_by_name uid name (world (snd r)) = Some cat /\
     cat_user_id cat = uid /\ cat_name cat = name /\
     d_category_id (fsm_data (snd r)) = Some (cat_id cat) /\
     match category_by_name uid name (world c) with
     | Some old => cat = old /\ categories (world (snd r)) = categories (world c)
     | None =>
         categories (world (snd r)) = categories (world c) ++ [cat] /\
         cat_id cat ∉ cat_id <$> categories (world c)
     end) /\
  categories (world (snd (add_category_name uid text (snd r))))
    = categories (world (snd r)).
Proof.
  intros Hne name r.
  assert (Hfound : forall w cat, category_by_name uid name w = Some cat ->
            cat_user_id cat = uid /\ cat_name cat = name).
  { intros w cat H. apply List.find_some in H as [_ H].
    apply andb_prop in H as [Hu Hn].
    apply Z.eqb_eq in Hu. by apply String.eqb_eq in Hn. }
  assert (Hex : exists cat,
     category_by_name uid name (world (snd r)) = Some cat /\
     d_category_id (fsm_data (snd r)) = Some (cat_id cat) /\
     fst r = Done /\ fsm_state (snd r) = Some AddTask_start_date /\
     tasks (world (snd r)) = tasks (world c) /\
     jobs (world (snd r)) = jobs (world c) /\
     match category_by_name uid name (world c) with
     | Some old => cat = old /\ categories (world (snd r)) = categories (world c)
     | None =>
         categories (world (snd r)) = categories (world c) ++ [cat] /\
         cat_id cat ∉ cat_id <$> categories (world c)
     end).
  { subst r name.
    destruct (category_by_name uid (Py.strip text) (world c)) as [old|] eqn:Hold.
    - rewrite (add_category_name_reuse uid text c old Hne Hold).
      exists old. repeat split; done.
    - rewrite (add_category_name_create uid text c Hne Hold).
      eexists. split; [|repeat split; try done; apply fresh_id_not_in].
      unfold category_by_name. cbn. apply find_app_none; [done|].
      cbn. by rewrite Z.eqb_refl, String.eqb_refl. }
  destruct Hex as (cat & Hcat & Hid & Hdone & Hst & Ht & Hj & Hold).
  destruct (Hfound _ _ Hcat) as [Hu Hn].
  split; [done|]. split; [done|]. split; [done|]. split; [done|]. split.
  - exists cat. repeat split; done.
  - by rewrite (add_category_name_reuse uid text (snd r) cat Hne Hcat).
Qed.

(** ** Saving the task of a finished dialogue *)

Lemma foldr_max_base (b : Z) (l : list Z) :
  0 <= b -> foldr Z.max b l = Z.max b (foldr Z.max 0 l).
Proof. intros Hb. induction l as [|x l IH]; simpl; [lia|]. rewrite IH. lia. Qed.

Lemma fresh_id_snoc (ids : list Z) :
  fresh_id (ids ++ [fresh_id ids]) = fresh_id ids + 1.
Proof.
  pose proof (fresh_id_positive ids) as Hp.
  unfold fresh_id in *. rewrite foldr_app. simpl.
  rewrite foldr_max_base by lia. lia.
Qed.

Lemma new_task_fields tid uid today now d task :
  new_task tid uid today now d = inr task ->
  task_id task = tid /\ user_id task = uid /\
  forall tid', exists task',
    new_task tid' uid today now d = inr task' /\
    task_id task' = tid' /\ user_id task' = uid /\ title task' = title task /\
    due_time task' = due_time task /\ start_date task' = start_date task /\
    repeat_type task' = repeat_type task /\
    reminder_offset task' = reminder_offset task.
Proof.
  unfold new_task. intros H.
  destruct (d_title d) as [ti|]; [|done]. destruct (d_due_time d) as [du|]; [|done].
  destruct (d_repeat_days d) as [[l|ds]|]; [done|..];
    destruct (negb _); simplify_eq/=;
    (split; [done|]; split; [done|]; intros tid'; eexists; split; [done|];
     repeat split).
Qed.

(** The dialogue data give a row exactly when the title and the due time
    are there, the days are no list and the interval and the offset fit an
    SQLite INTEGER. *)
Lemma new_task_cases tid uid today now d ti du :
  d_title d = Some ti -> d_due_time d = Some du ->
  (forall l, d_repeat_days d <> Some (DaysList l)) ->
  if sql_integer (default 0 (d_interval_days d))
     && sql_integer (default 0 (d_reminder_offset d))
  then exists task,
         new_task tid uid today now d = inr task /\
         title task = ti /\ due_time task = du /\
         interval_days task = default 0 (d_interval_days d) /\
         reminder_offset task = default 0 (d_reminder_offset d)
  else new_task tid uid today now d = inl (Exn OverflowError).
Proof.
  intros Hti Hdu Hdays. unfold new_task. rewrite Hti, Hdu.
  destruct (d_repeat_days d) as [[l|ds]|]; [by destruct (Hdays l)|..];
    destruct (_ && _); cbn [negb]; eauto 10.
Qed.

(** X20: [save_task] commits the new row before it schedules it.  When
    the interval or the offset the user typed does not fit the 64 bits of
    an SQLite INTEGER, the commit raises [OverflowError]: no row is written,
    nothing is scheduled and the dialogue keeps its state and data.
    Otherwise the row is appended under an id no task has, and it stays in
    the table even when [schedule_task] raises.  When scheduling succeeds
    the dialogue is finished (state and data reset).  When it raises, the
    dialogue keeps its state and data, so that saving again appends a second
    row with the same title and time under the next id. *)
Theorem save_task_commits_before_scheduling (uid : Z) (today : date)
    (now : datetime) (c : Chat) (ti du : string) :
  d_title (fsm_data c) = Some ti ->
  d_due_time (fsm_data c) = Some du ->
  (forall l, d_repeat_days (fsm_data c) <> Some (DaysList l)) ->
  let r := save_task uid today now c in
  let n := default 0 (d_interval_days (fsm_data c)) in
  let off := default 0 (d_reminder_offset (fsm_data c)) in
  (sql_integer n && sql_integer off = false ->
     r = (Raised (Exn OverflowError), c)) /\
  (sql_integer n && sql_integer off = true ->
     exists task,
       title task = ti /\ due_time task = du /\
       interval_days task = n /\ reminder_offset task = off /\
       tasks (world (snd r)) = tasks (world c) ++ [task] /\
       (task_id task ∉ (task_id <$> tasks (world c))) /\
       categories (world (snd r)) = categories (world c) /\
       (fst r = Done -> fsm_state (snd r) = None /\ fsm_data (snd r) = empty_data) /\
       (forall e, fst r = Raised e ->
          fsm_state (snd r) = fsm_state c /\ fsm_data (snd r) = fsm_data c /\
          exists task',
            tasks (world (snd (save_task uid today now (snd r))))
              = tasks (world c) ++ [task; task'] /\
            task_id task' = task_id task + 1 /\
            title task' = title task /\ due_time task' = due_time task)).
Proof.
  intros Hti Hdu Hdays r n off.
  pose proof (new_task_cases (fresh_id (task_id <$> tasks (world c))) uid today
                now (fsm_data c) ti du Hti Hdu Hdays) as Hcases.
  fold n off in Hcases. split; intros Hfit; rewrite Hfit in Hcases.
  { subst r. unfold save_task. by rewrite Hcases. }
  destruct Hcases as (task & Hnew & Htitle & Hdue & Hn & Hoff).
  exists task. do 4 (split; [done|]).
  destruct (new_task_fields _ _ _ _ _ _ Hnew) as (Hid & _ & Hother).
  assert (Hstore : forall (c0 : Chat) t,
    new_task (fresh_id (task_id <$> tasks (world c0))) uid today now (fsm_data c0)
      = inr t ->
    tasks (world (snd (save_task uid today now c0))) = tasks (world c0) ++ [t] /\
    categories (world (snd (save_task uid today now c0))) = categories (world c0) /\
    (fst (save_task uid today now c0) = Done ->
       fsm_state (snd (save_task uid today now c0)) = None /\
       fsm_data (snd (save_task uid today now c0)) = empty_data) /\
    (forall e, fst (save_task uid today now c0) = Raised e ->
       fsm_state (snd (save_task uid today now c0)) = fsm_state c0 /\
       fsm_data (snd (save_task uid today now c0)) = fsm_data c0)).
  { intros c0 t Ht. unfold save_task. rewrite Ht.
    pose proof (schedule_task_store t now
                  (world (set_world (set_tasks (fun l => l ++ [t])) c0)))
      as (Hts & Hcs & _).
    destruct (schedule_task t now _) as [[[]|e] w']; cbn in *;
      rewrite Hts, Hcs; repeat split; done. }
  destruct (Hstore c task Hnew) as (Ht & Hc & Hdone & Hraise).
  split; [done|]. split; [rewrite Hid; apply fresh_id_not_in|].
  split; [done|]. split; [done|].
  intros e He. destruct (Hraise e He) as [Hs Hd]. split; [done|]. split; [done|].
  destruct (Hother (task_id task + 1)) as (task' & Hnew' & Hid' & _ & Htitle' & Hdue' & _).
  exists task'. split; [|done].
  destruct (Hstore (snd r) task') as (Ht' & _).
  { subst r. rewrite Ht, Hd, fmap_app. cbn [fmap list_fmap].
    rewrite Hid at 1. by rewrite fresh_id_snoc, <- Hid. }
  subst r. rewrite Ht', Ht, <- app_assoc. done.
Qed.

(** ** A whole add-task dialogue *)

Lemma get_trigger_daily_main task h m now :
  repeat_type task = "daily"%string ->
  unpack_due_time (due_time task) = Ok (h, m) ->
  valid_time_of_day h m = true ->
  get_trigger task false now = Ok (CronTime h m).
Proof.
  intros Hrt Hdue Hv.
  rewrite (get_trigger_main _ _ _ _ Hdue), make_trigger_daily by done.
  unfold CronTrigger_hm. by rewrite Hv.
Qed.

Lemma get_trigger_daily_early task h m now :
  repeat_type task = "daily"%string ->
  unpack_due_time (due_time task) = Ok (h, m) ->
  valid_time_of_day h m = true ->
  0 < reminder_offset task <= m + 60 ->
  get_trigger task true now
    = Ok (CronTime (fst (early_time h m (reminder_offset task)))
                   (snd (early_time h m (reminder_offset task)))).
Proof.
  intros Hrt Hdue Hv Hoff.
  rewrite (get_trigger_early _ _ _ _ Hdue) by lia.
  rewrite make_trigger_daily by done. unfold CronTrigger_hm.
  destruct (early_time_valid h m (reminder_offset task) Hv ltac:(lia)) as [Hok _].
  by rewrite Hok by lia.
Qed.

(** X21: a dialogue run from the "add" button through title, category
    button, start date ([-] for today or a valid date), a valid time, the
    "daily" button and an offset from 0 to [minute + 60] ends with exactly
    one new row holding what was entered, under a fresh id, with the main
    job at the entered time and, for a positive offset, the early job at the
    early time; the dialogue is finished and the categories are as they
    were. *)
Theorem add_dialogue_daily (c : Chat) (uid cid : Z)
    (title_text date_text time_text offset_text : string)
    (today d0 : date) (now : datetime) (h m off : Z) :
  fsm_state c = None -> fsm_data c = empty_data ->
  (Py.strip date_text = "-"%string /\ d0 = today) \/
  strptime_dmY (Py.strip date_text) = Some d0 ->
  strptime_HM time_text = Some (h, m) ->
  Py.int offset_text = Some off -> 0 <= off <= m + 60 ->
  let c1 := snd (add_task_start c) in
  let c2 := snd (add_task_title uid title_text c1) in
  let c3 := snd (add_task_category_choice ("cat_" +:+ pretty cid) c2) in
  let c4 := snd (add_task_start_date date_text today c3) in
  let c5 := snd (add_task_time time_text c4) in
  let c6 := snd (add_task_repeat_type "repeat_daily" c5) in
  let r := add_task_reminder_offset uid offset_text today now c6 in
  let row := {| task_id := fresh_id (task_id <$> tasks (world c));
                user_id := uid; title := title_text; category_id := Some cid;
                due_time := time_text; start_date := d0;
                repeat_type := "daily"; repeat_days := None; interval_days := 0;
                reminder_offset := off; is_done := false; created_at := now |} in
  fst r = Done /\
  tasks (world (snd r)) = tasks (world c) ++ [row] /\
  categories (world (snd r)) = categories (world c) /\
  fsm_state (snd r) = None /\ fsm_data (snd r) = empty_data /\
  jobs (world (snd r)) !! main_job_id (task_id row)
    = Some {| func := f_send_reminder; trigger := CronTime h m;
              args := [uid; task_id row] |} /\
  jobs (world (snd r)) !! early_job_id (task_id row)
    = (if 0 <? off
       then Some {| func := f_send_early_reminder;
                    trigger := CronTime (fst (early_time h m off))
                                        (snd (early_time h m off));
                    args := [uid; task_id row; off] |}
       else jobs (world c) !! early_job_id (task_id row)).
Proof.
  intros Hstate Hdata Hdate Htime Hoff Hrange c1 c2 c3 c4 c5 c6 r row.
  destruct (strptime_unpack _ _ _ Htime) as [Hdue Hv].
  assert (Hval : validate_time time_text = true)
    by (unfold validate_time; by rewrite Htime).
  assert (Hc4 : c4 = say PEnterTime
                  (set_fsm_state (Some AddTask_time)
                     (set_fsm_data (set_d_start_date d0) c3))).
  { subst c4. unfold add_task_start_date.
    assert (Hparsed :
      (if String.eqb (Py.strip date_text) "-" then Some today
       else if validate_date (Py.strip date_text)
            then strptime_dmY (Py.strip date_text) else None) = Some d0).
    { destruct Hdate as [[-> ->] | Hd]; [done|].
      destruct (String.eqb_spec (Py.strip date_text) "-") as [Heq|_].
      - by rewrite Heq in Hd.
      - unfold validate_date. by rewrite Hd. }
    rewrite Hparsed. subst c3. by rewrite category_button_stores_id. }
  assert (Hc6 : c6 = say PAnswer (say PEnterOffset
                  (set_fsm_state (Some AddTask_reminder_offset)
                     (set_fsm_data (set_d_repeat_type "daily") c5)))) by done.
  assert (Hc5 : c5 = say PChooseRepeat
                  (set_fsm_state (Some AddTask_repeat_type)
                     (set_fsm_data (set_d_due_time time_text) c4))).
  { subst c5. unfold add_task_time. rewrite Hval. by rewrite Hc4. }
  assert (Hw6 : world c6 = world c).
  { rewrite Hc6, Hc5, Hc4. subst c3. by rewrite category_button_stores_id. }
  assert (Hd6 : fsm_data c6
                = set_d_repeat_type "daily"
                    (set_d_due_time time_text
                       (set_d_start_date d0
                          (set_d_category_id cid (set_d_title title_text empty_data))))).
  { rewrite Hc6, Hc5, Hc4. subst c3. rewrite category_button_stores_id.
    cbn. by rewrite Hdata. }
  assert (Hfit : sql_integer off = true).
  { pose proof (valid_time_bounds h m Hv). unfold sql_integer.
    change (2 ^ 63) with 9223372036854775808.
    apply andb_true_intro; split; [apply Z.leb_le | apply Z.ltb_lt]; lia. }
  assert (Hrow : new_task (fresh_id (task_id <$> tasks (world c))) uid today now
                   (set_d_reminder_offset off (fsm_data c6)) = inr row).
  { rewrite Hd6. unfold new_task. cbn. by rewrite Hfit. }
  assert (Hmain : get_trigger row false now = Ok (CronTime h m))
    by (by apply get_trigger_daily_main).
  subst r. unfold add_task_reminder_offset. rewrite Hoff.
  destruct (Z.ltb_spec off 0); [lia|].
  set (c7 := set_fsm_data (set_d_reminder_offset off) c6).
  assert (Hw7 : world c7 = world c) by exact Hw6.
  assert (Hsave : save_task uid today now c7 =
    match schedule_task row now (set_tasks (fun l => l ++ [row]) (world c)) with
    | (Ok _, w) =>
        (Done, finish (set_world (fun _ => w)
                         (set_world (set_tasks (fun l => l ++ [row])) c7)))
    | (Raise e, w) =>
        (Raised (Exn e), set_world (fun _ => w)
                           (set_world (set_tasks (fun l => l ++ [row])) c7))
    end).
  { unfold save_task. rewrite Hw7.
    change (fsm_data c7) with (set_d_reminder_offset off (fsm_data c6)).
    rewrite Hrow. cbn [world set_world]. by rewrite Hw7. }
  rewrite Hsave.
  destruct (Z.ltb_spec 0 off) as [Hpos|Hzero].
  - rewrite (schedule_task_early row now _ (CronTime h m)
               (CronTime (fst (early_time h m off)) (snd (early_time h m off))));
      [|exact Hmain|exact Hpos
       |apply get_trigger_daily_early; [done|exact Hdue|exact Hv|cbn; lia]].
    cbn [fst snd world set_world finish say tasks categories jobs set_jobs
         set_tasks fsm_state fsm_data].
    split; [done|]. split; [done|]. split; [done|]. split; [done|].
    split; [done|]. split.
    + rewrite lookup_insert_ne
        by (intros E; symmetry in E; by apply main_early_distinct in E).
      apply lookup_insert_eq.
    + apply lookup_insert_eq.
  - rewrite (schedule_task_no_early row now _ (CronTime h m))
      by (exact Hmain || (cbn; lia)).
    cbn [fst snd world set_world finish say tasks categories jobs set_jobs
         set_tasks fsm_state fsm_data].
    split; [done|]. split; [done|]. split; [done|]. split; [done|].
    split; [done|]. split.
    + apply lookup_insert_eq.
    + by rewrite lookup_insert_ne by apply main_early_distinct.
Qed.

(** ** What every run of the bot keeps *)

Lemma commit_task_ids t w :
  task_id <$> tasks (snd (commit_task t w)) = task_id <$> tasks w.
Proof.
  cbn. rewrite <- list_fmap_compose. apply list_fmap_ext. intros i r _. cbn.
  destruct (Z.eqb_spec (task_id r) (task_id t)); congruence.
Qed.

Lemma commit_category_ids c w :
  cat_id <$> categories (snd (commit_category c w)) = cat_id <$> categories w.
Proof.
  cbn. rewrite <- list_fmap_compose. apply list_fmap_ext. intros i r _. cbn.
  destruct (Z.eqb_spec (cat_id r) (cat_id c)); congruence.
Qed.

Lemma NoDup_fmap_filter {A} (f : A -> Z) (P : A -> Prop) `{!forall x, Decision (P x)}
    (l : list A) :
  NoDup (f <$> l) -> NoDup (f <$> filter P l).
Proof.
  induction l as [|x l IH]; [done|]. rewrite fmap_cons, NoDup_cons.
  intros [Hx Hl]. rewrite filter_cons. case_decide; [|auto].
  rewrite fmap_cons, NoDup_cons. split; [|auto].
  intros Hin. apply Hx. apply list_elem_of_fmap in Hin as (y & -> & Hy).
  apply list_elem_of_filter in Hy as [_ Hy]. apply list_elem_of_fmap. eauto.
Qed.

Lemma job_key_task j k t :
  job_key j = Some k -> job_task j = Some t ->
  k = main_job_id t \/ k = early_job_id t.
Proof.
  unfold job_key, job_task.
  destruct (func j), (args j) as [|? [|? [|? [|? ?]]]]; intros; simplify_eq/=; auto.
Qed.

(** A job found after [schedule_task] was there before or is one of the two
    jobs of the scheduled task. *)
Lemma schedule_task_jobs_cases task now w k j :
  jobs (snd (schedule_task task now w)) !! k = Some j ->
  jobs w !! k = Some j \/
  (job_task j = Some (task_id task) /\ job_key j = Some k).
Proof.
  unfold schedule_task, mbind, M_bind, bind, lift, add_job, mret, M_ret, ret.
  destruct (unpack_due_time (due_time task)); [|auto].
  destruct (get_trigger task false now); [|auto]. cbn [snd jobs set_jobs].
  destruct (_ && _).
  - destruct (get_trigger task true now); cbn [snd jobs set_jobs];
      rewrite ?lookup_insert; repeat case_decide; intros; simplify_eq; auto.
  - cbn [snd jobs set_jobs]. rewrite lookup_insert.
    case_decide; intros; simplify_eq; auto.
Qed.

Lemma remove_task_jobs_subset id w k j :
  jobs (snd (remove_task_jobs id w)) !! k = Some j -> jobs w !! k = Some j.
Proof.
  unfold remove_task_jobs, remove_job, mbind, M_bind, bind.
  destruct (jobs w !! main_job_id id); cbn [snd jobs set_jobs]; [|done].
  destruct (delete _ (jobs w) !! early_job_id id); cbn [snd jobs set_jobs];
    rewrite ?lookup_delete; repeat case_decide; done.
Qed.

Lemma remove_task_jobs_store id w :
  tasks (snd (remove_task_jobs id w)) = tasks w /\
  categories (snd (remove_task_jobs id w)) = categories w.
Proof.
  unfold remove_task_jobs, remove_job, mbind, M_bind, bind.
  destruct (jobs w !! main_job_id id); cbn [snd jobs set_jobs]; [|done].
  by destruct (delete _ (jobs w) !! early_job_id id).
Qed.

Lemma store_inv_jobs_subset w w' :
  store_inv w ->
  task_id <$> tasks w' = task_id <$> tasks w ->
  cat_id <$> categories w' = cat_id <$> categories w ->
  (forall k j, jobs w' !! k = Some j -> jobs w !! k = Some j) ->
  store_inv w'.
Proof.
  intros (Ht & Hc & Hk & Ho) Hts Hcs Hj. unfold store_inv.
  rewrite Hts, Hcs. repeat split; try done.
  - intros k j H. apply Hk. auto.
  - intros k j H. apply Ho with k. auto.
Qed.

(** Rewriting a row that is in the table and scheduling it. *)
Lemma store_inv_commit_schedule w t now :
  store_inv w -> task_id t ∈ (task_id <$> tasks w) ->
  store_inv (snd (schedule_task t now (snd (commit_task t w)))).
Proof.
  intros (Ht & Hc & Hk & Ho) Hin.
  destruct (schedule_task_store t now (snd (commit_task t w))) as (Hts & Hcs & _).
  unfold store_inv. rewrite Hts, Hcs, (commit_task_ids t w). repeat split; try done.
  - intros k j [H|[_ H]]%schedule_task_jobs_cases; [by apply Hk | done].
  - intros k j [H|[H _]]%schedule_task_jobs_cases; [by apply Ho with k | eauto].
Qed.

Lemma store_inv_outbox f w : store_inv w -> store_inv (set_outbox f w).
Proof. done. Qed.

Lemma store_inv_after (m k : M unit) w :
  answers_only k ->
  (forall w0, categories (snd (k w0)) = categories w0) ->
  store_inv (snd (m w)) -> store_inv (snd ((m ;; k) w)).
Proof.
  intros Hk Hkc Hinv. unfold mbind, M_bind, bind.
  destruct (m w) as [[[]|e] w1]; cbn [snd] in *; [|done].
  destruct (Hk w1) as [Hj Ht].
  apply (store_inv_jobs_subset w1); [done | by rewrite Ht | by rewrite Hkc |].
  by rewrite Hj.
Qed.

Lemma step_keeps_store_inv w w' : store_inv w -> step w w' -> store_inv w'.
Proof.
  intros Hinv Hstep. destruct Hstep.
  - (* save_task *)
    unfold save_task.
    destruct (new_task _ _ _ _ _) as [e|task] eqn:Hnew; [done|].
    destruct (new_task_fields _ _ _ _ _ _ Hnew) as (Hid & _).
    set (w1 := set_tasks (fun l => l ++ [task]) (world c)).
    assert (Hinv1 : store_inv w1).
    { destruct Hinv as (Ht & Hc & Hk & Ho). unfold store_inv, w1. cbn.
      rewrite fmap_app. cbn. repeat split; try done.
      - apply NoDup_app. split; [done|]. split; [|apply NoDup_singleton].
        intros x Hx ->%list_elem_of_singleton. rewrite Hid in Hx.
        by apply fresh_id_not_in in Hx.
      - intros k j H. destruct (Ho k j H) as (tid & Hj & Hin).
        exists tid. split; [done|]. apply elem_of_app. auto. }
    assert (Hinv2 : store_inv (snd (schedule_task task now w1))).
    { destruct Hinv1 as (Ht & Hc & Hk & Ho).
      destruct (schedule_task_store task now w1) as (Hts & Hcs & _).
      unfold store_inv. rewrite Hts, Hcs. repeat split; try done.
      - intros k j [H|[_ H]]%schedule_task_jobs_cases; [by apply Hk | done].
      - intros k j [H|[H _]]%schedule_task_jobs_cases; [by apply Ho with k|].
        exists (task_id task). split; [done|]. unfold w1. cbn.
        rewrite fmap_app. apply elem_of_app. right. by apply list_elem_of_singleton. }
    cbn [world set_world]. fold w1.
    by destruct (schedule_task task now w1) as [[[]|e] w2].
  - (* add_category_name *)
    unfold add_category_name.
    destruct (Py.strip text) as [|a s]; [done|].
    destruct (category_by_name uid _ (world c)); [done|]. cbn.
    destruct Hinv as (Ht & Hc & Hk & Ho). unfold store_inv. cbn.
    rewrite fmap_app. cbn. repeat split; try done.
    apply NoDup_app. split; [done|]. split; [|apply NoDup_singleton].
    intros x Hx ->%list_elem_of_singleton. by apply fresh_id_not_in in Hx.
  - (* mark_done *)
    unfold mark_done. destruct (task_of_user tid u w) as [task|]; [|done].
    apply store_inv_after; [apply emit_answers_only | done |].
    change (store_inv (snd ((remove_task_jobs (task_id (set_is_done true task)) ;;
                             emit (reply (TxtTaskDone (title (set_is_done true task)))))
                            (snd (commit_task (set_is_done true task) w))))).
    apply store_inv_after; [apply emit_answers_only | done |].
    set (w1 := snd (commit_task (set_is_done true task) w)).
    destruct (remove_task_jobs_store (task_id (set_is_done true task)) w1) as [Hts Hcs].
    apply (store_inv_jobs_subset w); [done | | |].
    + rewrite Hts. apply commit_task_ids.
    + by rewrite Hcs.
    + intros k j H%remove_task_jobs_subset. done.
  - (* edit_new_value_text *)
    destruct (task_of_user tid u w) as [task|] eqn:Hfind;
      [|by unfold edit_new_value_text; rewrite Hfind].
    destruct (apply_field field text task) as [msg|task'] eqn:Hedit;
      [by unfold edit_new_value_text; rewrite Hfind, Hedit|].
    destruct ((reminder_offset task' =? reminder_offset task)
              || sql_integer (reminder_offset task')) eqn:Hbind;
      [|unfold edit_new_value_text; rewrite Hfind, Hedit;
        unfold mbind at 1, M_bind at 1, bind at 1, bind_integer;
        by rewrite Hbind].
    rewrite (edit_new_value_text_run _ _ _ _ _ _ _ _ Hfind Hedit Hbind).
    destruct (task_of_user_some _ _ _ _ Hfind) as (Hin & _).
    destruct (apply_field_ids _ _ _ _ Hedit) as [Hid _].
    apply store_inv_after; [apply emit_answers_only | done |].
    rewrite commit_then. apply store_inv_commit_schedule; [done|].
    rewrite Hid. apply list_elem_of_fmap. eauto.
  - (* edit_repeat_type *)
    unfold edit_repeat_type.
    apply store_inv_after;
      [apply bind_answers_only; apply emit_answers_only | done |].
    destruct (task_of_user tid u w) as [task|] eqn:Hfind; [|done].
    destruct (task_of_user_some _ _ _ _ Hfind) as (Hin & _).
    rewrite commit_then. apply store_inv_commit_schedule; [done|].
    assert (task_id (apply_repeat_type new_type task) = task_id task) as ->
      by (unfold apply_repeat_type; by repeat case_match).
    apply list_elem_of_fmap. eauto.
  - (* edit_category_choice *)
    unfold edit_category_choice.
    apply store_inv_after;
      [apply bind_answers_only; apply emit_answers_only | done |].
    destruct (task_of_user tid u w) as [task|] eqn:Hfind; [|done].
    destruct (task_of_user_some _ _ _ _ Hfind) as (Hin & _).
    rewrite commit_then. apply store_inv_commit_schedule; [done|].
    apply list_elem_of_fmap. by exists task.
  - (* delete_task *)
    unfold delete_task.
    apply store_inv_after; [apply emit_answers_only | done |].
    destruct (task_of_user tid u w) as [task|] eqn:Hfind; [|done].
    destruct (task_of_user_some _ _ _ _ Hfind) as (_ & Htid & _).
    rewrite Htid.
    unfold remove_task_jobs, remove_job, delete_task_row, mbind, M_bind, bind, emit.
    destruct (jobs w !! main_job_id tid) as [jm|] eqn:Hm; cbn [snd jobs set_jobs]; [|done].
    destruct (delete _ (jobs w) !! early_job_id tid) as [je|] eqn:He;
      cbn [snd jobs set_jobs].
    + destruct Hinv as (Ht & Hc & Hk & Ho). unfold store_inv. cbn.
      split; [by apply NoDup_fmap_filter|]. split; [done|]. split.
      * intros k j. rewrite !lookup_delete. repeat case_decide; try done. apply Hk.
      * intros k j Hkj.
        assert (Hne : k <> main_job_id tid /\ k <> early_job_id tid).
        { rewrite !lookup_delete in Hkj. by repeat case_decide. }
        assert (Hold : jobs w !! k = Some j).
        { rewrite !lookup_delete in Hkj. by repeat case_decide. }
        destruct (Ho k j Hold) as (t & Hjt & Hin). exists t. split; [done|].
        apply list_elem_of_fmap in Hin as (row & -> & Hrow).
        apply list_elem_of_fmap. exists row. split; [done|].
        apply list_elem_of_filter. split; [|done]. intros Heq.
        destruct Hne as [Hne1 Hne2].
        destruct (job_key_task j k (task_id row) (Hk _ _ Hold) Hjt) as [E|E];
          rewrite Heq in E; auto.
    + apply (store_inv_jobs_subset w); [done..|]. cbn.
      intros k j. rewrite lookup_delete. by case_decide.
  - (* rename_category *)
    unfold rename_category. destruct (Py.strip text) as [|a s]; [done|].
    apply store_inv_after;
      [intros w0; done | intros w0; done |].
    destruct (category_of_user cid u w) as [cat|]; [|done].
    apply store_inv_after; [apply emit_answers_only | done |].
    apply (store_inv_jobs_subset w); [done | done | | done].
    apply (commit_category_ids (set_cat_name (String a s) cat) w).
  - (* confirm_delete_category *)
    unfold confirm_delete_category.
    apply store_inv_after;
      [intros w0; done | intros w0; done |].
    destruct (category_of_user cid u w) as [cat|]; [|done].
    match goal with |- store_inv ?x => set (w2 := x) end.
    assert (Hw2t : tasks w2 =
              (fun t => if bool_decide (category_id t = Some cid)
                        then set_category_id None t else t) <$> tasks w)
      by reflexivity.
    assert (Hw2c : categories w2 =
              filter (fun r => cat_id r <> cat_id cat) (categories w))
      by reflexivity.
    assert (Hw2j : jobs w2 = jobs w) by reflexivity.
    destruct Hinv as (Ht & Hc & Hk & Ho). unfold store_inv.
    rewrite Hw2t, Hw2c, Hw2j.
    assert (Hids : task_id <$>
              ((fun t => if bool_decide (category_id t = Some cid)
                         then set_category_id None t else t) <$> tasks w)
            = task_id <$> tasks w).
    { rewrite <- list_fmap_compose. apply list_fmap_ext. intros i r _. cbn.
      by case_bool_decide. }
    rewrite Hids. split; [done|]. split; [by apply NoDup_fmap_filter|]. done.
  - (* a stored job fires *)
    unfold run_job.
    assert (Hs : forall uid tid0, store_inv (snd (send_reminder uid tid0 w))).
    { intros uid tid0. unfold send_reminder.
      destruct (task_by_id tid0 w) as [t|]; [|done]. by destruct (negb (is_done t)). }
    assert (He : forall uid tid0 o, store_inv (snd (send_early_reminder uid tid0 o w))).
    { intros uid tid0 o. unfold send_early_reminder.
      destruct (task_by_id tid0 w) as [t|]; [|done]. by destruct (negb (is_done t)). }
    destruct (func j), (args j) as [|? [|? [|? [|? ?]]]]; done.
  - (* the scheduler drops a job *)
    apply (store_inv_jobs_subset w); [done..|]. cbn.
    intros k0 j. rewrite lookup_delete. by case_decide.
Qed.

(** X22: along any run of the bot (handler runs, fires of stored jobs, the
    scheduler dropping a job) that starts from a consistent store, the task
    and category ids stay unique, every stored job belongs to a task that
    still has a row and sits under the id built from that task, and no task
    has two jobs of the same function. *)
Theorem run_keeps_jobs_consistent (w w' : World) :
  store_inv w -> rtc step w w' ->
  NoDup (task_id <$> tasks w') /\
  NoDup (cat_id <$> categories w') /\
  (forall k j, jobs w' !! k = Some j ->
     exists t, t ∈ tasks w' /\ job_task j = Some (task_id t) /\
       (k = main_job_id (task_id t) \/ k = early_job_id (task_id t))) /\
  (forall k1 k2 j1 j2 tid,
     jobs w' !! k1 = Some j1 -> jobs w' !! k2 = Some j2 ->
     func j1 = func j2 -> job_task j1 = Some tid -> job_task j2 = Some tid ->
     k1 = k2 /\ j1 = j2).
Proof.
  intros Hinv Hrun.
  assert (Hinv' : store_inv w').
  { induction Hrun as [|w0 w1 w2 Hstep _ IH]; [done|].
    apply IH. by apply step_keeps_store_inv with w0. }
  destruct Hinv' as (Ht & Hc & Hk & Ho). repeat split; try done.
  - intros k j Hkj. destruct (Ho k j Hkj) as (tid & Hj & Hin).
    apply list_elem_of_fmap in Hin as (t & -> & Hin).
    exists t. split; [done|]. split; [done|].
    by apply job_key_task with j; [apply Hk|].
  - by eapply jobs_keyed_at_most_one.
  - by eapply jobs_keyed_at_most_one.
Qed.

(** ** Every accepted edit reschedules both jobs *)

Lemma schedule_task_raises_main task now w e :
  get_trigger task false now = Raise e ->
  schedule_task task now w = (Raise e, w).
Proof.
  intros Htr.
  unfold schedule_task, mbind, M_bind, bind, lift, add_job, mret, M_ret, ret.
  unfold get_trigger in Htr.
  destruct (unpack_due_time (due_time task)) as [[h m]|e'] eqn:Hdue;
    [|by simplify_eq/=].
  unfold get_trigger. rewrite Hdue. simpl in *. by rewrite Htr.
Qed.

Lemma commit_schedule_rescheduled w from_user tid task task' now :
  task_of_user tid from_user w = Some task ->
  task_id task' = task_id task -> user_id task' = user_id task ->
  rescheduled from_user tid task' now w
    ((commit_task task' ;; schedule_task task' now) w).
Proof.
  intros Hfind Hid Hu.
  destruct (task_of_user_some _ _ _ _ Hfind) as (_ & Htid & Huid).
  rewrite commit_then. set (w1 := snd (commit_task task' w)).
  assert (Hj1 : jobs w1 = jobs w) by done.
  assert (Hid' : task_id task' = tid) by congruence.
  assert (Hu' : user_id task' = from_user) by congruence.
  split.
  { unfold task_of_user at 1.
    destruct (schedule_task_store task' now w1) as (-> & _).
    by apply (task_of_user_commit w from_user tid task task'). }
  destruct (get_trigger task' false now) as [tr|e] eqn:Htr;
    [|by rewrite (schedule_task_raises_main _ _ _ _ Htr)].
  destruct (Z.ltb_spec 0 (reminder_offset task')) as [Hpos|Hnon].
  - destruct (get_trigger task' true now) as [tr'|e] eqn:Htr'.
    + rewrite (schedule_task_early _ _ _ _ _ Htr Hpos Htr').
      cbn [fst snd jobs set_jobs]. rewrite Hid', Hu', Hj1.
      split; [|split; [|split; [done|]]].
      * rewrite lookup_insert_ne by (symmetry; apply main_early_distinct).
        by rewrite lookup_insert_eq.
      * intros k Hk1 Hk2. by rewrite !lookup_insert_ne.
      * by rewrite lookup_insert_eq.
    + rewrite (schedule_task_early_raises _ _ _ _ _ Htr Hpos Htr').
      cbn [fst snd jobs set_jobs]. rewrite Hid', Hu', Hj1.
      split; [|split; [|split; [done|]]].
      * by rewrite lookup_insert_eq.
      * intros k Hk1 Hk2. by rewrite lookup_insert_ne.
      * by rewrite lookup_insert_ne by apply main_early_distinct.
  - rewrite (schedule_task_no_early _ _ _ _ Htr Hnon).
    cbn [fst snd jobs set_jobs]. rewrite Hid', Hu', Hj1.
    split; [|split; [|split; [done|]]].
    + by rewrite lookup_insert_eq.
    + intros k Hk1 Hk2. by rewrite lookup_insert_ne.
    + by rewrite lookup_insert_ne by apply main_early_distinct.
Qed.

(** The answers a handler sends after scheduling change neither the
    outcome nor the tables. *)
Lemma rescheduled_answered from_user tid task' now w (m k : M unit) :
  answers_only k -> (forall w0, fst (k w0) = Ok tt) ->
  rescheduled from_user tid task' now w (m w) ->
  rescheduled from_user tid task' now w ((m ;; k) w).
Proof.
  intros Hk Hok Hm.
  assert (Hsame : fst ((m ;; k) w) = fst (m w) /\
                  jobs (snd ((m ;; k) w)) = jobs (snd (m w)) /\
                  tasks (snd ((m ;; k) w)) = tasks (snd (m w))).
  { unfold mbind, M_bind, bind.
    destruct (m w) as [[[]|e] w1]; cbn [fst snd]; [|done].
    destruct (Hk w1) as [Hj Ht]. by rewrite Hok. }
  destruct Hsame as (Hf & Hj & Ht).
  unfold rescheduled, task_of_user in *. by rewrite Hf, Hj, Ht.
Qed.

(** X23: what the owner's accepted edit of a task leaves, for an edit of a
    field, of the repeat type and of the category: the edited row is stored
    and both jobs are built from it.  The main job is replaced by the one
    [get_trigger] gives for the edited row; with a positive offset the early
    job is replaced as well, and with no positive offset it is left as it
    was; no job of another task is touched.  When the early trigger of the
    edited row cannot be built, the handler raises after the row and the
    main job were written, and the early job keeps its old trigger.  After
    an edit of the time to [h]:[m] the main trigger fires at [h]:[m], and
    the early trigger, for an offset from 1 to [m + 60], at the early time
    of day of [h]:[m]. *)
Theorem edits_reschedule_both_jobs (w : World) (from_user tid : Z) (task : Task)
    (now : datetime) :
  task_of_user tid from_user w = Some task ->
  (forall field text task',
     apply_field field text task = inr task' ->
     (reminder_offset task' =? reminder_offset task)
       || sql_integer (reminder_offset task') = true ->
     rescheduled from_user tid task' now w
       (edit_new_value_text from_user field tid text now w)) /\
  (forall new_type,
     rescheduled from_user tid (apply_repeat_type new_type task) now w
       (edit_repeat_type from_user tid new_type now w)) /\
  (forall cid,
     rescheduled from_user tid (set_category_id (Some cid) task) now w
       (edit_category_choice from_user tid cid now w)) /\
  (forall text h m,
     strptime_HM text = Some (h, m) ->
     apply_field "time" text task = inr (set_due_time text task) /\
     (forall tr,
        get_trigger (set_due_time text task) false now = Ok tr ->
        trigger_time_of_day tr = (h, m)) /\
     (forall tr',
        0 < reminder_offset task <= m + 60 ->
        get_trigger (set_due_time text task) true now = Ok tr' ->
        trigger_time_of_day tr'
          = (fst (early_time h m (reminder_offset task)),
             snd (early_time h m (reminder_offset task))))).
Proof.
  intros Hfind. split; [|split; [|split]].
  - intros field text task' Hedit Hbind.
    destruct (apply_field_ids _ _ _ _ Hedit) as [Hid Hu].
    rewrite (edit_new_value_text_run _ _ _ _ _ _ _ _ Hfind Hedit Hbind).
    apply rescheduled_answered; [apply emit_answers_only | done |].
    by apply (commit_schedule_rescheduled w from_user tid task).
  - intros new_type. unfold edit_repeat_type. rewrite Hfind.
    apply (rescheduled_answered _ _ _ _ _
             (commit_task (apply_repeat_type new_type task) ;;
              schedule_task (apply_repeat_type new_type task) now)
             (emit (reply TxtRepeatUpdated) ;; emit (reply TxtAnswer)));
      [apply bind_answers_only; apply emit_answers_only | done |].
    apply (commit_schedule_rescheduled w from_user tid task); [done|..];
      unfold apply_repeat_type; by repeat case_match.
  - intros cid. unfold edit_category_choice. rewrite Hfind.
    apply (rescheduled_answered _ _ _ _ _
             (commit_task (set_category_id (Some cid) task) ;;
              schedule_task (set_category_id (Some cid) task) now)
             (emit (reply TxtCategoryUpdated) ;; emit (reply TxtAnswer)));
      [apply bind_answers_only; apply emit_answers_only | done |].
    by apply (commit_schedule_rescheduled w from_user tid task).
  - intros text h m Htext.
    destruct (strptime_unpack _ _ _ Htext) as [Hdue Hv].
    split; [|split].
    + apply apply_field_time. unfold validate_time. by rewrite Htext.
    + intros tr. by apply get_trigger_time_of_day.
    + intros tr' Hoff.
      rewrite (get_trigger_early (set_due_time text task) h m now Hdue)
        by (cbn; lia).
      cbn [reminder_offset set_due_time].
      destruct (early_time_valid h m (reminder_offset task) Hv ltac:(lia))
        as [Hok _].
      apply make_trigger_time_of_day. apply Hok. lia.
Qed.

End Bot.

(** * Examples

    Every property above that has a hypothesis, run on sample rows with the
    sample Unicode table. *)

#[local] Existing Instance sample_unicodedata.

(** Closed comparisons between numerals. *)
Ltac closed_arith := vm_compute; repeat split; (reflexivity || discriminate).

Lemma C1_one_shot_roll_forward_witness :
  exists tr,
    get_trigger sample_task false (combine_due 739000 9 0 + 1) = Ok tr /\
    (combine_due (start_date sample_task) 9 0 < combine_due 739000 9 0 + 1 ->
       fire_instant tr = Some (combine_due (start_date sample_task) 9 0 + us_per_day)) /\
    (combine_due 739000 9 0 + 1 <= combine_due (start_date sample_task) 9 0 ->
       fire_instant tr = Some (combine_due (start_date sample_task) 9 0)).
Proof.
  apply (C1_one_shot_roll_forward sample_task 9 0 (combine_due 739000 9 0 + 1));
    [reflexivity | reflexivity | reflexivity | closed_arith].
Defined.

(** C1 as stated fails when [combine(startDate, dueTime)] equals now: the
    comparison is strict, so the instant is not moved. *)
Lemma C1_counterexample :
  let now := combine_due 739000 9 0 in
  repeat_type sample_task = "none"%string /\
  unpack_due_time (due_time sample_task) = Ok (9, 0) /\
  combine_due (start_date sample_task) 9 0 <= now /\
  get_trigger sample_task false now = Ok (CronDate 739000 9 0) /\
  fire_instant (CronDate 739000 9 0) = Some (combine_due (start_date sample_task) 9 0) /\
  fire_instant (CronDate 739000 9 0)
    <> Some (combine_due (start_date sample_task) 9 0 + us_per_day).
Proof.
  vm_compute. repeat split; try discriminate; congruence.
Qed.

Lemma C2_interval_single_jump_witness :
  let t := sample_interval in
  let now := combine_due 739010 9 0 in
  let first := combine_due (start_date t) 9 0 in
  (interval_days t <= 999999999 ->
   (first < now -> start_date t + interval_days t <= MAXORDINAL) ->
   exists tr start,
     get_trigger t false now = Ok tr /\
     tr = Interval (interval_days t) start /\
     (first < now -> start = first + interval_days t * us_per_day) /\
     (now <= first -> start = first) /\
     interval_occurrence tr 0 = Some start /\
     (forall k, interval_occurrence tr (S k) =
                (fun x => x + interval_days t * us_per_day)
                  <$> interval_occurrence tr k)) /\
  (999999999 < interval_days t \/
   (first < now /\ MAXORDINAL < start_date t + interval_days t) ->
   get_trigger t false now = Raise OverflowError).
Proof.
  apply (C2_interval_single_jump sample_interval 9 0 (combine_due 739010 9 0));
    [reflexivity | closed_arith | reflexivity | reflexivity | closed_arith].
Defined.

(** C2 as stated fails when the first instant equals now: the comparison is
    strict, so the start is the first instant, not the first instant plus
    [N] days. *)
Lemma C2_counterexample :
  let now := combine_due 739000 9 0 in
  repeat_type sample_interval = "interval"%string /\
  interval_days sample_interval = 3 /\
  unpack_due_time (due_time sample_interval) = Ok (9, 0) /\
  combine_due (start_date sample_interval) 9 0 <= now /\
  get_trigger sample_interval false now
    = Ok (Interval 3 (combine_due (start_date sample_interval) 9 0)) /\
  combine_due (start_date sample_interval) 9 0
    <> combine_due (start_date sample_interval) 9 0 + 3 * us_per_day.
Proof.
  vm_compute. repeat split; try discriminate; congruence.
Qed.

Lemma C3_early_time_of_day_witness :
  let t := set_due_time "00:10" (set_reminder_offset 20 sample_daily) in
  get_trigger t true 0 = make_trigger t 23 50 0 /\
  (repeat_type t = "daily"%string -> get_trigger t true 0 = CronTrigger_hm 23 50) /\
  (10 - 20 < 0 -> 0 - 1 < 0 -> 23 = 23 /\ 50 = 10 - 20 + 60) /\
  early_time 0 10 20 = (23, 50).
Proof.
  apply (C3_early_time_of_day
           (set_due_time "00:10" (set_reminder_offset 20 sample_daily)) 0 10 0);
    [reflexivity | closed_arith].
Defined.

Lemma C9_early_time_valid_witness :
  let t := set_due_time "00:10" (set_reminder_offset 20 sample_daily) in
  let hm := early_time 0 10 (reminder_offset t) in
  get_trigger t true 0 = make_trigger t (fst hm) (snd hm) 0 /\
  (reminder_offset t <= 10 + 60 -> valid_time_of_day (fst hm) (snd hm) = true) /\
  (10 + 60 < reminder_offset t ->
     snd hm < 0 /\ valid_time_of_day (fst hm) (snd hm) = false).
Proof.
  apply (C9_early_time_valid
           (set_due_time "00:10" (set_reminder_offset 20 sample_daily)) 0 10 0);
    [reflexivity | reflexivity | closed_arith].
Defined.

Lemma C5_fire_noop_witness :
  send_reminder 7 5 sample_done_world = (Ok tt, sample_done_world) /\
  send_early_reminder 7 5 20 sample_done_world = (Ok tt, sample_done_world) /\
  (forall tr, run_job {| func := f_send_reminder; trigger := tr;
                         args := [7; 5] |} sample_done_world
              = (Ok tt, sample_done_world)) /\
  (forall tr, run_job {| func := f_send_early_reminder; trigger := tr;
                         args := [7; 5; 20] |} sample_done_world
              = (Ok tt, sample_done_world)).
Proof.
  apply (C5_fire_noop sample_done_world 7 5 20).
  right. exists (set_is_done true sample_daily). split; reflexivity.
Defined.

Lemma C10_foreign_id_noop_witness :
  no_effect (mark_done 8 5) sample_world /\
  (forall field text now,
     no_effect (edit_new_value_text 8 field 5 text now) sample_world) /\
  (forall new_type now, no_effect (edit_repeat_type 8 5 new_type now) sample_world) /\
  (forall c now, no_effect (edit_category_choice 8 5 c now) sample_world) /\
  no_effect (delete_task 8 5) sample_world /\
  (forall text,
     store_unchanged sample_world (snd (rename_category 8 2 text sample_world)) /\
     fst (rename_category 8 2 text sample_world)
       = match Py.strip text with
         | EmptyString => Ok tt
         | _ => Raise AttributeError
         end).
Proof.
  apply (C10_foreign_id_noop sample_world 8 5 2).
  - intros t Ht _. apply list_elem_of_singleton in Ht as ->. closed_arith.
  - intros c Hc _. apply list_elem_of_singleton in Hc as ->. closed_arith.
Defined.

Lemma C8_delete_category_detaches_witness :
  let r := confirm_delete_category 7 2 sample_world in
  fst r = Ok tt /\
  length (tasks (snd r)) = length (tasks sample_world) /\
  (forall (i : nat) t, tasks sample_world !! i = Some t ->
     exists t', tasks (snd r) !! i = Some t' /\ same_but_category t t' /\
       category_id t' =
         (if bool_decide (category_id t = Some 2) then None else category_id t)) /\
  (forall c', c' ∈ categories (snd r) <->
              c' ∈ categories sample_world /\ cat_id c' <> 2) /\
  jobs (snd r) = jobs sample_world /\
  (forall tid t, task_by_id tid sample_world = Some t ->
     exists t', task_by_id tid (snd r) = Some t' /\ same_but_category t t').
Proof.
  apply (C8_delete_category_detaches sample_world 7 2 sample_category).
  reflexivity.
Defined.

Lemma schedule_task_unreadable_due_time_witness :
  (forall offset,
     get_trigger (set_due_time "0900" sample_daily) offset sample_now
       = Raise ValueError) /\
  schedule_task (set_due_time "0900" sample_daily) sample_now sample_scheduled
    = (Raise ValueError, sample_scheduled).
Proof.
  apply (schedule_task_unreadable_due_time
           (set_due_time "0900" sample_daily) sample_now sample_scheduled).
  vm_compute. discriminate.
Defined.

(** 13:05 with the second digit of the hour and of the minute written in
    Arabic-Indic digits. *)
Lemma validate_time_sound_witness :
  exists h m,
    unpack_due_time "1٣:0٥" = Ok (h, m) /\
    0 <= h <= 23 /\ 0 <= m <= 59 /\
    (forall t now,
       due_time t = "1٣:0٥"%string -> repeat_type t = "daily"%string ->
       get_trigger t false now = Ok (CronTime h m)).
Proof.
  apply (validate_time_sound "1٣:0٥").
  reflexivity.
Defined.

Lemma schedule_task_daily_witness :
  let task := sample_early in
  let main := {| func := f_send_reminder; trigger := CronTime 9 0;
                 args := [user_id task; task_id task] |} in
  let et := early_time 9 0 (reminder_offset task) in
  let early := {| func := f_send_early_reminder;
                  trigger := CronTime (fst et) (snd et);
                  args := [user_id task; task_id task; reminder_offset task] |} in
  schedule_task task sample_now sample_world =
    (Ok tt,
     set_jobs (fun js =>
       if 0 <? reminder_offset task
       then <[early_job_id (task_id task) := early]>
              (<[main_job_id (task_id task) := main]> js)
       else <[main_job_id (task_id task) := main]> js) sample_world).
Proof.
  apply (schedule_task_daily sample_early 9 0 sample_now sample_world);
    [reflexivity | reflexivity | reflexivity | closed_arith].
Defined.

Lemma schedule_task_daily_offset_too_large_witness :
  let task := set_reminder_offset 90 sample_daily in
  schedule_task task sample_now sample_early_scheduled =
    (Raise ValueError,
     set_jobs (insert (main_job_id (task_id task))
                 {| func := f_send_reminder; trigger := CronTime 9 0;
                    args := [user_id task; task_id task] |}) sample_early_scheduled) /\
  jobs (snd (schedule_task task sample_now sample_early_scheduled))
    !! early_job_id (task_id task)
    = jobs sample_early_scheduled !! early_job_id (task_id task).
Proof.
  apply (schedule_task_daily_offset_too_large
           (set_reminder_offset 90 sample_daily) 9 0 sample_now sample_early_scheduled);
    [reflexivity | reflexivity | reflexivity | closed_arith].
Defined.

Lemma mark_done_silences_witness :
  let w' := snd (mark_done 7 5 sample_scheduled) in
  task_by_id 5 w' = Some (set_is_done true sample_daily) /\
  (forall uid offset,
     send_reminder uid 5 w' = (Ok tt, w') /\
     send_early_reminder uid 5 offset w' = (Ok tt, w')).
Proof.
  apply (mark_done_silences sample_scheduled 7 5 sample_daily).
  vm_compute. reflexivity.
Defined.

Lemma mark_done_cancels_both_jobs_witness :
  let r := mark_done 7 5 sample_early_scheduled in
  fst r = Ok tt /\
  jobs (snd r)
    = delete (early_job_id 5) (delete (main_job_id 5) (jobs sample_early_scheduled)) /\
  categories (snd r) = categories sample_early_scheduled /\
  outbox (snd r)
    = outbox sample_early_scheduled
      ++ [reply (TxtTaskDone (title sample_early)); reply TxtAnswer].
Proof.
  apply (mark_done_cancels_both_jobs sample_early_scheduled 7 5 sample_early
           {| func := f_send_reminder; trigger := CronTime 9 0; args := [7; 5] |}
           {| func := f_send_early_reminder; trigger := CronTime 8 40;
              args := [7; 5; 20] |});
    vm_compute; reflexivity.
Defined.

Lemma delete_task_removes_row_and_jobs_witness :
  let r := delete_task 7 5 sample_early_scheduled in
  fst r = Ok tt /\
  (forall t, t ∈ tasks (snd r) <->
             t ∈ tasks sample_early_scheduled /\ task_id t <> 5) /\
  task_by_id 5 (snd r) = None /\
  (forall k, jobs (snd r) !! k =
             if bool_decide (k = main_job_id 5 \/ k = early_job_id 5)
             then None else jobs sample_early_scheduled !! k) /\
  categories (snd r) = categories sample_early_scheduled.
Proof.
  apply (delete_task_removes_row_and_jobs sample_early_scheduled 7 5 sample_early
           {| func := f_send_reminder; trigger := CronTime 9 0; args := [7; 5] |}
           {| func := f_send_early_reminder; trigger := CronTime 8 40;
              args := [7; 5; 20] |});
    vm_compute; reflexivity.
Defined.

Lemma edit_refused_no_effect_witness :
  no_effect (edit_new_value_text 7 "time" 5 "25:00" sample_now) sample_scheduled /\
  exists msg, outbox (snd (edit_new_value_text 7 "time" 5 "25:00" sample_now
                             sample_scheduled))
              = outbox sample_scheduled ++ [reply msg].
Proof.
  apply (edit_refused_no_effect sample_scheduled 7 5 sample_daily "time" "25:00"
           sample_now).
  - vm_compute. reflexivity.
  - left. split; reflexivity.
Defined.

Lemma get_trigger_degenerate_repeat_witness :
  get_trigger (set_repeat "interval" None 0 sample_task) false sample_now
    = get_trigger (set_repeat "none" None 0
                     (set_repeat "interval" None 0 sample_task)) false sample_now.
Proof.
  apply (get_trigger_degenerate_repeat (set_repeat "interval" None 0 sample_task)
           false sample_now).
  right. split; reflexivity.
Defined.

(** The text sent ends with a no-break space (U+00A0). *)
Lemma rename_category_by_owner_witness :
  let r := rename_category 7 2 " garden " sample_world in
  tasks (snd r) = tasks sample_world /\
  jobs (snd r) = jobs sample_world /\
  length (categories (snd r)) = length (categories sample_world) /\
  (Py.strip " garden " = EmptyString ->
     fst r = Ok tt /\ categories (snd r) = categories sample_world) /\
  (Py.strip " garden " <> EmptyString ->
     fst r = Raise AttributeError /\
     outbox (snd r) = outbox sample_world ++ [reply TxtCategoryRenamed] /\
     category_of_user 2 7 (snd r)
       = Some (set_cat_name (Py.strip " garden ") sample_category) /\
     (forall c0, cat_id c0 <> 2 ->
                 (c0 ∈ categories (snd r) <-> c0 ∈ categories sample_world))).
Proof.
  apply (rename_category_by_owner sample_world 7 2 " garden " sample_category).
  reflexivity.
Defined.

Lemma reminder_after_category_deleted_witness :
  let w' := snd (confirm_delete_category 7 2 sample_scheduled) in
  notifications (snd (send_reminder 7 5 w'))
    = notifications w'
      ++ [send_message 7 (TxtReminder (title sample_daily) None
                                      (due_time sample_daily) (task_id sample_daily))].
Proof.
  apply (reminder_after_category_deleted sample_scheduled 7 2 sample_category
           7 5 sample_daily); vm_compute; reflexivity.
Defined.

Lemma early_one_shot_instant_witness :
  let t := set_due_time "00:10" (set_reminder_offset 20 sample_task) in
  let x := combine_due (start_date t) 0 10 - reminder_offset t * us_per_minute
           + (if (0 =? 0) && (10 <? reminder_offset t) then us_per_day else 0) in
  exists tr,
    get_trigger t true sample_now = Ok tr /\
    fire_instant tr = Some (if x <? sample_now then x + us_per_day else x).
Proof.
  apply (early_one_shot_instant
           (set_due_time "00:10" (set_reminder_offset 20 sample_task)) 0 10 sample_now);
    [reflexivity | reflexivity | reflexivity | closed_arith | closed_arith].
Defined.

Lemma repeat_text_names_the_trigger_witness :
  get_repeat_text
    (set_repeat "weekly" (Some "mon,fri"%string) 0 sample_task) =
    "По дням: " +:+ Py.join ", " (omap days_map_get (Py.split "," "mon,fri")).
Proof.
  apply (repeat_text_names_the_trigger
           (set_repeat "weekly" (Some "mon,fri"%string) 0 sample_task)
           false sample_now (CronWeekly "mon,fri" 9 0)).
  reflexivity.
Defined.

(** 15.04.2024 with the second digit of the day and the year written in
    Arabic-Indic digits. *)
Lemma validate_date_sound_witness :
  exists d m y,
    strptime_dmY "1٥.04.٢٠٢٤" = Some (ymd2ord y m d) /\
    1 <= y <= 9999 /\ 1 <= m <= 12 /\ 1 <= d <= days_in_month y m /\
    (m = 2 -> d = 29 -> is_leap y = true) /\
    MINORDINAL <= ymd2ord y m d <= MAXORDINAL.
Proof.
  apply (validate_date_sound "1٥.04.٢٠٢٤").
  reflexivity.
Defined.

Lemma repeat_days_select_toggles_witness :
  let c := {| world := sample_world; fsm_state := Some AddTask_repeat_days;
              fsm_data := set_d_repeat_days (DaysList ["mon"; "tue"]%string) empty_data;
              prompts := [] |} in
  exists l',
    fst (add_task_repeat_days_select "day_tue" c) = Done /\
    d_repeat_days (fsm_data (snd (add_task_repeat_days_select "day_tue" c)))
      = Some (DaysList l') /\
    fsm_state (snd (add_task_repeat_days_select "day_tue" c)) = fsm_state c /\
    NoDup l' /\
    (drop4 "day_tue" ∈ l' <-> drop4 "day_tue" ∉ ["mon"; "tue"]%string) /\
    (forall d, d <> drop4 "day_tue" -> (d ∈ l' <-> d ∈ ["mon"; "tue"]%string)).
Proof.
  apply (repeat_days_select_toggles
           {| world := sample_world; fsm_state := Some AddTask_repeat_days;
              fsm_data := set_d_repeat_days (DaysList ["mon"; "tue"]%string) empty_data;
              prompts := [] |} "day_tue" ["mon"; "tue"]%string).
  - reflexivity.
  - apply (bool_decide_unpack _). vm_compute. reflexivity.
Defined.

Lemma repeat_days_done_spec_witness :
  let c := {| world := sample_world; fsm_state := Some AddTask_repeat_days;
              fsm_data := set_d_repeat_days (DaysList ["mon"; "fri"]%string) empty_data;
              prompts := [] |} in
  (["mon"; "fri"]%string = [] ->
     add_task_repeat_days_done c = (Done, say PNoDayChosen c)) /\
  (["mon"; "fri"]%string <> [] ->
     exists s,
       add_task_repeat_days_done c
         = (Done, say PEnterOffset
                    (set_fsm_state (Some AddTask_reminder_offset)
                       (set_fsm_data (set_d_repeat_days (DaysStr s)) c))) /\
       Py.split "," s = ["mon"; "fri"]%string /\
       (forall h m, valid_time_of_day h m = true ->
                    CronTrigger_dow s h m = Ok (CronWeekly s h m))).
Proof.
  apply (repeat_days_done_spec
           {| world := sample_world; fsm_state := Some AddTask_repeat_days;
              fsm_data := set_d_repeat_days (DaysList ["mon"; "fri"]%string) empty_data;
              prompts := [] |} ["mon"; "fri"]%string).
  - reflexivity.
  - repeat constructor.
Defined.

(** The name sent ends with a no-break space (U+00A0). *)
Lemma add_category_name_create_or_reuse_witness :
  let c := {| world := sample_world; fsm_state := Some AddCategory_name;
              fsm_data := empty_data; prompts := [] |} in
  let name := Py.strip " garden " in
  let r := add_category_name 7 " garden " c in
  fst r = Done /\
  fsm_state (snd r) = Some AddTask_start_date /\
  tasks (world (snd r)) = tasks (world c) /\
  jobs (world (snd r)) = jobs (world c) /\
  (exists cat,
     category_by_name 7 name (world (snd r)) = Some cat /\
     cat_user_id cat = 7 /\ cat_name cat = name /\
     d_category_id (fsm_data (snd r)) = Some (cat_id cat) /\
     match category_by_name 7 name (world c) with
     | Some old => cat = old /\ categories (world (snd r)) = categories (world c)
     | None =>
         categories (world (snd r)) = categories (world c) ++ [cat] /\
         cat_id cat ∉ cat_id <$> categories (world c)
     end) /\
  categories (world (snd (add_category_name 7 " garden " (snd r))))
    = categories (world (snd r)).
Proof.
  apply (add_category_name_create_or_reuse 7 " garden "
           {| world := sample_world; fsm_state := Some AddCategory_name;
              fsm_data := empty_data; prompts := [] |}).
  vm_compute. discriminate.
Defined.

(** An offset of 90 minutes, and one of 2^63 minutes, which the dialogue
    accepts as well. *)
Lemma save_task_commits_before_scheduling_witness :
  (let c := sample_offset_chat 90 in
   let r := save_task 7 739000 sample_now c in
   let n := default 0 (d_interval_days (fsm_data c)) in
   let off := default 0 (d_reminder_offset (fsm_data c)) in
   (sql_integer n && sql_integer off = false ->
      r = (Raised (Exn OverflowError), c)) /\
   (sql_integer n && sql_integer off = true ->
      exists task,
        title task = "feed the cat"%string /\ due_time task = "09:00"%string /\
        interval_days task = n /\ reminder_offset task = off /\
        tasks (world (snd r)) = tasks (world c) ++ [task] /\
        (task_id task ∉ (task_id <$> tasks (world c))) /\
        categories (world (snd r)) = categories (world c) /\
        (fst r = Done -> fsm_state (snd r) = None /\ fsm_data (snd r) = empty_data) /\
        (forall e, fst r = Raised e ->
           fsm_state (snd r) = fsm_state c /\ fsm_data (snd r) = fsm_data c /\
           exists task',
             tasks (world (snd (save_task 7 739000 sample_now (snd r))))
               = tasks (world c) ++ [task; task'] /\
             task_id task' = task_id task + 1 /\
             title task' = title task /\ due_time task' = due_time task))) /\
  save_task 7 739000 sample_now (sample_offset_chat (2 ^ 63))
    = (Raised (Exn OverflowError), sample_offset_chat (2 ^ 63)).
Proof.
  split.
  - apply (save_task_commits_before_scheduling 7 739000 sample_now
             (sample_offset_chat 90) "feed the cat" "09:00");
      [reflexivity | reflexivity | discriminate].
  - apply (save_task_commits_before_scheduling 7 739000 sample_now
             (sample_offset_chat (2 ^ 63)) "feed the cat" "09:00");
      [reflexivity | reflexivity | discriminate | reflexivity].
Defined.

Lemma add_dialogue_daily_witness :
  let c := sample_chat in
  let c1 := snd (add_task_start c) in
  let c2 := snd (add_task_title 7 "feed the cat" c1) in
  let c3 := snd (add_task_category_choice ("cat_" +:+ pretty 2) c2) in
  let c4 := snd (add_task_start_date "25.04.2024" 739000 c3) in
  let c5 := snd (add_task_time "7:30" c4) in
  let c6 := snd (add_task_repeat_type "repeat_daily" c5) in
  let r := add_task_reminder_offset 7 "15" 739000 sample_now c6 in
  let row := {| task_id := fresh_id (task_id <$> tasks (world c));
                user_id := 7; title := "feed the cat"; category_id := Some 2;
                due_time := "7:30"; start_date := 739001;
                repeat_type := "daily"; repeat_days := None; interval_days := 0;
                reminder_offset := 15; is_done := false;
                created_at := sample_now |} in
  fst r = Done /\
  tasks (world (snd r)) = tasks (world c) ++ [row] /\
  categories (world (snd r)) = categories (world c) /\
  fsm_state (snd r) = None /\ fsm_data (snd r) = empty_data /\
  jobs (world (snd r)) !! main_job_id (task_id row)
    = Some {| func := f_send_reminder; trigger := CronTime 7 30;
              args := [7; task_id row] |} /\
  jobs (world (snd r)) !! early_job_id (task_id row)
    = (if 0 <? 15
       then Some {| func := f_send_early_reminder;
                    trigger := CronTime (fst (early_time 7 30 15))
                                        (snd (early_time 7 30 15));
                    args := [7; task_id row; 15] |}
       else jobs (world c) !! early_job_id (task_id row)).
Proof.
  apply (add_dialogue_daily sample_chat 7 2 "feed the cat" "25.04.2024" "7:30" "15"
           739000 739001 sample_now 7 30 15);
    [reflexivity | reflexivity | right; reflexivity | reflexivity | reflexivity
     | closed_arith].
Defined.

Lemma run_keeps_jobs_consistent_witness :
  let w1 := snd (edit_category_choice 7 5 2 sample_now sample_world) in
  let w2 := snd (mark_done 7 5 w1) in
  store_inv sample_world /\ rtc step sample_world w2 /\
  NoDup (task_id <$> tasks w2) /\
  NoDup (cat_id <$> categories w2) /\
  (forall k j, jobs w2 !! k = Some j ->
     exists t, t ∈ tasks w2 /\ job_task j = Some (task_id t) /\
       (k = main_job_id (task_id t) \/ k = early_job_id (task_id t))) /\
  (forall k1 k2 j1 j2 tid,
     jobs w2 !! k1 = Some j1 -> jobs w2 !! k2 = Some j2 ->
     func j1 = func j2 -> job_task j1 = Some tid -> job_task j2 = Some tid ->
     k1 = k2 /\ j1 = j2).
Proof.
  intros w1 w2.
  assert (Hinv : store_inv sample_world).
  { split; [apply NoDup_singleton|]. split; [apply NoDup_singleton|].
    split; intros k j H; unfold sample_world in H; cbn [jobs] in H;
      by rewrite lookup_empty in H. }
  assert (Hrun : rtc step sample_world w2).
  { apply rtc_l with w1; [apply step_edit_category_choice|].
    apply rtc_once. apply step_mark_done. }
  split; [exact Hinv|]. split; [exact Hrun|].
  exact (run_keeps_jobs_consistent sample_world w2 Hinv Hrun).
Defined.

(** The edits of the daily task at 09:30 with its 80 minute offset. *)
Lemma edits_reschedule_both_jobs_witness :
  let w := sample_long_offset_scheduled in
  let task := sample_long_offset in
  (forall field text task',
     apply_field field text task = inr task' ->
     (reminder_offset task' =? reminder_offset task)
       || sql_integer (reminder_offset task') = true ->
     rescheduled 7 5 task' sample_now w
       (edit_new_value_text 7 field 5 text sample_now w)) /\
  (forall new_type,
     rescheduled 7 5 (apply_repeat_type new_type task) sample_now w
       (edit_repeat_type 7 5 new_type sample_now w)) /\
  (forall cid,
     rescheduled 7 5 (set_category_id (Some cid) task) sample_now w
       (edit_category_choice 7 5 cid sample_now w)) /\
  (forall text h m,
     strptime_HM text = Some (h, m) ->
     apply_field "time" text task = inr (set_due_time text task) /\
     (forall tr,
        get_trigger (set_due_time text task) false sample_now = Ok tr ->
        trigger_time_of_day tr = (h, m)) /\
     (forall tr',
        0 < reminder_offset task <= m + 60 ->
        get_trigger (set_due_time text task) true sample_now = Ok tr' ->
        trigger_time_of_day tr'
          = (fst (early_time h m (reminder_offset task)),
             snd (early_time h m (reminder_offset task))))).
Proof.
  apply (edits_reschedule_both_jobs sample_long_offset_scheduled 7 5
           sample_long_offset sample_now).
  reflexivity.
Defined.

(** ** The primitives beyond ASCII

    [int] reads the digits of other scripts and skips the white space of
    Unicode, but not U+001C to U+001F, which [strip] drops; [strip]
    drops the no-break space too; [strptime] takes a digit of another script
    where its expression has [\d], and not where it names ASCII digits. *)

Example int_beyond_ascii :
  Py.int "٢٠" = Some 20 /\ Py.int " -20 " = Some (-20) /\
  Py.int "1_000" = Some 1000 /\ Py.int (String "028" "5") = None /\
  Py.int "1 0" = None.
Proof. vm_compute. repeat split; reflexivity. Qed.

Example strip_beyond_ascii :
  Py.strip "  garden  " = "garden"%string /\
  Py.strip (String "028" " Р ") = "Р"%string /\
  Py.strip "  " = EmptyString.
Proof. vm_compute. repeat split; reflexivity. Qed.

Example strptime_beyond_ascii :
  strptime_HM "٣:٤" = Some (3, 4) /\
  strptime_HM "1٣:0٥" = Some (13, 5) /\
  strptime_HM "2٣:00" = None /\
  strptime_dmY "15.04.٢٠٢٤" = strptime_dmY "15.04.2024" /\
  strptime_dmY "15.٠٤.2024" = None.
Proof. vm_compute. repeat split; reflexivity. Qed.
